(** * doc_ling.py: the batch conversion pipeline, embedded and verified

    A shallow embedding of [src/doc_ling.py]: the path arithmetic of
    [pathlib], the exception discipline of [process_file], the job
    enumeration and the summary audit of [main].

    Layout: strings, exceptions, paths, the file system, the effect monad,
    the save helpers, [process_file], the worker loop, [main]; then the
    theorems. *)

From Stdlib Require Import String Ascii List Bool Arith Lia.
From stdpp Require Import base option list strings pretty gmap.

Import ListNotations.
Local Open Scope string_scope.
Local Open Scope nat_scope.
Local Open Scope list_scope.

(** ** Strings

    Python [str] is modelled by [string]; [lower] and [strip] act on the
    ASCII range, which is all the source's literals use. *)

Module Str.

(** [c.lower()] on one character. *)
Definition lower_ascii (c : ascii) : ascii :=
  let n := nat_of_ascii c in
  if (65 <=? n) && (n <=? 90) then ascii_of_nat (n + 32) else c.

(** [s.lower()]. *)
Fixpoint lower (s : string) : string :=
  match s with
  | EmptyString => EmptyString
  | String c s' => String (lower_ascii c) (lower s')
  end.

(** The characters [str.strip()] removes: space, tab, newline, vertical
    tab, form feed, carriage return and the four separators 28..31. *)
Definition is_whitespace (c : ascii) : bool :=
  let n := nat_of_ascii c in
  (n =? 32) || ((9 <=? n) && (n <=? 13)) || ((28 <=? n) && (n <=? 31)).

Fixpoint lstrip (s : string) : string :=
  match s with
  | EmptyString => EmptyString
  | String c s' => if is_whitespace c then lstrip s' else s
  end.

(** [s.strip()]: leading blanks go, then trailing ones. *)
Definition strip (s : string) : string :=
  String.rev (lstrip (String.rev (lstrip s))).

(** [s.rfind(c)]: the index of the last occurrence, [None] for Python's -1. *)
Fixpoint rfind (c : ascii) (s : string) : option nat :=
  match s with
  | EmptyString => None
  | String a s' =>
      match rfind c s' with
      | Some i => Some (S i)
      | None => if Ascii.eqb a c then Some 0 else None
      end
  end.

(** [s.split(sep)] for a one-character separator; [cur] is the piece being
    read. *)
Fixpoint split_go (sep : ascii) (cur : string) (s : string) : list string :=
  match s with
  | EmptyString => [String.rev cur]
  | String a s' =>
      if Ascii.eqb a sep then String.rev cur :: split_go sep EmptyString s'
      else split_go sep (String a cur) s'
  end.

Definition split (sep : ascii) (s : string) : list string :=
  split_go sep EmptyString s.

(** [sep.join(l)]. *)
Fixpoint join (sep : string) (l : list string) : string :=
  match l with
  | [] => ""
  | [x] => x
  | x :: rest => x +:+ sep +:+ join sep rest
  end.

(** [x in l] for a list of strings. *)
Definition mem (x : string) (l : list string) : bool :=
  existsb (String.eqb x) l.

(** [repr(s)] of a plain string: single quotes around it. *)
Definition repr (s : string) : string := "'" +:+ s +:+ "'".

End Str.

(** ** Exceptions

    The classes that the source names or that its library calls raise, with
    the part of Python's class hierarchy they sit in. *)

Inductive exc_class : Set :=
  | Exception
  | OSError
  | FileNotFoundError
  | FileExistsError
  | NotADirectoryError
  | IsADirectoryError
  | PermissionError
  | RuntimeError
  | NotImplementedError
  | ValueError
  | LookupError
  | KeyError
  | AttributeError
  | EOFError.

Global Instance exc_class_eq_dec : EqDecision exc_class.
Proof. solve_decision. Defined.

(** The direct base class ([Exception] stands for the top of what is
    modelled). *)
Definition base_class (c : exc_class) : option exc_class :=
  match c with
  | Exception => None
  | OSError | RuntimeError | ValueError | LookupError
  | AttributeError | EOFError => Some Exception
  | FileNotFoundError | FileExistsError | NotADirectoryError
  | IsADirectoryError | PermissionError => Some OSError
  | NotImplementedError => Some RuntimeError
  | KeyError => Some LookupError
  end.

(** [issubclass(c, d)]; the hierarchy above is three levels deep. *)
Definition issubclass (c d : exc_class) : bool :=
  bool_decide (c = d)
  || match base_class c with
     | None => false
     | Some b =>
         bool_decide (b = d)
         || match base_class b with
            | None => false
            | Some b' => bool_decide (b' = d)
            end
     end.

(** A raised exception: its class and [str(exc)]. *)
Record exn : Set := Exn { exn_class : exc_class; exn_text : string }.

(** Does [except (c1, c2, ...)] catch [e]? *)
Definition caught_by (classes : list exc_class) (e : exn) : bool :=
  existsb (issubclass (exn_class e)) classes.

(** What a call does: it returns a value or raises. *)
Inductive outcome (A : Type) : Type :=
  | Returns (a : A)
  | Raises (e : exn).
Arguments Returns {A} a.
Arguments Raises {A} e.

(** ** pathlib

    A [Path] is its anchor (absolute or not) and its components;
    [Path] of a/./b//c has the parts a, b, c, and [Path(".")] has none.
    [suffix] and [stem] are those of Python 3.12 and 3.13, the versions
    whose grammar accepts the f-string of lines 129-130. *)

Record Path : Set := mkPath { absolute : bool; parts : list string }.

Global Instance Path_eq_dec : EqDecision Path.
Proof. solve_decision. Defined.

Module PurePath.

Definition is_component (s : string) : bool :=
  negb (String.eqb s "") && negb (String.eqb s ".").

(** [Path(s)]. *)
Definition of_string (s : string) : Path :=
  {| absolute := match s with String "/" _ => true | _ => false end;
     parts := List.filter is_component (Str.split "/" s) |}.

(** [str(p)]. *)
Definition to_string (p : Path) : string :=
  match parts p with
  | [] => if absolute p then "/" else "."
  | _ => (if absolute p then "/" else "") +:+ Str.join "/" (parts p)
  end.

(** [p.name]: the last component, empty for the root and for [Path(".")]. *)
Definition name (p : Path) : string := List.last (parts p) "".

(** [p.parent]: the root and [Path(".")] are their own parents. *)
Definition parent (p : Path) : Path :=
  {| absolute := absolute p; parts := removelast (parts p) |}.

(** The index at which [p.suffix] starts: the last dot of the name, when
    it is neither the first nor the last character. *)
Definition suffix_index (nm : string) : option nat :=
  match Str.rfind "." nm with
  | Some i => if (0 <? i) && (i <? String.length nm - 1) then Some i else None
  | None => None
  end.

(** [p.suffix]. *)
Definition suffix (p : Path) : string :=
  let nm := name p in
  match suffix_index nm with
  | Some i => substring i (String.length nm - i) nm
  | None => ""
  end.

(** [p.stem]. *)
Definition stem (p : Path) : string :=
  let nm := name p in
  match suffix_index nm with
  | Some i => substring 0 i nm
  | None => nm
  end.

(** [p / q] for a path [q]: an absolute right operand wins. *)
Definition joinpath (p q : Path) : Path :=
  if absolute q then q
  else {| absolute := absolute p; parts := parts p ++ parts q |}.

(** [p / s] for a string [s]. *)
Definition join_str (p : Path) (s : string) : Path := joinpath p (of_string s).

(** [l] without its prefix [pre], when [pre] is one. *)
Fixpoint strip_prefix (pre l : list string) : option (list string) :=
  match pre, l with
  | [], _ => Some l
  | x :: pre', y :: l' => if String.eqb x y then strip_prefix pre' l' else None
  | _ :: _, [] => None
  end.

(** [p.relative_to(base)]: [ValueError] unless [base] is an ancestor of
    [p] (or [p] itself), component by component. *)
Definition relative_to (p base : Path) : outcome Path :=
  if negb (Bool.eqb (absolute p) (absolute base)) then
    Raises (Exn ValueError
              (Str.repr (to_string p) +:+ " and " +:+ Str.repr (to_string base)
               +:+ " have different anchors"))
  else
    match strip_prefix (parts base) (parts p) with
    | Some rest => Returns {| absolute := false; parts := rest |}
    | None =>
        Raises (Exn ValueError
                  (Str.repr (to_string p) +:+ " is not in the subpath of "
                   +:+ Str.repr (to_string base)))
    end.

End PurePath.

Notation "p // q" := (PurePath.joinpath p q) (at level 40, left associativity).
Notation "p /' s" := (PurePath.join_str p s) (at level 40, left associativity).

(** ** The world process_file and main act on

    The file system is a list of entries keyed by the path as the program
    writes it (no symbolic links, no resolution against the working
    directory); the log is the sequence of lines appended to
    [conversion.log]; every [Reader(...)] construction, every [readtext]
    call and every start of a pool is recorded, so that claims about them
    can be stated. *)

(** The document model that the conversion engine returns (opaque here). *)
Definition DoclingDocument : Set := nat.

Record ConversionResult : Set := { document : DoclingDocument }.

(** What a regular file holds: a document as an encoder wrote it, the rows
    of a CSV file, a file that was opened for writing and holds nothing
    complete, or anything else. *)
Inductive content : Set :=
  | Encoded (how : string) (doc : DoclingDocument)
  | CsvRows (rows : list (list string))
  | Truncated
  | OtherData.

Inductive node : Set :=
  | Directory
  | Regular (c : content).

(** An [easyocr.Reader]: which construction it came from and its device. *)
Record Reader : Set := { reader_id : nat; reader_gpu : bool }.

Global Instance Reader_eq_dec : EqDecision Reader.
Proof. solve_decision. Defined.

Record World : Type := {
  conversion_log : list string;
  disk : list (Path * node);
  readers_created : list Reader;
  readtext_calls : list (Reader * Path);
  stdin : list string;
  pools_started : nat
}.

(** What the external collaborators do; the program is verified for every
    choice of them. *)
Record Collaborators : Type := {
  (** [DocumentConverter().convert(s)] *)
  convert : string -> outcome ConversionResult;
  (** [reader.readtext(s)]: the detected lines *)
  readtext : Reader -> string -> outcome (list string);
  (** the document model's encoders ([save_as_html], [save_as_json],
      [save_as_markdown], [export_to_text], [export_to_doctags]): the
      exception one raises while it builds the text, before the target
      file is opened, if any *)
  encode : string -> DoclingDocument -> Path -> option exn;
  (** the exception raised while the text is written into the opened
      target file, if any (a [UnicodeEncodeError], which is a
      [ValueError], or an [OSError]); the file then stays as [open] left
      it *)
  write_error : string -> DoclingDocument -> Path -> option exn;
  (** the names of the picture files that a save with
      [ImageRefMode.REFERENCED] stores beside the target *)
  picture_files : DoclingDocument -> list string;
  (** [datetime.now().isoformat()] at the i-th summary row *)
  now_iso : nat -> string;
  (** [time.time() - start_time], formatted with two decimals *)
  elapsed : string;
  (** [Path(__file__).resolve().parent] *)
  script_dir : Path
}.

(** The module-level names of doc_ling.py that [process_file] reads. *)
Record ModuleGlobals : Set := {
  GPU_AVAILABLE : bool;
  OCR_READER_GPU : option Reader;
  OCR_READER_CPU : option Reader
}.

(** Their values once the module is imported (lines 12-19): no statement of
    the file assigns the two readers afterwards. *)
Definition module_at_import (easyocr_importable : bool) : ModuleGlobals :=
  {| GPU_AVAILABLE := easyocr_importable;
     OCR_READER_GPU := None;
     OCR_READER_CPU := None |}.

Module FS.

(** The entry at [p]; the root and the working directory always exist. *)
Definition lookup_node (d : list (Path * node)) (p : Path) : option node :=
  match parts p with
  | [] => Some Directory
  | _ => snd <$> List.find (fun e => bool_decide (fst e = p)) d
  end.

(** [p.exists()], [p.is_dir()], [p.is_file()]. *)
Definition exists_ (d : list (Path * node)) (p : Path) : bool :=
  match lookup_node d p with Some _ => true | None => false end.

Definition is_dir (d : list (Path * node)) (p : Path) : bool :=
  match lookup_node d p with Some Directory => true | _ => false end.

Definition is_file (d : list (Path * node)) (p : Path) : bool :=
  match lookup_node d p with Some (Regular _) => true | _ => false end.

(** Is [p] a proper descendant of [top]? *)
Definition below (top p : Path) : bool :=
  Bool.eqb (absolute top) (absolute p)
  && match PurePath.strip_prefix (parts top) (parts p) with
     | Some (_ :: _) => true
     | _ => false
     end.

(** [top.rglob("*")]: every entry below [top], directories included;
    nothing when [top] is not a directory. *)
Definition rglob (d : list (Path * node)) (top : Path) : list Path :=
  if is_dir d top then map fst (List.filter (fun e => below top (fst e)) d)
  else [].

(** Create or overwrite the regular file [p]. *)
Fixpoint put (p : Path) (c : content) (d : list (Path * node))
  : list (Path * node) :=
  match d with
  | [] => [(p, Regular c)]
  | e :: d' =>
      if bool_decide (fst e = p) then (p, Regular c) :: d' else e :: put p c d'
  end.

(** [p / name] for a single component [name]. *)
Definition child (p : Path) (name : string) : Path :=
  mkPath (absolute p) (parts p ++ [name]).

(** The entry of the nearest ancestor that has one; [rparts] holds the
    components of the path, the last one first.  On a disk whose entries
    have their parents, this is where the walk down the path stops. *)
Fixpoint nearest_entry (d : list (Path * node)) (abs : bool)
    (rparts : list string) : node :=
  match rparts with
  | [] => Directory
  | _ :: up =>
      match lookup_node d (mkPath abs (rev rparts)) with
      | Some n => n
      | None => nearest_entry d abs up
      end
  end.

(** [open(p, "w")], leaving [c] in the file: the file is created, or
    emptied when it exists.  It fails when [p] is a directory
    ([IsADirectoryError]) and when the directory of [p] is not one:
    [NotADirectoryError] when the walk down to it stops at a regular file,
    [FileNotFoundError] when it stops at a missing name. *)
Definition write (p : Path) (c : content) (d : list (Path * node))
  : outcome (list (Path * node)) :=
  if is_dir d (PurePath.parent p) then
    if is_dir d p then
      Raises (Exn IsADirectoryError
                ("[Errno 21] Is a directory: " +:+ Str.repr (PurePath.to_string p)))
    else Returns (put p c d)
  else
    match nearest_entry d (absolute p) (rev (parts (PurePath.parent p))) with
    | Regular _ =>
        Raises (Exn NotADirectoryError
                  ("[Errno 20] Not a directory: "
                   +:+ Str.repr (PurePath.to_string p)))
    | Directory =>
        Raises (Exn FileNotFoundError
                  ("[Errno 2] No such file or directory: "
                   +:+ Str.repr (PurePath.to_string p)))
    end.

(** [p.mkdir(parents=True, exist_ok=True)], walking down from the anchor:
    [seen] is the part of the path already known to be a directory. *)
Fixpoint mkdir_go (abs : bool) (seen todo : list string)
    (d : list (Path * node)) : outcome (list (Path * node)) :=
  match todo with
  | [] => Returns d
  | x :: todo' =>
      let p := mkPath abs (seen ++ [x]) in
      match lookup_node d p with
      | Some Directory => mkdir_go abs (seen ++ [x]) todo' d
      | Some (Regular _) =>
          match todo' with
          | [] => Raises (Exn FileExistsError
                            ("[Errno 17] File exists: "
                             +:+ Str.repr (PurePath.to_string p)))
          | _ => Raises (Exn NotADirectoryError
                           ("[Errno 20] Not a directory: "
                            +:+ Str.repr (PurePath.to_string (mkPath abs (seen ++ todo)))))
          end
      | None => mkdir_go abs (seen ++ [x]) todo' (d ++ [(p, Directory)])
      end
  end.

Definition mkdir (p : Path) (d : list (Path * node))
  : outcome (list (Path * node)) :=
  mkdir_go (absolute p) [] (parts p) d.

End FS.

(** ** Effects: state and exceptions

    A computation takes the world and gives an outcome and the world it
    leaves; what was logged or written before a raise stays. *)

Definition M (A : Type) : Type := World -> outcome A * World.

Global Instance M_ret : MRet M := fun A a w => (Returns a, w).

Global Instance M_bind : MBind M := fun A B f m w =>
  match m w with
  | (Returns a, w') => f a w'
  | (Raises e, w') => (Raises e, w')
  end.

Definition raise {A} (e : exn) : M A := fun w => (Raises e, w).

(** A pure call that may raise. *)
Definition lift {A} (o : outcome A) : M A := fun w => (o, w).

(** [try: body  except classes as exc: handler exc]. *)
Definition try_except {A} (body : M A) (classes : list exc_class)
    (handler : exn -> M A) : M A := fun w =>
  match body w with
  | (Returns a, w') => (Returns a, w')
  | (Raises e, w') => if caught_by classes e then handler e w' else (Raises e, w')
  end.

(** [log(message)], lines 25-41: one line more in conversion.log (and on
    the console); the log file is taken to be writable. *)
Definition log (message : string) : M unit := fun w =>
  (Returns tt,
   {| conversion_log := conversion_log w ++ [message];
      disk := disk w;
      readers_created := readers_created w;
      readtext_calls := readtext_calls w;
      stdin := stdin w;
      pools_started := pools_started w |}).

(** [input(prompt)]: the next line of standard input. *)
Definition input : M string := fun w =>
  match stdin w with
  | [] => (Raises (Exn EOFError "EOF when reading a line"), w)
  | l :: rest =>
      (Returns l,
       {| conversion_log := conversion_log w;
          disk := disk w;
          readers_created := readers_created w;
          readtext_calls := readtext_calls w;
          stdin := rest;
          pools_started := pools_started w |})
  end.

Definition set_disk (d : list (Path * node)) (w : World) : World :=
  {| conversion_log := conversion_log w;
     disk := d;
     readers_created := readers_created w;
     readtext_calls := readtext_calls w;
     stdin := stdin w;
     pools_started := pools_started w |}.

(** A file system call: the disk changes when it returns. *)
Definition on_disk (f : list (Path * node) -> outcome (list (Path * node)))
  : M unit := fun w =>
  match f (disk w) with
  | Returns d => (Returns tt, set_disk d w)
  | Raises e => (Raises e, w)
  end.

(** [Reader(['en'], gpu=b)]: a new handle each time it is called. *)
Definition new_Reader (gpu : bool) : M Reader := fun w =>
  let r := {| reader_id := length (readers_created w); reader_gpu := gpu |} in
  (Returns r,
   {| conversion_log := conversion_log w;
      disk := disk w;
      readers_created := readers_created w ++ [r];
      readtext_calls := readtext_calls w;
      stdin := stdin w;
      pools_started := pools_started w |}).

(** [r.readtext(str(p))]: the call is recorded, then the engine answers. *)
Definition call_readtext (c : Collaborators) (r : Reader) (p : Path)
  : M (list string) := fun w =>
  (readtext c r (PurePath.to_string p),
   {| conversion_log := conversion_log w;
      disk := disk w;
      readers_created := readers_created w;
      readtext_calls := readtext_calls w ++ [(r, p)];
      stdin := stdin w;
      pools_started := pools_started w |}).

(** ** The save helpers (lines 44-67)

    Each one has the document model write (or export, and then write) the
    file, and logs the saved path.  The document model belongs to
    docling_core; what its [save_as_...] methods and [Path.write_text] do
    to the disk is modelled step by step: the folder of pictures first
    where pictures are referenced, then the export, then [open] and the
    write, each of which can fail and leave behind what the steps before it
    did. *)

Definition SaveFunc : Type := DoclingDocument -> Path -> M unit.

(** docling_core's [ImageRefMode]. *)
Inductive ImageRefMode : Set := PLACEHOLDER | EMBEDDED | REFERENCED.

Global Instance ImageRefMode_eq_dec : EqDecision ImageRefMode.
Proof. solve_decision. Defined.

(** The content of the file at [p] becomes [c]. *)
Definition set_content (p : Path) (c : content) : M unit := fun w =>
  (Returns tt, set_disk (FS.put p c (disk w)) w).

(** The folder in which a save with [ImageRefMode.REFERENCED] stores the
    pictures: beside the target, named after it without its suffix and
    with [_artifacts] added. *)
Definition artifacts_dir (file_path : Path) : Path :=
  FS.child (PurePath.parent file_path) (PurePath.stem file_path +:+ "_artifacts").

(** The picture files are stored in the folder one after the other. *)
Fixpoint store_pictures (folder : Path) (names : list string) : M unit :=
  match names with
  | [] => mret tt
  | name :: rest =>
      on_disk (FS.write (FS.child folder name) OtherData);;
      store_pictures folder rest
  end.

(** What a [save_as_...] of the document model does before it exports.
    [_get_output_paths] names the folder for the pictures, for which
    [with_suffix] refuses a target without a name; with
    [ImageRefMode.REFERENCED] the folder is then made ([os.makedirs] with
    [exist_ok]) and the pictures are stored in it. *)
Definition prepare_output (c : Collaborators) (image_mode : ImageRefMode)
    (doc : DoclingDocument) (file_path : Path) : M unit :=
  match parts file_path with
  | [] =>
      raise (Exn ValueError
               ("PosixPath(" +:+ Str.repr (PurePath.to_string file_path)
                +:+ ") has an empty name"))
  | _ =>
      match image_mode with
      | REFERENCED =>
          on_disk (FS.mkdir (artifacts_dir file_path));;
          store_pictures (artifacts_dir file_path) (picture_files c doc)
      | _ => mret tt
      end
  end.

(** [open(file_path, "w")] and the write into it.  The file is created or
    emptied first; when the text cannot be written, the exception leaves
    the file behind as [open] left it. *)
Definition open_and_write (c : Collaborators) (how : string)
    (doc : DoclingDocument) (file_path : Path) : M unit :=
  on_disk (FS.write file_path Truncated);;
  match write_error c how doc file_path with
  | Some e => raise e
  | None => set_content file_path (Encoded how doc)
  end.

(** The encoder named [how] produces the file at [file_path];
    [image_mode] is the [image_mode] argument of the call, if it has one
    ([write_text] of an exported text has none). *)
Definition write_document (c : Collaborators) (how : string)
    (image_mode : option ImageRefMode)
    (doc : DoclingDocument) (file_path : Path) : M unit :=
  (match image_mode with
   | Some mode => prepare_output c mode doc file_path
   | None => mret tt
   end);;
  match encode c how doc file_path with
  | Some e => raise e
  | None => open_and_write c how doc file_path
  end.

Definition _save_html (c : Collaborators) : SaveFunc := fun doc file_path =>
  write_document c "save_as_html" (Some REFERENCED) doc file_path;;
  log ("Saved HTML to " +:+ PurePath.to_string file_path).

Definition _save_json (c : Collaborators) : SaveFunc := fun doc file_path =>
  write_document c "save_as_json" (Some PLACEHOLDER) doc file_path;;
  log ("Saved JSON to " +:+ PurePath.to_string file_path).

Definition _save_markdown (c : Collaborators) : SaveFunc := fun doc file_path =>
  write_document c "save_as_markdown" (Some PLACEHOLDER) doc file_path;;
  log ("Saved Markdown to " +:+ PurePath.to_string file_path).

Definition _save_text (c : Collaborators) : SaveFunc := fun doc file_path =>
  write_document c "export_to_text" None doc file_path;;
  log ("Saved Text to " +:+ PurePath.to_string file_path).

Definition _save_doctags (c : Collaborators) : SaveFunc := fun doc file_path =>
  write_document c "export_to_doctags" None doc file_path;;
  log ("Saved Doctags to " +:+ PurePath.to_string file_path).

(** ** process_file (lines 70-139)

    The constructors [Reader(...)] and [DocumentConverter()] are taken to
    return; every other call of the function can raise. *)

(** The dictionary of lines 103-109. *)
Definition handlers (c : Collaborators) : gmap string SaveFunc :=
  list_to_map
    [("html", _save_html c);
     ("json", _save_json c);
     ("md", _save_markdown c);
     ("txt", _save_text c);
     ("doctags", _save_doctags c)].

(** Lines 98-100: when OCR is on, easyocr is there and no accelerated
    reader was handed in, two readers are built and bound to the
    parameters (not to the module-level names). *)
Definition init_readers (g : ModuleGlobals) (use_gpu : bool)
    (ocr_reader_gpu ocr_reader_cpu : option Reader)
  : M (option Reader * option Reader) :=
  if use_gpu && GPU_AVAILABLE g && bool_decide (ocr_reader_gpu = None) then
    rg ← new_Reader true;
    rc ← new_Reader false;
    mret (Some rg, Some rc)
  else mret (ocr_reader_gpu, ocr_reader_cpu).

(** Line 115: is the job one that OCR applies to? *)
Definition ocr_eligible (use_gpu : bool) (file_path : Path) : bool :=
  use_gpu
  && Str.mem (Str.lower (PurePath.suffix file_path)) [".jpg"; ".jpeg"; ".png"].

(** Lines 117-122: the accelerated attempt.  It reads the module-level
    [OCR_READER_GPU]; calling [readtext] on [None] is an [AttributeError]. *)
Definition gpu_attempt (c : Collaborators) (g : ModuleGlobals) (file_path : Path)
  : M unit :=
  if GPU_AVAILABLE g then
    match OCR_READER_GPU g with
    | None =>
        raise (Exn AttributeError "'NoneType' object has no attribute 'readtext'")
    | Some r =>
        ocr_result ← call_readtext c r file_path;
        log ("GPU OCR result for " +:+ PurePath.name file_path +:+ ": "
             +:+ pretty (length ocr_result) +:+ " lines detected")
    end
  else raise (Exn RuntimeError "GPU not available").

(** Lines 124-130: the handler of the inner [except]. *)
Definition cpu_fallback (c : Collaborators) (g : ModuleGlobals) (file_path : Path)
    (ocr_reader_cpu : option Reader) : M unit :=
  match OCR_READER_CPU g with
  | Some _ =>
      match ocr_reader_cpu with
      | Some r =>
          log ("GPU OCR failed for " +:+ PurePath.name file_path
               +:+ ", falling back to CPU OCR.");;
          ocr_result ← call_readtext c r file_path;
          log ("CPU OCR result for " +:+ PurePath.name file_path +:+ ": "
               +:+ pretty (length ocr_result) +:+ " lines detected")
      | None => mret tt
      end
  | None => mret tt
  end.

(** Lines 116-130: the inner try statement. *)
Definition ocr_block (c : Collaborators) (g : ModuleGlobals) (file_path : Path)
    (ocr_reader_cpu : option Reader) : M unit :=
  try_except (gpu_attempt c g file_path) [RuntimeError; ValueError]
    (fun _ => cpu_fallback c g file_path ocr_reader_cpu).

(** Lines 132-134: the directory the job's output goes to. *)
Definition task_target_dir (output_root : Path) (format_key : string)
    (input_base file_path : Path) : outcome Path :=
  let input_name := PurePath.name input_base in
  match PurePath.relative_to (PurePath.parent file_path) input_base with
  | Returns relative_path =>
      Returns (output_root /' format_key /' input_name // relative_path)
  | Raises e => Raises e
  end.

(** Line 136: the file in it. *)
Definition task_target_file (target_dir file_path : Path) (ext : string) : Path :=
  target_dir /' (PurePath.stem file_path +:+ "." +:+ ext).

(** Lines 113-137: the body of the outer try statement. *)
Definition task_body (c : Collaborators) (g : ModuleGlobals)
    (file_path : Path) (ext : string) (output_root : Path) (format_key : string)
    (input_base : Path) (use_gpu : bool) (ocr_reader_cpu : option Reader)
    (save_func : SaveFunc) : M unit :=
  res ← lift (convert c (PurePath.to_string file_path));
  (if ocr_eligible use_gpu file_path
   then ocr_block c g file_path ocr_reader_cpu
   else mret tt);;
  target_dir ← lift (task_target_dir output_root format_key input_base file_path);
  on_disk (FS.mkdir target_dir);;
  let target_file := task_target_file target_dir file_path ext in
  save_func (document res) target_file.

(** Lines 112 and 138-139: the task boundary. *)
Definition task_boundary : list exc_class :=
  [FileNotFoundError; RuntimeError; ValueError].

Definition error_line (file_path : Path) (exc : exn) : string :=
  "Error processing " +:+ PurePath.name file_path +:+ ": " +:+ exn_text exc.

Definition process_file (c : Collaborators) (g : ModuleGlobals)
    (file_path : Path) (ext : string) (output_root : Path) (format_key : string)
    (input_base : Path) (use_gpu : bool)
    (ocr_reader_gpu ocr_reader_cpu : option Reader) : M unit :=
  rs ← init_readers g use_gpu ocr_reader_gpu ocr_reader_cpu;
  let ocr_reader_cpu := snd rs in
  match handlers c !! format_key with
  | None => raise (Exn KeyError (Str.repr format_key))
  | Some save_func =>
      try_except
        (task_body c g file_path ext output_root format_key input_base use_gpu
           ocr_reader_cpu save_func)
        task_boundary
        (fun exc => log (error_line file_path exc))
  end.

(** ** A pool worker

    A worker of [multiprocessing.Pool] takes jobs off the queue one after
    the other; it runs each in its own copy of the module, whose globals
    persist from job to job, and it hands an exception of the task to the
    parent instead of dying of it. *)

Fixpoint worker (task : Path -> M unit) (jobs : list Path) (w : World)
  : list (outcome unit) * World :=
  match jobs with
  | [] => ([], w)
  | job :: rest =>
      let '(r, w1) := task job w in
      let '(rs, w2) := worker task rest w1 in
      (r :: rs, w2)
  end.

(** The first exception among the results, which is the one that iterating
    over [pool.imap(...)] raises in the parent. *)
Fixpoint first_failure (rs : list (outcome unit)) : option exn :=
  match rs with
  | [] => None
  | Returns _ :: rest => first_failure rest
  | Raises e :: _ => Some e
  end.

(** Lines 190-201, for the schedule in which one worker consumes the whole
    queue in order (the parallel interleavings are not modelled). *)
Definition start_pool : M unit := fun w =>
  (Returns tt,
   {| conversion_log := conversion_log w;
      disk := disk w;
      readers_created := readers_created w;
      readtext_calls := readtext_calls w;
      stdin := stdin w;
      pools_started := S (pools_started w) |}).

Definition imap_results (task : Path -> M unit) (files : list Path) : M unit :=
  fun w =>
    let '(rs, w') := worker task files w in
    match first_failure rs with
    | Some e => (Raises e, w')
    | None => (Returns tt, w')
    end.

Definition pool_imap (task : Path -> M unit) (files : list Path) : M unit :=
  start_pool;;
  imap_results task files.

(** ** main (lines 142-226) *)

Definition format_map : gmap string string :=
  list_to_map
    [("1", "html"); ("2", "json"); ("3", "md"); ("4", "txt"); ("5", "doctags")].

Definition supported_exts : list string :=
  [".pdf"; ".jpg"; ".jpeg"; ".png"; ".tiff"; ".bmp"].

(** Line 183: the filter of the comprehension. *)
Definition supported (f : Path) : bool :=
  Str.mem (Str.lower (PurePath.suffix f)) supported_exts.

(** Lines 182-183: the list of jobs. *)
Definition enumerate_files (d : list (Path * node)) (source_path : Path)
  : list Path :=
  if FS.is_file d source_path then [source_path]
  else List.filter supported (FS.rglob d source_path).

(** Line 181. *)
Definition input_base_of (d : list (Path * node)) (source_path : Path) : Path :=
  if FS.is_dir d source_path then source_path else PurePath.parent source_path.

(** Lines 217-218 (and 206-208): the path the audit looks at. *)
Definition summary_output_path (base_output_dir : Path) (format_key : string)
    (input_base f : Path) (ext : string) : outcome Path :=
  match PurePath.relative_to (PurePath.parent f) input_base with
  | Returns rel =>
      Returns (base_output_dir /' format_key /' PurePath.name input_base // rel
               /' (PurePath.stem f +:+ "." +:+ ext))
  | Raises e => Raises e
  end.

(** [p.exists()] now. *)
Definition path_exists (p : Path) : M bool := fun w =>
  (Returns (FS.exists_ (disk w) p), w).

(** Lines 206-208: the generator summed for [success_count]. *)
Fixpoint count_successes (base_output_dir : Path) (format_key : string)
    (input_base : Path) (ext : string) (files : list Path) : M nat :=
  match files with
  | [] => mret 0
  | f :: rest =>
      output_path ← lift (summary_output_path base_output_dir format_key input_base f ext);
      present ← path_exists output_path;
      n ← count_successes base_output_dir format_key input_base ext rest;
      mret (Nat.b2n present + n)
  end.

(** [csv_writer.writerow(row)] on the file opened at [csv_path]. *)
Definition append_row (csv_path : Path) (row : list string)
    (d : list (Path * node)) : list (Path * node) :=
  map (fun e =>
         if bool_decide (fst e = csv_path) then
           match snd e with
           | Regular (CsvRows rows) => (fst e, Regular (CsvRows (rows ++ [row])))
           | _ => e
           end
         else e) d.

Definition writerow (csv_path : Path) (row : list string) : M unit := fun w =>
  (Returns tt, set_disk (append_row csv_path row (disk w)) w).

(** Lines 216-220: one row per job; [i] counts the rows written so far. *)
Fixpoint write_rows (c : Collaborators) (csv_path base_output_dir : Path)
    (format_key : string) (input_base : Path) (ext : string) (i : nat)
    (files : list Path) : M unit :=
  match files with
  | [] => mret tt
  | f :: rest =>
      output_path ← lift (summary_output_path base_output_dir format_key input_base f ext);
      present ← path_exists output_path;
      let status := if present : bool then "Success" else "Failed" in
      writerow csv_path [PurePath.to_string f; status; now_iso c i];;
      write_rows c csv_path base_output_dir format_key input_base ext (S i) rest
  end.

(** Lines 211-220: the summary file. *)
Definition write_summary (c : Collaborators) (base_output_dir : Path)
    (format_key : string) (input_base : Path) (ext : string)
    (files : list Path) : M unit :=
  let csv_path := base_output_dir /' "conversion_summary.csv" in
  on_disk (FS.write csv_path (CsvRows []));;
  writerow csv_path ["File"; "Status"; "Timestamp"];;
  write_rows c csv_path base_output_dir format_key input_base ext 0 files.

Definition rule : string := "================================================".
Definition nl : string := String "010"%char EmptyString.

(** Lines 185-226: everything after the three questions. *)
Definition run_batch (c : Collaborators) (g : ModuleGlobals)
    (source_path : Path) (format_key : string) (use_gpu : bool) : M unit :=
  let base_output_dir := script_dir c /' "output" in
  let ext := format_key in
  d ← (fun w => (Returns (disk w), w));
  let input_base := input_base_of d source_path in
  let files := enumerate_files d source_path in
  log rule;;
  log ("Processing... " +:+ PurePath.to_string source_path);;
  log (rule +:+ nl);;
  pool_imap
    (fun file_path =>
       process_file c g file_path ext base_output_dir format_key input_base
         use_gpu None None)
    files;;
  log (nl +:+ "Total document processing time: " +:+ elapsed c +:+ " seconds");;
  log rule;;
  log "done!";;
  success_count ← count_successes base_output_dir format_key input_base ext files;
  let failure_count := length files - success_count in
  write_summary c base_output_dir format_key input_base ext files;;
  log ("Successfully converted: " +:+ pretty success_count);;
  log ("Failed conversions: " +:+ pretty failure_count);;
  log ("Total files processed: " +:+ pretty (length files));;
  (if length files =? 0
   then log "Warning: No supported input files were found."
   else mret tt);;
  log rule.

Definition main (c : Collaborators) (easyocr_importable : bool) : M unit :=
  let g := module_at_import easyocr_importable in
  log "Welcome to Docling file format converter!";;
  line ← input;
  let source_input := Str.strip line in
  let source_path := PurePath.of_string source_input in
  present ← path_exists source_path;
  if negb present then log "File or folder does not exist. Exiting."
  else
    log (nl +:+ "Select output format:");;
    log "1. HTML   (image embedding and referencing supported)";;
    log "2. JSON   (lossless serialization of Docling Document)";;
    log "3. Markdown";;
    log "4. Text   (plain text, no Markdown markers)";;
    log "5. Doctags";;
    line ← input;
    let format_choice := Str.strip line in
    match format_map !! format_choice with
    | None => log "Invalid choice. Exiting."
    | Some "" => log "Invalid choice. Exiting."
    | Some format_key =>
        use_gpu ←
          (if GPU_AVAILABLE g
           then line ← input; mret (String.eqb (Str.lower (Str.strip line)) "y")
           else mret false);
        run_batch c g source_path format_key use_gpu
    end.

(** ** The output path as the specification words it (4.5)

    [outputRoot / formatKey / inputBaseName / parentOf(relativeSourcePath)]
    and, in it, [stem + "." + targetExt]. *)

Definition PathMapper (outputRoot : Path) (formatKey inputBaseName : string)
    (relativeParent : Path) (stem targetExt : string) : Path :=
  outputRoot /' formatKey /' inputBaseName // relativeParent
  /' (stem +:+ "." +:+ targetExt).

(** The value of the local [target_file] of [process_file], as a function of
    the arguments (lines 132-136 without the [mkdir]). *)
Definition task_output_path (output_root : Path) (format_key : string)
    (input_base file_path : Path) (ext : string) : outcome Path :=
  match task_target_dir output_root format_key input_base file_path with
  | Returns target_dir => Returns (task_target_file target_dir file_path ext)
  | Raises e => Raises e
  end.

(** ** Concrete runs, used to exercise the theorems *)

Module Scenario.

(** Collaborators that convert every file, detect two lines on every
    image and encode without error. *)
Definition engines : Collaborators :=
  {| convert := fun s => Returns {| document := String.length s |};
     readtext := fun _ _ => Returns ["first line"; "second line"];
     encode := fun _ _ _ => None;
     write_error := fun _ _ _ => None;
     picture_files := fun _ => [];
     now_iso := fun i => "2025-01-01T00:00:0" +:+ pretty i;
     elapsed := "1.25";
     script_dir := PurePath.of_string "/app" |}.

Definition world (d : list (Path * node)) (answers : list string) : World :=
  {| conversion_log := [];
     disk := d;
     readers_created := [];
     readtext_calls := [];
     stdin := answers;
     pools_started := 0 |}.

(** A folder [in] with a pdf, an image in a subfolder, a text file, and a
    subfolder that happens to be called [scans.pdf]. *)
Definition tree : list (Path * node) :=
  [(PurePath.of_string "in", Directory);
   (PurePath.of_string "in/a.pdf", Regular OtherData);
   (PurePath.of_string "in/sub", Directory);
   (PurePath.of_string "in/sub/b.PNG", Regular OtherData);
   (PurePath.of_string "in/sub/notes.txt", Regular OtherData);
   (PurePath.of_string "in/scans.pdf", Directory);
   (PurePath.of_string "in/scans.pdf/page1.jpg", Regular OtherData)].

(** Two pdf files only. *)
Definition two_pdfs : list (Path * node) :=
  [(PurePath.of_string "in", Directory);
   (PurePath.of_string "in/a.pdf", Regular OtherData);
   (PurePath.of_string "in/b.pdf", Regular OtherData)].

(** An output tree in which a regular file sits where the [md] directory
    should go. *)
Definition md_in_the_way : list (Path * node) :=
  [(PurePath.of_string "in", Directory);
   (PurePath.of_string "in/a.pdf", Regular OtherData);
   (PurePath.of_string "/app", Directory);
   (PurePath.of_string "/app/output", Directory);
   (PurePath.of_string "/app/output/md", Regular OtherData)].

Definition out : Path := PurePath.of_string "/app/output".

(** A standard reader that some caller built and hands to [process_file]. *)
Definition cpu_reader : Reader := {| reader_id := 0; reader_gpu := false |}.

End Scenario.

(** ** What the task boundary is said to do, and what a failed task leaves *)



(** ** What the summary file is said to hold *)

(** The file at [csv_path] holds the header and then one row per job, in
    order; the row of job [f] carries [str(f)], and its status is Success
    exactly when the audit path of [f] exists on the disk [d]. *)
Definition summary_is_audit (c : Collaborators) (csv_path base_output_dir : Path)
    (format_key : string) (input_base : Path) (files : list Path)
    (d : list (Path * node)) : Prop :=
  exists rows : list (list string),
    FS.lookup_node d csv_path
    = Some (Regular (CsvRows (["File"; "Status"; "Timestamp"] :: rows)))
    /\ length rows = length files
    /\ forall (k : nat) (f : Path),
         files !! k = Some f ->
         exists (output_path : Path) (status : string),
           summary_output_path base_output_dir format_key input_base f format_key
           = Returns output_path
           /\ rows !! k = Some [PurePath.to_string f; status; now_iso c k]
           /\ (status = "Success" \/ status = "Failed")
           /\ (status = "Success" <-> FS.exists_ d output_path = true).

(** ** More concrete inputs *)

Module Runs.

(** A converter that fails on [in/b.pdf] and converts everything else. *)
Definition picky_engines : Collaborators :=
  {| convert := fun s =>
       if String.eqb s "in/b.pdf"
       then Raises (Exn RuntimeError "conversion failed")
       else Returns {| document := String.length s |};
     readtext := fun _ _ => Returns ["first line"; "second line"];
     encode := fun _ _ _ => None;
     write_error := fun _ _ _ => None;
     picture_files := fun _ => [];
     now_iso := fun i => "2025-01-01T00:00:0" +:+ pretty i;
     elapsed := "1.25";
     script_dir := PurePath.of_string "/app" |}.

(** What [write_text] raises when the text has a character that the
    encoding of the locale lacks ([UnicodeEncodeError] is a [ValueError]). *)
Definition encode_error : exn :=
  Exn ValueError
    "'ascii' codec can't encode character '\xe9' in position 3: ordinal not in range(128)".

(** Engines whose exported text cannot be written in the locale's
    encoding. *)
Definition unwritable_engines : Collaborators :=
  {| convert := fun s => Returns {| document := String.length s |};
     readtext := fun _ _ => Returns ["first line"; "second line"];
     encode := fun _ _ _ => None;
     write_error := fun how _ _ =>
       if String.eqb how "export_to_text" then Some encode_error else None;
     picture_files := fun _ => [];
     now_iso := fun i => "2025-01-01T00:00:0" +:+ pretty i;
     elapsed := "1.25";
     script_dir := PurePath.of_string "/app" |}.

(** The world that the body of the task for [in/a.pdf] leaves with them,
    text output being asked for. *)
Definition text_not_written : World :=
  snd (task_body unwritable_engines (module_at_import false)
         (PurePath.of_string "in/a.pdf") "txt" Scenario.out "txt"
         (PurePath.of_string "in") false None (_save_text unwritable_engines)
         (Scenario.world Scenario.two_pdfs [])).

(** A converter that fails on every file. *)
Definition failing_engines : Collaborators :=
  {| convert := fun _ => Raises (Exn RuntimeError "conversion failed");
     readtext := fun _ _ => Returns ["first line"; "second line"];
     encode := fun _ _ _ => None;
     write_error := fun _ _ _ => None;
     picture_files := fun _ => [];
     now_iso := fun i => "2025-01-01T00:00:0" +:+ pretty i;
     elapsed := "1.25";
     script_dir := PurePath.of_string "/app" |}.

(** Engines whose documents each hold one picture. *)
Definition picture_engines : Collaborators :=
  {| convert := fun s => Returns {| document := String.length s |};
     readtext := fun _ _ => Returns ["first line"; "second line"];
     encode := fun _ _ _ => None;
     write_error := fun _ _ _ => None;
     picture_files := fun _ => ["image_000000_1f8a.png"];
     now_iso := fun i => "2025-01-01T00:00:0" +:+ pretty i;
     elapsed := "1.25";
     script_dir := PurePath.of_string "/app" |}.

(** The world after document 7 is saved as HTML at [in/a.html]. *)
Definition html_saved : World :=
  snd (_save_html picture_engines 7 (PurePath.of_string "in/a.html")
         (Scenario.world Scenario.two_pdfs [])).

(** The user types the folder [in] and picks JSON. *)
Definition json_run : World := Scenario.world Scenario.two_pdfs ["in"; "2"].

(** [process_file] as [main] hands it to the pool (lines 195-197), with OCR
    on, Markdown output and the input base [in]. *)
Definition ocr_task (c : Collaborators) (g : ModuleGlobals) (file_path : Path)
  : M unit :=
  process_file c g file_path "md" Scenario.out "md" (PurePath.of_string "in")
    true None None.

End Runs.

(** ** Frames

    [keeps_readers m]: running [m] builds no reader. *)

Definition keeps_readers {A} (m : M A) : Prop :=
  forall w r w', m w = (r, w') -> readers_created w' = readers_created w.

(** ** The save helpers, as a table

    For each key of [handlers]: the encoder its helper calls (lines 45, 51,
    56, 61, 66) and the word in the line it logs (lines 47, 52, 57, 62, 67). *)

Definition encoder_of (format_key : string) : option (string * string) :=
  if String.eqb format_key "html" then Some ("save_as_html", "HTML")
  else if String.eqb format_key "json" then Some ("save_as_json", "JSON")
  else if String.eqb format_key "md" then Some ("save_as_markdown", "Markdown")
  else if String.eqb format_key "txt" then Some ("export_to_text", "Text")
  else if String.eqb format_key "doctags" then Some ("export_to_doctags", "Doctags")
  else None.

(** The [image_mode] argument of each helper's call (lines 45, 51 and 56);
    the two helpers that write an exported text pass none. *)
Definition image_mode_of (format_key : string) : option ImageRefMode :=
  if String.eqb format_key "html" then Some REFERENCED
  else if String.eqb format_key "json" then Some PLACEHOLDER
  else if String.eqb format_key "md" then Some PLACEHOLDER
  else None.


(** The world with one more line in the log. *)
Definition with_line (w : World) (line : string) : World :=
  snd (log line w).

(** ** Relations between the world before and the world after

    [respects R m]: whatever [m] does and however it ends, the world it
    leaves is related by [R] to the one it started in. *)

Definition respects {A} (R : World -> World -> Prop) (m : M A) : Prop :=
  forall w r w', m w = (r, w') -> R w w'.

(** The log has only grown at its end. *)
Definition log_extends (w w' : World) : Prop :=
  exists lines, conversion_log w' = conversion_log w ++ lines.

(** Every path that existed still exists, and every directory still is one. *)
Definition nothing_removed (w w' : World) : Prop :=
  forall q,
    (FS.exists_ (disk w) q = true -> FS.exists_ (disk w') q = true)
    /\ (FS.is_dir (disk w) q = true -> FS.is_dir (disk w') q = true).

(** No [readtext] call was made. *)
Definition no_readtext (w w' : World) : Prop :=
  readtext_calls w' = readtext_calls w.

(** No reader was built and no [readtext] call was made. *)
Definition no_ocr_activity (w w' : World) : Prop :=
  readers_created w' = readers_created w /\ readtext_calls w' = readtext_calls w.

(** ** The run after the prompts *)

(** The lines logged up to the format menu (lines 150, 159-164). *)
Definition prompt_lines : list string :=
  ["Welcome to Docling file format converter!";
   nl +:+ "Select output format:";
   "1. HTML   (image embedding and referencing supported)";
   "2. JSON   (lossless serialization of Docling Document)";
   "3. Markdown";
   "4. Text   (plain text, no Markdown markers)";
   "5. Doctags"].

(** The world once the prompts are answered: the menu is in the log and
    [left] is what remains of standard input. *)
Definition after_prompts (w : World) (left : list string) : World :=
  {| conversion_log := conversion_log w ++ prompt_lines;
     disk := disk w;
     readers_created := readers_created w;
     readtext_calls := readtext_calls w;
     stdin := left;
     pools_started := pools_started w |}.

(** ** The pool of a run *)



(** ** Paths whose components hold no separator

    Every path that [Path(...)] builds is of this kind. *)

Fixpoint no_slash (s : string) : bool :=
  match s with
  | EmptyString => true
  | String a s' => negb (Ascii.eqb a "/") && no_slash s'
  end.

Definition well_formed (p : Path) : bool := forallb no_slash (parts p).

(** A component that is a name: it holds no separator and is not [..]. *)
Definition plain_component (s : string) : bool :=
  no_slash s && negb (String.eqb s "..").

(** A path of such components: it climbs nowhere. *)
Definition plain (p : Path) : bool := forallb plain_component (parts p).

(** ** Counting successes *)

(** Does the audit find the output of [f] on the disk [d]? *)
Definition audit_finds (base_output_dir : Path) (format_key : string)
    (input_base : Path) (ext : string) (d : list (Path * node)) (f : Path) : bool :=
  match summary_output_path base_output_dir format_key input_base f ext with
  | Returns p => FS.exists_ d p
  | Raises _ => false
  end.

(** The number of rows whose second field is [Success]. *)
Definition success_rows (rows : list (list string)) : nat :=
  length (List.filter (fun row => bool_decide (row !! 1 = Some "Success")) rows).

Module Reruns.

(** The world the JSON run of [Runs.json_run] leaves behind. *)
Definition after_json_run : World :=
  snd (main Runs.picky_engines false Runs.json_run).

Definition jobs : list Path :=
  [PurePath.of_string "in/a.pdf"; PurePath.of_string "in/b.pdf"].

(** A folder with nothing to convert, and an output folder that exists. *)
Definition nothing_to_convert : list (Path * node) :=
  [(PurePath.of_string "notes", Directory);
   (PurePath.of_string "notes/todo.txt", Regular OtherData);
   (PurePath.of_string "/app", Directory);
   (PurePath.of_string "/app/output", Directory)].

(** The same without the output folder. *)
Definition nothing_to_convert_no_output : list (Path * node) :=
  [(PurePath.of_string "notes", Directory);
   (PurePath.of_string "notes/todo.txt", Regular OtherData);
   (PurePath.of_string "/app", Directory)].

End Reruns.

(** ** Directories along a path

    [dirs_exist abs seen todo d]: walking [todo] down from [seen], every
    path met is a directory on [d]. *)

Fixpoint dirs_exist (abs : bool) (seen todo : list string)
    (d : list (Path * node)) : Prop :=
  match todo with
  | [] => True
  | x :: todo' =>
      FS.lookup_node d (mkPath abs (seen ++ [x])) = Some Directory
      /\ dirs_exist abs (seen ++ [x]) todo' d
  end.

(** ** What a save with referenced pictures leaves beside the target *)

(** The change at a path [q] other than the target, between the disks [d]
    and [d']: [q] had no entry and is now a directory, the folder of the
    pictures or one above it; or [q] is one of the pictures. *)
Definition artifact_change (c : Collaborators) (doc : DoclingDocument)
    (file_path : Path) (d d' : list (Path * node)) (q : Path) : Prop :=
  (FS.lookup_node d q = None
   /\ FS.lookup_node d' q = Some Directory
   /\ (q = artifacts_dir file_path \/ FS.below q (artifacts_dir file_path) = true))
  \/ (exists name,
        name ∈ picture_files c doc
        /\ q = FS.child (artifacts_dir file_path) name
        /\ FS.lookup_node d' q = Some (Regular OtherData)).

(** The folder of the pictures is on the disk [d], and the pictures of the
    document are in it. *)
Definition artifacts_stored (c : Collaborators) (doc : DoclingDocument)
    (file_path : Path) (d : list (Path * node)) : Prop :=
  dirs_exist (absolute (artifacts_dir file_path)) []
    (parts (artifacts_dir file_path)) d
  /\ forall name,
       name ∈ picture_files c doc ->
       FS.lookup_node d (FS.child (artifacts_dir file_path) name)
       = Some (Regular OtherData).

(** Standard input is where it was. *)
Definition same_stdin (w w' : World) : Prop := stdin w' = stdin w.

(** A module in which something outside doc_ling.py has set the
    module-level standard reader, easyocr being unavailable. *)
Definition module_with_cpu_reader : ModuleGlobals :=
  {| GPU_AVAILABLE := false;
     OCR_READER_GPU := None;
     OCR_READER_CPU := Some Scenario.cpu_reader |}.

(** A reader that the task holds. *)
Definition task_reader : Reader := {| reader_id := 5; reader_gpu := false |}.

(** * Theorems *)

(** ** pathlib and str on examples *)

Example path_of_string_ex :
  PurePath.of_string "/home/u/docs//a/./Scan.PNG"
  = mkPath true ["home"; "u"; "docs"; "a"; "Scan.PNG"].
Proof. reflexivity. Qed.

Example path_suffix_ex :
  map (fun s => PurePath.suffix (PurePath.of_string s))
      ["a/b.tar.gz"; ".bashrc"; "x."; "dir/Scan.PNG"; "."]
  = [".gz"; ""; ""; ".PNG"; ""].
Proof. reflexivity. Qed.

Example path_stem_ex :
  map (fun s => PurePath.stem (PurePath.of_string s))
      ["a/b.tar.gz"; ".bashrc"; "x."; "dir/Scan.PNG"; "."]
  = ["b.tar"; ".bashrc"; "x."; "Scan"; ""].
Proof. reflexivity. Qed.

Example str_strip_ex : Str.strip "  /tmp/in put  " = "/tmp/in put".
Proof. reflexivity. Qed.

(** ** The effect monad *)

Lemma bind_returns {A B} (m : M A) (f : A -> M B) w a w' :
  m w = (Returns a, w') -> (m ≫= f) w = f a w'.
Proof. intros H. unfold mbind, M_bind. now rewrite H. Qed.


Lemma bind_inv {A B} (m : M A) (f : A -> M B) w r w' :
  (m ≫= f) w = (r, w') ->
  (exists a w1, m w = (Returns a, w1) /\ f a w1 = (r, w'))
  \/ (exists e, m w = (Raises e, w') /\ r = Raises e).
Proof.
  unfold mbind, M_bind. destruct (m w) as [[a|e] w1]; intros H.
  - left. eauto.
  - right. exists e. now inversion H.
Qed.

Lemma try_except_returns {A} (body : M A) cls h w a w' :
  body w = (Returns a, w') -> try_except body cls h w = (Returns a, w').
Proof. intros H. unfold try_except. now rewrite H. Qed.

Lemma try_except_caught {A} (body : M A) cls h w e w' :
  body w = (Raises e, w') -> caught_by cls e = true ->
  try_except body cls h w = h e w'.
Proof. intros H Hc. unfold try_except. now rewrite H, Hc. Qed.

Lemma try_except_escapes {A} (body : M A) cls h w e w' :
  body w = (Raises e, w') -> caught_by cls e = false ->
  try_except body cls h w = (Raises e, w').
Proof. intros H Hc. unfold try_except. now rewrite H, Hc. Qed.

(** ** Path arithmetic *)

Lemma strip_prefix_app pre rest : PurePath.strip_prefix pre (pre ++ rest) = Some rest.
Proof.
  induction pre as [|x pre IH]; simpl; [reflexivity|].
  now rewrite String.eqb_refl.
Qed.

Lemma strip_prefix_Some pre l rest :
  PurePath.strip_prefix pre l = Some rest -> l = pre ++ rest.
Proof.
  revert l. induction pre as [|x pre IH]; intros l H; simpl in *.
  - now inversion H.
  - destruct l as [|y l]; [discriminate|].
    destruct (String.eqb x y) eqn:E; [|discriminate].
    apply String.eqb_eq in E. subst y. f_equal. now apply IH.
Qed.

Lemma removelast_app_nonempty {A} (l rest : list A) :
  rest <> [] -> removelast (l ++ rest) = l ++ removelast rest.
Proof. intros H. now apply removelast_app. Qed.

Lemma last_app_nonempty {A} (l rest : list A) d :
  rest <> [] -> List.last (l ++ rest) d = List.last rest d.
Proof.
  intros H. induction l as [|x l IH]; simpl; [reflexivity|].
  destruct (l ++ rest) eqn:E; [|exact IH].
  apply app_eq_nil in E. destruct E. contradiction.
Qed.

(** A file below [base] is [base] followed by a non-empty relative part. *)
Lemma below_inv base f :
  FS.below base f = true ->
  exists rest, rest <> [] /\ absolute f = absolute base
               /\ parts f = parts base ++ rest.
Proof.
  unfold FS.below. intros H. apply andb_true_iff in H as [Ha Hs].
  apply Bool.eqb_prop in Ha.
  destruct (PurePath.strip_prefix (parts base) (parts f)) as [[|x rest]|] eqn:E;
    try discriminate.
  exists (x :: rest). split; [discriminate|]. split; [now symmetry|].
  now apply strip_prefix_Some.
Qed.

Lemma relative_to_parts p base rest :
  absolute p = absolute base -> parts p = parts base ++ rest ->
  PurePath.relative_to p base = Returns (mkPath false rest).
Proof.
  intros Ha Hp. unfold PurePath.relative_to.
  rewrite Ha, Bool.eqb_reflx. simpl. now rewrite Hp, strip_prefix_app.
Qed.

(** The directory of a file below [base], relative to [base], is the parent
    of the file's relative path; its name is the relative path's name. *)
Lemma relative_parent base f r :
  FS.below base f = true ->
  PurePath.relative_to f base = Returns r ->
  PurePath.relative_to (PurePath.parent f) base = Returns (PurePath.parent r)
  /\ PurePath.name f = PurePath.name r.
Proof.
  intros Hb Hr. destruct (below_inv _ _ Hb) as (rest & Hne & Ha & Hp).
  rewrite (relative_to_parts f base rest Ha Hp) in Hr. inversion Hr; subst r.
  split.
  - unfold PurePath.parent at 2. simpl.
    apply relative_to_parts; simpl; [exact Ha|].
    rewrite Hp. now apply removelast_app_nonempty.
  - unfold PurePath.name. simpl. rewrite Hp. now apply last_app_nonempty.
Qed.

Lemma stem_of_name p q : PurePath.name p = PurePath.name q -> PurePath.stem p = PurePath.stem q.
Proof. unfold PurePath.stem. now intros ->. Qed.

(** C2. The path [process_file] saves to and the path the summary audit of
    [main] looks at are the same function of the job: both are
    [outputRoot / formatKey / inputBaseName / (parent of the source relative
    to the input base) / (stem + "." + ext)], and both raise the same
    [ValueError] when the source's directory is not under the input base. *)
Theorem task_and_audit_paths_agree :
  forall (output_root : Path) (format_key : string) (input_base f : Path)
         (ext : string),
    task_output_path output_root format_key input_base f ext
    = summary_output_path output_root format_key input_base f ext
    /\ summary_output_path output_root format_key input_base f ext
       = match PurePath.relative_to (PurePath.parent f) input_base with
         | Returns rel =>
             Returns (PathMapper output_root format_key (PurePath.name input_base)
                        rel (PurePath.stem f) ext)
         | Raises e => Raises e
         end.
Proof.
  intros. unfold task_output_path, task_target_dir, task_target_file,
    summary_output_path, PathMapper.
  destruct (PurePath.relative_to (PurePath.parent f) input_base); split; reflexivity.
Qed.

(** [task_output_path] is what [task_body] hands to the save helper: once
    the conversion and the OCR step have returned and the directory is
    made, the helper runs on that path. *)
Lemma task_body_saves_at c g file_path ext output_root format_key input_base
    use_gpu rc save_func w res w1 p :
  convert c (PurePath.to_string file_path) = Returns res ->
  (if ocr_eligible use_gpu file_path then ocr_block c g file_path rc else mret tt) w
  = (Returns tt, w1) ->
  task_output_path output_root format_key input_base file_path ext = Returns p ->
  exists target_dir,
    task_target_dir output_root format_key input_base file_path = Returns target_dir
    /\ task_body c g file_path ext output_root format_key input_base use_gpu rc
         save_func w
       = (on_disk (FS.mkdir target_dir);; save_func (document res) p) w1.
Proof.
  intros Hc Ho Hp. unfold task_output_path in Hp.
  destruct (task_target_dir output_root format_key input_base file_path)
    as [td|e] eqn:Etd; [|discriminate].
  inversion Hp; subst p. exists td. split; [reflexivity|].
  unfold task_body. rewrite Hc, Etd.
  unfold lift, mbind, M_bind at 1 2 3. simpl.
  now rewrite Ho.
Qed.

(** C9. Two sources below the same input base whose relative paths have
    the same parent and the same stem are given the same target directory
    and the same target file, whatever the format key and the extension. *)
Theorem same_stem_sources_collide :
  forall (output_root : Path) (format_key ext : string)
         (input_base f1 f2 r1 r2 : Path),
    FS.below input_base f1 = true ->
    FS.below input_base f2 = true ->
    PurePath.relative_to f1 input_base = Returns r1 ->
    PurePath.relative_to f2 input_base = Returns r2 ->
    PurePath.parent r1 = PurePath.parent r2 ->
    PurePath.stem r1 = PurePath.stem r2 ->
    exists target_dir,
      task_target_dir output_root format_key input_base f1 = Returns target_dir
      /\ task_target_dir output_root format_key input_base f2 = Returns target_dir
      /\ task_target_file target_dir f1 ext = task_target_file target_dir f2 ext
      /\ task_output_path output_root format_key input_base f1 ext
         = task_output_path output_root format_key input_base f2 ext.
Proof.
  intros output_root format_key ext input_base f1 f2 r1 r2 Hb1 Hb2 Hr1 Hr2 Hpar Hstem.
  destruct (relative_parent _ _ _ Hb1 Hr1) as [Hp1 Hn1].
  destruct (relative_parent _ _ _ Hb2 Hr2) as [Hp2 Hn2].
  assert (Hs : PurePath.stem f1 = PurePath.stem f2).
  { rewrite (stem_of_name _ _ Hn1), (stem_of_name _ _ Hn2). exact Hstem. }
  exists (output_root /' format_key /' PurePath.name input_base // PurePath.parent r1).
  unfold task_output_path, task_target_dir, task_target_file.
  rewrite Hp1, Hp2, Hpar, Hs. repeat split; reflexivity.
Qed.

(** A pdf and a png of the same name in the same folder: both go to
    [/app/output/json/in/a/doc.json]. *)
Lemma same_stem_sources_collide_witness :
  exists target_dir,
    task_target_dir Scenario.out "json" (PurePath.of_string "in")
      (PurePath.of_string "in/a/doc.pdf") = Returns target_dir
    /\ task_target_dir Scenario.out "json" (PurePath.of_string "in")
         (PurePath.of_string "in/a/doc.png") = Returns target_dir
    /\ task_target_file target_dir (PurePath.of_string "in/a/doc.pdf") "json"
       = task_target_file target_dir (PurePath.of_string "in/a/doc.png") "json"
    /\ task_output_path Scenario.out "json" (PurePath.of_string "in")
         (PurePath.of_string "in/a/doc.pdf") "json"
       = task_output_path Scenario.out "json" (PurePath.of_string "in")
           (PurePath.of_string "in/a/doc.png") "json".
Proof.
  apply (same_stem_sources_collide Scenario.out "json" "json"
           (PurePath.of_string "in")
           (PurePath.of_string "in/a/doc.pdf") (PurePath.of_string "in/a/doc.png")
           (mkPath false ["a"; "doc.pdf"]) (mkPath false ["a"; "doc.png"]));
    reflexivity.
Defined.

(** ** The save-handler lookup *)

Lemma handlers_lookup c k :
  handlers c !! k
  = if String.eqb k "html" then Some (_save_html c)
    else if String.eqb k "json" then Some (_save_json c)
    else if String.eqb k "md" then Some (_save_markdown c)
    else if String.eqb k "txt" then Some (_save_text c)
    else if String.eqb k "doctags" then Some (_save_doctags c)
    else None.
Proof.
  unfold handlers. simpl.
  repeat (rewrite lookup_insert; case_decide as Hk;
          [ subst k; reflexivity
          | apply not_eq_sym, String.eqb_neq in Hk; rewrite Hk; clear Hk ]).
  apply lookup_empty.
Qed.

Lemma handlers_lookup_None c k :
  k ∉ ["html"; "json"; "md"; "txt"; "doctags"] -> handlers c !! k = None.
Proof.
  intros Hk. rewrite handlers_lookup.
  repeat (destruct (String.eqb k _) eqn:E;
          [ apply String.eqb_eq in E; subst k; exfalso; apply Hk; set_solver | clear E ]).
  reflexivity.
Qed.

(** The five helpers are the only values of the dictionary. *)
Lemma handlers_lookup_Some c k save_func :
  handlers c !! k = Some save_func ->
  save_func = _save_html c \/ save_func = _save_json c
  \/ save_func = _save_markdown c \/ save_func = _save_text c
  \/ save_func = _save_doctags c.
Proof.
  rewrite handlers_lookup.
  repeat (destruct (String.eqb k _); [intros [= <-]; tauto|]).
  discriminate.
Qed.

Lemma format_map_values choice format_key :
  format_map !! choice = Some format_key ->
  format_key ∈ ["html"; "json"; "md"; "txt"; "doctags"].
Proof.
  intros H. apply elem_of_list_to_map_2 in H.
  repeat (apply elem_of_cons in H as [[= _ ->]|H]; [set_solver|]).
  now apply elem_of_nil in H.
Qed.

(** C10. The lookup [handlers[format_key]] stands before the try
    statement: for a key outside the five, [process_file] raises
    [KeyError] and nothing catches it; for a key that [main] took from
    [format_map], the lookup finds a helper and [process_file] is the
    guarded task that follows. *)
Theorem handler_lookup_outside_try :
  forall (c : Collaborators) (g : ModuleGlobals) (file_path : Path) (ext : string)
         (output_root : Path) (format_key : string) (input_base : Path)
         (use_gpu : bool) (rg rc : option Reader) (w : World),
    (format_key ∉ ["html"; "json"; "md"; "txt"; "doctags"] ->
     process_file c g file_path ext output_root format_key input_base use_gpu rg rc w
     = (Raises (Exn KeyError (Str.repr format_key)),
        snd (init_readers g use_gpu rg rc w)))
    /\ (forall choice : string,
          format_map !! choice = Some format_key ->
          exists save_func : SaveFunc,
            handlers c !! format_key = Some save_func
            /\ process_file c g file_path ext output_root format_key input_base
                 use_gpu rg rc w
               = (rs ← init_readers g use_gpu rg rc;
                  try_except
                    (task_body c g file_path ext output_root format_key input_base
                       use_gpu (snd rs) save_func)
                    task_boundary
                    (fun exc => log (error_line file_path exc))) w).
Proof.
  intros. split.
  - intros Hk. unfold process_file. rewrite (handlers_lookup_None c _ Hk).
    unfold mbind, M_bind, init_readers, new_Reader, mret, M_ret, raise.
    destruct (use_gpu && GPU_AVAILABLE g && bool_decide (rg = None)); reflexivity.
  - intros choice Hc. apply format_map_values in Hc.
    assert (Hs : is_Some (handlers c !! format_key)).
    { rewrite handlers_lookup.
      repeat (apply elem_of_cons in Hc as [->|Hc]; [simpl; eauto|]).
      now apply elem_of_nil in Hc. }
    destruct Hs as [save_func Hs]. exists save_func. split; [exact Hs|].
    unfold process_file. now rewrite Hs.
Qed.

(** The key [pdf] is refused with a [KeyError]; choice 2 gives [json],
    which has a helper. *)
Lemma handler_lookup_outside_try_witness :
  process_file Scenario.engines (module_at_import false)
    (PurePath.of_string "in/a.pdf") "pdf" Scenario.out "pdf"
    (PurePath.of_string "in") false None None
    (Scenario.world Scenario.two_pdfs [])
  = (Raises (Exn KeyError "'pdf'"), Scenario.world Scenario.two_pdfs [])
  /\ exists save_func : SaveFunc,
       handlers Scenario.engines !! "json" = Some save_func.
Proof.
  split.
  - apply (proj1 (handler_lookup_outside_try Scenario.engines (module_at_import false)
                    (PurePath.of_string "in/a.pdf") "pdf" Scenario.out "pdf"
                    (PurePath.of_string "in") false None None
                    (Scenario.world Scenario.two_pdfs []))).
    apply (bool_decide_unpack _). vm_compute. exact I.
  - destruct (proj2 (handler_lookup_outside_try Scenario.engines (module_at_import false)
                       (PurePath.of_string "in/a.pdf") "json" Scenario.out "json"
                       (PurePath.of_string "in") false None None
                       (Scenario.world Scenario.two_pdfs [])) "2" eq_refl)
      as (save_func & Hs & _).
    exists save_func. exact Hs.
Defined.

(** ** A missing input *)

(** C8. When the path typed at the first prompt does not exist, [main]
    returns having logged the welcome line and the line that says so: no
    other line is logged (the processing section never opens), nothing more
    is read, no pool is started, no reader is built, and the disk is as it
    was (no summary file). *)
Theorem missing_input_aborts :
  forall (c : Collaborators) (easyocr_importable : bool) (w : World)
         (line : string) (rest : list string),
    stdin w = line :: rest ->
    FS.exists_ (disk w) (PurePath.of_string (Str.strip line)) = false ->
    main c easyocr_importable w
    = (Returns tt,
       {| conversion_log :=
            conversion_log w
            ++ ["Welcome to Docling file format converter!";
                "File or folder does not exist. Exiting."];
          disk := disk w;
          readers_created := readers_created w;
          readtext_calls := readtext_calls w;
          stdin := rest;
          pools_started := pools_started w |}).
Proof.
  intros c imp w line rest Hin Hex.
  unfold main, mbind, M_bind, log, input, path_exists. simpl.
  rewrite Hin. simpl. rewrite Hex. simpl.
  now rewrite <- app_assoc.
Qed.

Lemma missing_input_aborts_witness :
  main Scenario.engines true (Scenario.world Scenario.tree ["  /no/such/folder "; "2"; "y"])
  = (Returns tt,
     {| conversion_log :=
          ["Welcome to Docling file format converter!";
           "File or folder does not exist. Exiting."];
        disk := Scenario.tree;
        readers_created := [];
        readtext_calls := [];
        stdin := ["2"; "y"];
        pools_started := 0 |}).
Proof.
  apply (missing_input_aborts Scenario.engines true
           (Scenario.world Scenario.tree ["  /no/such/folder "; "2"; "y"])
           "  /no/such/folder " ["2"; "y"]); reflexivity.
Defined.

(** ** The file system *)

Lemma on_disk_raises f w e w' : on_disk f w = (Raises e, w') -> w' = w.
Proof.
  unfold on_disk. destruct (f (disk w)); intros H; now inversion H.
Qed.

Lemma on_disk_returns f w u w' :
  on_disk f w = (Returns u, w') ->
  exists d', f (disk w) = Returns d' /\ w' = set_disk d' w.
Proof.
  unfold on_disk. destruct (f (disk w)) as [d'|e]; intros H; inversion H.
  now exists d'.
Qed.

Lemma lookup_put p content d :
  parts p <> [] -> FS.lookup_node (FS.put p content d) p = Some (Regular content).
Proof.
  intros Hp. unfold FS.lookup_node. destruct (parts p); [contradiction|].
  clear Hp. induction d as [|[p' n'] d IH]; simpl.
  - now rewrite bool_decide_eq_true_2.
  - destruct (bool_decide (p' = p)) eqn:E; simpl.
    + now rewrite bool_decide_eq_true_2.
    + now rewrite E.
Qed.

Lemma lookup_put_ne p q content d :
  q <> p -> FS.lookup_node (FS.put p content d) q = FS.lookup_node d q.
Proof.
  intros Hq. unfold FS.lookup_node. destruct (parts q); [reflexivity|].
  induction d as [|[p' n'] d IH]; simpl.
  - now rewrite bool_decide_eq_false_2 by (now apply not_eq_sym).
  - destruct (bool_decide (p' = p)) eqn:E; simpl.
    + apply bool_decide_eq_true in E. subst p'.
      now rewrite !bool_decide_eq_false_2 by (now apply not_eq_sym).
    + destruct (bool_decide (p' = q)); [reflexivity|exact IH].
Qed.

(** [FS.write] returns exactly when the directory of the path is one and
    the path is not; the disk is then the old one with the file put in. *)
Lemma write_returns_iff p content d d' :
  FS.write p content d = Returns d'
  <-> FS.is_dir d (PurePath.parent p) = true /\ FS.is_dir d p = false
      /\ d' = FS.put p content d.
Proof.
  unfold FS.write. split.
  - destruct (FS.is_dir d (PurePath.parent p)).
    + destruct (FS.is_dir d p); [discriminate|]. intros [= <-]. auto.
    + destruct (FS.nearest_entry _ _ _); discriminate.
  - intros (-> & -> & ->). reflexivity.
Qed.

(** When [FS.write] returns, the path is a proper one and the disk is the
    old one with the file put in. *)
Lemma write_returns p content d d' :
  FS.write p content d = Returns d' -> parts p <> [] /\ d' = FS.put p content d.
Proof.
  intros H. apply write_returns_iff in H as (_ & E & ->). split; [|reflexivity].
  intros Hp. unfold FS.is_dir, FS.lookup_node in E. now rewrite Hp in E.
Qed.

Lemma lookup_app_Some d d' q n :
  FS.lookup_node d q = Some n -> FS.lookup_node (d ++ d') q = Some n.
Proof.
  unfold FS.lookup_node. destruct (parts q); [auto|].
  induction d as [|e d IH]; simpl; [discriminate|].
  destruct (bool_decide (e.1 = q)); auto.
Qed.

Lemma lookup_app_None d d' q :
  FS.lookup_node d q = None -> FS.lookup_node (d ++ d') q = FS.lookup_node d' q.
Proof.
  unfold FS.lookup_node. destruct (parts q); [discriminate|].
  induction d as [|e d IH]; simpl; [reflexivity|].
  destruct (bool_decide (e.1 = q)); [discriminate|exact IH].
Qed.

(** [mkdir] changes the entry of no path that had one; a path that gains
    one becomes a directory, and it is the path made or one above it. *)
Lemma mkdir_go_lookup abs todo : forall seen d d',
  FS.mkdir_go abs seen todo d = Returns d' ->
  forall q,
    FS.lookup_node d' q = FS.lookup_node d q
    \/ (FS.lookup_node d q = None
        /\ FS.lookup_node d' q = Some Directory
        /\ exists pre post,
             todo = pre ++ post /\ pre <> [] /\ q = mkPath abs (seen ++ pre)).
Proof.
  induction todo as [|x todo IH]; intros seen d d' H q; simpl in H.
  - inversion H. now left.
  - destruct (FS.lookup_node d (mkPath abs (seen ++ [x]))) as [[|content]|] eqn:E.
    + destruct (IH _ _ _ H q) as [Hq|(Hn & Hd & pre & post & -> & Hne & ->)];
        [now left|right].
      split; [exact Hn|]. split; [exact Hd|].
      exists (x :: pre), post. split; [reflexivity|]. split; [discriminate|].
      now rewrite <- app_assoc.
    + destruct todo; discriminate.
    + destruct (IH _ _ _ H q) as [Hq|(Hn & Hd & pre & post & -> & Hne & ->)].
      * destruct (FS.lookup_node d q) as [n|] eqn:Eq.
        { left. rewrite Hq. now apply lookup_app_Some. }
        rewrite (lookup_app_None _ _ _ Eq) in Hq.
        destruct (decide (q = mkPath abs (seen ++ [x]))) as [->|Hne].
        { right. split; [reflexivity|]. split.
          - rewrite Hq. unfold FS.lookup_node. simpl.
            destruct (seen ++ [x]) eqn:Es; [now destruct seen|].
            now rewrite bool_decide_eq_true_2.
          - exists [x], todo. split; [reflexivity|]. split; [discriminate|reflexivity]. }
        left. rewrite Hq. unfold FS.lookup_node in *.
        destruct (parts q); [discriminate Eq|].
        simpl. now rewrite bool_decide_eq_false_2 by (now apply not_eq_sym).
      * destruct (FS.lookup_node d (mkPath abs ((seen ++ [x]) ++ pre))) as [n|] eqn:Eq.
        { rewrite (lookup_app_Some _ _ _ _ Eq) in Hn. discriminate Hn. }
        right. split; [reflexivity|]. split; [exact Hd|].
        exists (x :: pre), post. split; [reflexivity|]. split; [discriminate|].
        now rewrite <- app_assoc.
Qed.

(** The same for [mkdir p]: a new directory is [p] or a path above it. *)
Lemma mkdir_lookup p d d' :
  FS.mkdir p d = Returns d' ->
  forall q,
    FS.lookup_node d' q = FS.lookup_node d q
    \/ (FS.lookup_node d q = None
        /\ FS.lookup_node d' q = Some Directory
        /\ (q = p \/ FS.below q p = true)).
Proof.
  intros H q. unfold FS.mkdir in H.
  destruct (mkdir_go_lookup _ _ _ _ _ H q)
    as [Hq|(Hn & Hd & pre & post & Hp & Hne & ->)]; [now left|right].
  split; [exact Hn|]. split; [exact Hd|]. simpl in *.
  destruct post as [|y post].
  - left. rewrite app_nil_r in Hp. destruct p. simpl in *. now subst.
  - right. unfold FS.below. simpl. rewrite Bool.eqb_reflx, Hp, strip_prefix_app.
    reflexivity.
Qed.

Lemma mkdir_go_keeps abs todo : forall seen d d',
  FS.mkdir_go abs seen todo d = Returns d' ->
  forall q n, FS.lookup_node d q = Some n -> FS.lookup_node d' q = Some n.
Proof.
  intros seen d d' H q n Hq.
  destruct (mkdir_go_lookup _ _ _ _ _ H q) as [Hs|(Hn & _)]; congruence.
Qed.

Lemma mkdir_go_noop abs todo : forall seen d,
  dirs_exist abs seen todo d -> FS.mkdir_go abs seen todo d = Returns d.
Proof.
  induction todo as [|x todo IH]; intros seen d H; simpl; [reflexivity|].
  destruct H as [Hx H]. rewrite Hx. now apply IH.
Qed.

Lemma dirs_exist_mono abs todo : forall seen d d',
  (forall q, FS.lookup_node d q = Some Directory ->
             FS.lookup_node d' q = Some Directory) ->
  dirs_exist abs seen todo d -> dirs_exist abs seen todo d'.
Proof.
  induction todo as [|x todo IH]; intros seen d d' Hm H; simpl; [exact I|].
  destruct H as [Hx H]. split; [now apply Hm|]. exact (IH _ _ _ Hm H).
Qed.

Lemma lookup_app_new d p n :
  parts p <> [] -> FS.lookup_node d p = None ->
  FS.lookup_node (d ++ [(p, n)]) p = Some n.
Proof.
  unfold FS.lookup_node. destruct (parts p); [contradiction|]. intros _.
  induction d as [|e d IH]; simpl.
  - now rewrite bool_decide_eq_true_2.
  - destruct (bool_decide (e.1 = p)); [discriminate|exact IH].
Qed.

(** Once [mkdir] has returned, the whole path is made of directories. *)
Lemma mkdir_go_dirs_exist abs todo : forall seen d d',
  FS.mkdir_go abs seen todo d = Returns d' -> dirs_exist abs seen todo d'.
Proof.
  induction todo as [|x todo IH]; intros seen d d' H; simpl in *; [exact I|].
  destruct (FS.lookup_node d (mkPath abs (seen ++ [x]))) as [[|content]|] eqn:E.
  - split; [|exact (IH _ _ _ H)].
    exact (mkdir_go_keeps _ _ _ _ _ H _ _ E).
  - destruct todo; discriminate.
  - split; [|exact (IH _ _ _ H)].
    apply (mkdir_go_keeps _ _ _ _ _ H). apply lookup_app_new; [|exact E].
    simpl. destruct seen; discriminate.
Qed.

(** The end of a path made of directories is a directory. *)
Lemma dirs_exist_last abs todo : forall seen d,
  dirs_exist abs seen todo d -> todo <> [] ->
  FS.lookup_node d (mkPath abs (seen ++ todo)) = Some Directory.
Proof.
  induction todo as [|x todo IH]; intros seen d H Hne; [contradiction|].
  destruct H as [Hx H]. destruct todo as [|y todo]; [exact Hx|].
  specialize (IH _ _ H ltac:(discriminate)).
  now rewrite <- app_assoc in IH.
Qed.

Lemma dirs_exist_is_dir p d :
  dirs_exist (absolute p) [] (parts p) d -> FS.is_dir d p = true.
Proof.
  intros H. unfold FS.is_dir. destruct (parts p) as [|x l] eqn:Ep.
  - unfold FS.lookup_node. now rewrite Ep.
  - pose proof (dirs_exist_last _ _ _ _ H ltac:(discriminate)) as Hl.
    simpl in Hl. rewrite <- Ep in Hl. destruct p. simpl in *. now rewrite Hl.
Qed.

Lemma put_put p content content' d :
  FS.put p content (FS.put p content' d) = FS.put p content d.
Proof.
  induction d as [|[p' n'] d IH]; simpl.
  - now rewrite bool_decide_eq_true_2.
  - destruct (bool_decide (p' = p)) eqn:E; simpl.
    + now rewrite bool_decide_eq_true_2.
    + now rewrite E, IH.
Qed.

(** Putting into a file what it holds changes nothing. *)
Lemma put_unchanged p content d :
  parts p <> [] -> FS.lookup_node d p = Some (Regular content) ->
  FS.put p content d = d.
Proof.
  unfold FS.lookup_node. destruct (parts p); [contradiction|]. intros _.
  induction d as [|[p' n'] d IH]; simpl; [discriminate|].
  destruct (bool_decide (p' = p)) eqn:E; simpl.
  - apply bool_decide_eq_true in E. subst p'. now intros [= ->].
  - intros H. now rewrite IH.
Qed.

Lemma write_keeps_directories p content d d' q :
  FS.write p content d = Returns d' ->
  FS.lookup_node d q = Some Directory -> FS.lookup_node d' q = Some Directory.
Proof.
  intros H Hq. apply write_returns_iff in H as (_ & Hp & ->).
  rewrite lookup_put_ne; [exact Hq|]. intros ->.
  unfold FS.is_dir in Hp. rewrite Hq in Hp. discriminate Hp.
Qed.

Lemma parent_child p name : PurePath.parent (FS.child p name) = p.
Proof.
  unfold PurePath.parent, FS.child. simpl. rewrite removelast_last.
  now destruct p.
Qed.

Lemma is_dir_lookup d p : FS.is_dir d p = true <-> FS.lookup_node d p = Some Directory.
Proof.
  unfold FS.is_dir. destruct (FS.lookup_node d p) as [[|c0]|]; split;
    congruence.
Qed.

Lemma set_disk_same w : set_disk (disk w) w = w.
Proof. now destruct w. Qed.

(** A file system call that leaves the disk as it is leaves the world as
    it is. *)
Lemma on_disk_noop f w :
  f (disk w) = Returns (disk w) -> on_disk f w = (Returns tt, w).
Proof. intros H. unfold on_disk. now rewrite H, set_disk_same. Qed.

(** ** The task boundary *)

(** The OCR step reads and logs; it never touches the disk. *)
Lemma ocr_block_disk c g file_path rc w r w' :
  ocr_block c g file_path rc w = (r, w') -> disk w' = disk w.
Proof.
  unfold ocr_block, try_except, gpu_attempt, cpu_fallback, call_readtext, log,
    raise, mbind, M_bind, mret, M_ret.
  intros H. repeat case_match; simplify_eq; reflexivity.
Qed.















(** In that run the target exists and is empty, so the audit of [main]
    would count the job as a success. *)
Example failed_write_leaves_target :
  FS.lookup_node (disk Runs.text_not_written)
    (PurePath.of_string "/app/output/txt/in/a.txt")
  = Some (Regular Truncated).
Proof. vm_compute. reflexivity. Qed.

(** ** The summary audit *)

Lemma find_append_row csv_path row q d :
  snd <$> List.find (fun e => bool_decide (fst e = q)) (append_row csv_path row d)
  = (fun n => if bool_decide (q = csv_path)
              then match n with
                   | Regular (CsvRows rows) => Regular (CsvRows (rows ++ [row]))
                   | _ => n
                   end
              else n)
    <$> (snd <$> List.find (fun e => bool_decide (fst e = q)) d).
Proof.
  induction d as [|[p n] d IH]; simpl; [reflexivity|].
  destruct (bool_decide (p = csv_path)) eqn:Ep.
  - apply bool_decide_eq_true in Ep. subst p.
    destruct n as [|[how doc|rows| |]]; simpl;
      (destruct (bool_decide (csv_path = q)) eqn:Eq;
       [ apply bool_decide_eq_true in Eq; subst q; simpl;
         rewrite bool_decide_eq_true_2 by reflexivity; reflexivity
       | exact IH ]).
  - simpl. destruct (bool_decide (p = q)) eqn:Eq; [|exact IH].
    apply bool_decide_eq_true in Eq. subst q. simpl. now rewrite Ep.
Qed.

(** Writing a row changes no path's existence. *)
Lemma exists_append_row csv_path row d q :
  FS.exists_ (append_row csv_path row d) q = FS.exists_ d q.
Proof.
  unfold FS.exists_, FS.lookup_node. destruct (parts q); [reflexivity|].
  rewrite find_append_row.
  now destruct (List.find (fun e => bool_decide (fst e = q)) d).
Qed.

Lemma lookup_append_row csv_path row d rows :
  FS.lookup_node d csv_path = Some (Regular (CsvRows rows)) ->
  FS.lookup_node (append_row csv_path row d) csv_path
  = Some (Regular (CsvRows (rows ++ [row]))).
Proof.
  unfold FS.lookup_node. destruct (parts csv_path); [discriminate|].
  rewrite find_append_row. intros ->. simpl.
  now rewrite bool_decide_eq_true_2.
Qed.

Lemma write_rows_spec c csv_path base_output_dir format_key input_base ext :
  forall files i w w' acc,
    FS.lookup_node (disk w) csv_path = Some (Regular (CsvRows acc)) ->
    write_rows c csv_path base_output_dir format_key input_base ext i files w
    = (Returns tt, w') ->
    exists rows,
      FS.lookup_node (disk w') csv_path = Some (Regular (CsvRows (acc ++ rows)))
      /\ length rows = length files
      /\ (forall q, FS.exists_ (disk w') q = FS.exists_ (disk w) q)
      /\ forall k f,
           files !! k = Some f ->
           exists output_path,
             summary_output_path base_output_dir format_key input_base f ext
             = Returns output_path
             /\ rows !! k
                = Some [PurePath.to_string f;
                        if FS.exists_ (disk w) output_path then "Success" else "Failed";
                        now_iso c (i + k)].
Proof.
  induction files as [|f files IH]; intros i w w' acc Hl H; simpl in H.
  - inversion H; subst w'. exists []. rewrite app_nil_r.
    repeat split; auto. intros k f Hk. discriminate Hk.
  - apply bind_inv in H as [(p & w1 & Hp & H)|(e & _ & He)]; [|discriminate He].
    unfold lift in Hp. inversion Hp as [[Hp' Hw1]]. subst w1. clear Hp.
    apply bind_inv in H as [(present & w1 & He & H)|(e & _ & He)]; [|discriminate He].
    unfold path_exists in He. inversion He; subst present w1. clear He.
    apply bind_inv in H as [(u & w1 & Hw & H)|(e & _ & He)]; [|discriminate He].
    unfold writerow in Hw. inversion Hw; subst w1. clear Hw.
    set (row := [PurePath.to_string f;
                 if FS.exists_ (disk w) p then "Success" else "Failed";
                 now_iso c i]) in *.
    apply (IH (S i) _ _ (acc ++ [row])) in H;
      [|simpl; now apply lookup_append_row].
    destruct H as (rows & Hrows & Hlen & Hex & Hall).
    exists (row :: rows).
    change (disk (set_disk (append_row csv_path row (disk w)) w))
      with (append_row csv_path row (disk w)) in Hex, Hall.
    split; [now rewrite <- app_assoc in Hrows|].
    split; [simpl; now rewrite Hlen|].
    split; [intros q; now rewrite Hex, exists_append_row|].
    intros [|k] f' Hk; simpl in Hk.
    + inversion Hk; subst f'. exists p. split; [exact Hp'|].
      simpl. now rewrite Nat.add_0_r.
    + destruct (Hall k f' Hk) as (p' & Hp1 & Hp2). exists p'. split; [exact Hp1|].
      simpl. rewrite Hp2. rewrite exists_append_row.
      now replace (S i + k) with (i + S k) by lia.
Qed.

Lemma csv_path_parts base : parts (base /' "conversion_summary.csv") <> [].
Proof.
  unfold PurePath.join_str, PurePath.joinpath. simpl.
  destruct (parts base); discriminate.
Qed.

(** Lines 211-220 on their own. *)
Lemma write_summary_spec c base_output_dir format_key input_base files w w' :
  write_summary c base_output_dir format_key input_base format_key files w
  = (Returns tt, w') ->
  summary_is_audit c (base_output_dir /' "conversion_summary.csv") base_output_dir
    format_key input_base files (disk w').
Proof.
  intros H. unfold write_summary in H.
  set (csv_path := base_output_dir /' "conversion_summary.csv") in *.
  apply bind_inv in H as [(u & w1 & Ho & H)|(e & _ & He)]; [|discriminate He].
  apply bind_inv in H as [(u' & w2 & Hh & H)|(e & _ & He)]; [|discriminate He].
  apply on_disk_returns in Ho as (d' & Hw & ->).
  apply write_returns in Hw as [_ ->].
  unfold writerow in Hh. inversion Hh; subst w2. clear Hh.
  apply (write_rows_spec _ _ _ _ _ _ _ _ _ _ ([] ++ [["File"; "Status"; "Timestamp"]]))
    in H.
  2:{ simpl. apply (lookup_append_row _ _ _ []), lookup_put, csv_path_parts. }
  destruct H as (rows & Hrows & Hlen & Hex & Hall).
  exists rows. split; [exact Hrows|]. split; [exact Hlen|].
  intros k f Hk. destruct (Hall k f Hk) as (p & Hp1 & Hp2).
  exists p. eexists. split; [exact Hp1|]. split; [exact Hp2|].
  rewrite (Hex p).
  destruct (FS.exists_ _ p); split; auto; split; auto; discriminate.
Qed.

(** One step of a computation that is known to have returned. *)
Ltac returned H :=
  let a := fresh "a" in
  let w1 := fresh "w" in
  let Hs := fresh "Hs" in
  let e := fresh "e" in
  let He := fresh "He" in
  apply bind_inv in H as [(a & w1 & Hs & H)|(e & Hs & He)];
  [match type of a with unit => destruct a | _ => idtac end|discriminate He].

(** The same, for a step that is a [log]: the world after it is known. *)
Ltac logged H :=
  let a := fresh "a" in
  let w1 := fresh "w" in
  let Hs := fresh "Hs" in
  let e := fresh "e" in
  let He := fresh "He" in
  apply bind_inv in H as [(a & w1 & Hs & H)|(e & Hs & He)];
  [unfold log in Hs; inversion Hs; subst a w1; clear Hs|discriminate He].

(** Lines 185-226: when the batch returns, the summary file is the audit of
    the jobs enumerated at its start. *)
Lemma run_batch_spec c g source_path format_key use_gpu w w' :
  run_batch c g source_path format_key use_gpu w = (Returns tt, w') ->
  summary_is_audit c (script_dir c /' "output" /' "conversion_summary.csv")
    (script_dir c /' "output") format_key
    (input_base_of (disk w) source_path)
    (enumerate_files (disk w) source_path) (disk w').
Proof.
  intros H. unfold run_batch in H.
  returned H. inversion Hs; subst a w0; clear Hs.
  logged H. logged H. logged H.
  returned H. clear Hs.
  logged H. logged H. logged H.
  returned H. clear Hs.
  returned H. apply write_summary_spec in Hs.
  logged H. logged H. logged H.
  returned H.
  unfold log in H. inversion H; subst w'. simpl.
  destruct (length (enumerate_files (disk w) source_path) =? 0);
    inversion Hs0; subst; exact Hs.
Qed.

(** C3. The summary is not always written once the pool has drained.  The
    output folder is only ever made by a task that gets as far as saving
    (line 134), and [main] opens the summary without making it (line 212).
    With two jobs whose conversions both fail and no output folder yet, both
    tasks log their error and return, the pool drains, [done!] is logged,
    and opening the summary raises [FileNotFoundError] out of [main]: there
    is no summary file, and neither the counts nor the closing rule are
    logged. *)
Theorem no_summary_when_every_job_fails :
  enumerate_files (disk Runs.json_run) (PurePath.of_string "in") = Reruns.jobs
  /\ main Runs.failing_engines false Runs.json_run
     = (Raises (Exn FileNotFoundError
                  "[Errno 2] No such file or directory: '/app/output/conversion_summary.csv'"),
        {| conversion_log :=
             prompt_lines
             ++ [rule; "Processing... in"; rule +:+ nl;
                 "Error processing a.pdf: conversion failed";
                 "Error processing b.pdf: conversion failed";
                 nl +:+ "Total document processing time: 1.25 seconds";
                 rule; "done!"];
           disk := Scenario.two_pdfs;
           readers_created := [];
           readtext_calls := [];
           stdin := [];
           pools_started := 1 |})
  /\ FS.exists_ Scenario.two_pdfs
       (PurePath.of_string "/app/output/conversion_summary.csv") = false.
Proof. repeat split; vm_compute; reflexivity. Qed.

(** X22. When [main] has run to its end on an input path that exists and a
    valid format choice, the file [<output>/conversion_summary.csv] holds
    the header [File,Status,Timestamp] and then exactly one row per
    enumerated job, in order; each row's status is Success if the
    recomputed output path of its job exists on the disk the audit ran on,
    and Failed otherwise. *)
Theorem summary_rows_match_audit :
  forall (c : Collaborators) (easyocr_importable : bool) (w w' : World)
         (line1 line2 : string) (rest : list string) (format_key : string),
    stdin w = line1 :: line2 :: rest ->
    FS.exists_ (disk w) (PurePath.of_string (Str.strip line1)) = true ->
    format_map !! Str.strip line2 = Some format_key ->
    main c easyocr_importable w = (Returns tt, w') ->
    summary_is_audit c (script_dir c /' "output" /' "conversion_summary.csv")
      (script_dir c /' "output") format_key
      (input_base_of (disk w) (PurePath.of_string (Str.strip line1)))
      (enumerate_files (disk w) (PurePath.of_string (Str.strip line1)))
      (disk w').
Proof.
  intros c imp w w' line1 line2 rest format_key Hin Hex Hfm H.
  unfold main in H.
  logged H.
  returned H. unfold input in Hs. simpl in Hs. rewrite Hin in Hs.
  inversion Hs; subst a w0; clear Hs.
  returned H. unfold path_exists in Hs. simpl in Hs. rewrite Hex in Hs.
  inversion Hs; subst a w0; clear Hs. simpl negb in H. cbv iota in H.
  logged H. logged H. logged H. logged H. logged H. logged H.
  returned H. unfold input in Hs. simpl in Hs.
  inversion Hs; subst a w0; clear Hs.
  rewrite Hfm in H.
  pose proof (format_map_values _ _ Hfm) as Hv.
  destruct format_key as [|ch format_key'].
  { exfalso. repeat (apply elem_of_cons in Hv as [Hv|Hv]; [discriminate Hv|]).
    now apply elem_of_nil in Hv. }
  returned H.
  assert (Hd : disk w0 = disk w).
  { simpl in Hs. destruct imp; simpl in Hs.
    - returned Hs. unfold input in Hs0. simpl in Hs0.
      destruct rest; [discriminate Hs0|].
      inversion Hs0; subst. inversion Hs. reflexivity.
    - inversion Hs. reflexivity. }
  apply run_batch_spec in H. rewrite Hd in H. exact H.
Qed.

(** Two pdf files, the second of which the converter refuses: the summary
    has the header and two rows, Success and Failed. *)
Lemma summary_rows_match_audit_witness :
  summary_is_audit Runs.picky_engines
    (PurePath.of_string "/app/output/conversion_summary.csv")
    (PurePath.of_string "/app/output") "json"
    (PurePath.of_string "in")
    [PurePath.of_string "in/a.pdf"; PurePath.of_string "in/b.pdf"]
    (disk (snd (main Runs.picky_engines false Runs.json_run))).
Proof.
  apply (summary_rows_match_audit Runs.picky_engines false Runs.json_run
           (snd (main Runs.picky_engines false Runs.json_run))
           "in" "2" [] "json");
    [reflexivity | reflexivity | reflexivity | vm_compute; reflexivity].
Defined.

Example summary_of_json_run :
  FS.lookup_node (disk (snd (main Runs.picky_engines false Runs.json_run)))
    (PurePath.of_string "/app/output/conversion_summary.csv")
  = Some (Regular (CsvRows
       [["File"; "Status"; "Timestamp"];
        ["in/a.pdf"; "Success"; "2025-01-01T00:00:00"];
        ["in/b.pdf"; "Failed"; "2025-01-01T00:00:01"]])).
Proof. vm_compute. reflexivity. Qed.

(** ** The OCR step *)


(** At import the module-level standard reader is [None]: the handler of
    the inner [except] does nothing, whatever reader the task holds. *)
Lemma fallback_dead_at_import c easyocr_importable file_path rc :
  cpu_fallback c (module_at_import easyocr_importable) file_path rc = mret tt.
Proof. reflexivity. Qed.

(** What the handler does when the module-level name is set and the task
    holds a standard reader whose attempt returns: the notice, one
    [readtext] call on the task's reader, the count. *)
Lemma fallback_when_both_set c g file_path r0 r e w w1 lines :
  OCR_READER_CPU g = Some r0 ->
  gpu_attempt c g file_path w = (Raises e, w1) ->
  caught_by [RuntimeError; ValueError] e = true ->
  readtext c r (PurePath.to_string file_path) = Returns lines ->
  exists w',
    ocr_block c g file_path (Some r) w = (Returns tt, w')
    /\ conversion_log w'
       = conversion_log w1
         ++ ["GPU OCR failed for " +:+ PurePath.name file_path
             +:+ ", falling back to CPU OCR.";
             "CPU OCR result for " +:+ PurePath.name file_path +:+ ": "
             +:+ pretty (length lines) +:+ " lines detected"]
    /\ readtext_calls w' = readtext_calls w1 ++ [(r, file_path)].
Proof.
  intros Hg Ha Hc Hr. eexists. split.
  - unfold ocr_block. rewrite (try_except_caught _ _ _ _ _ _ Ha Hc).
    unfold cpu_fallback. rewrite Hg.
    unfold mbind, M_bind, log, call_readtext. simpl. rewrite Hr. reflexivity.
  - simpl. split; [now rewrite <- app_assoc|reflexivity].
Qed.

(** With the module-level name unset, a failed accelerated attempt is the
    end of the OCR step. *)
Lemma fallback_needs_module_reader c g file_path rc e w w1 :
  OCR_READER_CPU g = None ->
  gpu_attempt c g file_path w = (Raises e, w1) ->
  caught_by [RuntimeError; ValueError] e = true ->
  ocr_block c g file_path rc w = (Returns tt, w1).
Proof.
  intros Hg Ha Hc. unfold ocr_block. rewrite (try_except_caught _ _ _ _ _ _ Ha Hc).
  unfold cpu_fallback. now rewrite Hg.
Qed.

(** C4, at the failing input. easyocr is not importable, OCR is asked for,
    the caller hands in a standard reader, the source is [in/scan.png]: the
    accelerated attempt raises [RuntimeError("GPU not available")], yet no
    [readtext] call follows and the log has neither the fallback notice nor
    a count line; the task goes on to save. *)
Theorem no_fallback_with_task_reader :
  let file_path := PurePath.of_string "in/scan.png" in
  let g := module_at_import false in
  let w := Scenario.world Scenario.two_pdfs [] in
  let run := process_file Scenario.engines g file_path "md" Scenario.out "md"
               (PurePath.of_string "in") true None (Some Scenario.cpu_reader) w in
  ocr_eligible true file_path = true
  /\ gpu_attempt Scenario.engines g file_path w
     = (Raises (Exn RuntimeError "GPU not available"), w)
  /\ fst run = Returns tt
  /\ readtext_calls (snd run) = []
  /\ conversion_log (snd run) = ["Saved Markdown to /app/output/md/in/scan.md"].
Proof. vm_compute. repeat split; reflexivity. Qed.


(** C5, at the failing input. easyocr importable, OCR on, the source
    [in/scan.png]: [process_file] raises [AttributeError]; nothing is
    logged, no directory is made and no file is saved. *)
Theorem ocr_job_leaves_the_task :
  let w := Scenario.world Scenario.two_pdfs [] in
  let run := Runs.ocr_task Scenario.engines (module_at_import true)
               (PurePath.of_string "in/scan.png") w in
  ocr_eligible true (PurePath.of_string "in/scan.png") = true
  /\ fst run
     = Raises (Exn AttributeError "'NoneType' object has no attribute 'readtext'")
  /\ conversion_log (snd run) = []
  /\ disk (snd run) = Scenario.two_pdfs.
Proof. vm_compute. repeat split; reflexivity. Qed.

(** ** Readers per job *)

Lemma keeps_readers_ret {A} (a : A) : keeps_readers (mret a).
Proof. intros w r w' H. now inversion H. Qed.

Lemma keeps_readers_raise {A} e : keeps_readers (@raise A e).
Proof. intros w r w' H. now inversion H. Qed.

Lemma keeps_readers_lift {A} (o : outcome A) : keeps_readers (lift o).
Proof. intros w r w' H. now inversion H. Qed.

Lemma keeps_readers_log msg : keeps_readers (log msg).
Proof. intros w r w' H. now inversion H. Qed.

Lemma keeps_readers_on_disk f : keeps_readers (on_disk f).
Proof.
  intros w r w' H. unfold on_disk in H.
  destruct (f (disk w)); now inversion H.
Qed.

Lemma keeps_readers_readtext c r p : keeps_readers (call_readtext c r p).
Proof. intros w r' w' H. now inversion H. Qed.

Lemma keeps_readers_bind {A B} (m : M A) (f : A -> M B) :
  keeps_readers m -> (forall a, keeps_readers (f a)) -> keeps_readers (m ≫= f).
Proof.
  intros Hm Hf w r w' H.
  apply bind_inv in H as [(a & w1 & H1 & H2)|(e & H1 & _)].
  - rewrite (Hf a _ _ _ H2). exact (Hm _ _ _ H1).
  - exact (Hm _ _ _ H1).
Qed.

Lemma keeps_readers_try {A} (body : M A) cls h :
  keeps_readers body -> (forall e, keeps_readers (h e)) ->
  keeps_readers (try_except body cls h).
Proof.
  intros Hb Hh w r w' H. unfold try_except in H.
  destruct (body w) as [[a|e] w1] eqn:E.
  - inversion H; subst. exact (Hb _ _ _ E).
  - destruct (caught_by cls e).
    + rewrite (Hh e _ _ _ H). exact (Hb _ _ _ E).
    + inversion H; subst. exact (Hb _ _ _ E).
Qed.

Create HintDb frames.
#[local] Hint Resolve keeps_readers_ret keeps_readers_raise keeps_readers_lift
  keeps_readers_log keeps_readers_on_disk keeps_readers_readtext : frames.

Ltac frame :=
  repeat first
    [ apply keeps_readers_bind; [|intros ?]
    | apply keeps_readers_try; [|intros ?]
    | solve [auto with frames] ].

Lemma keeps_readers_set_content p content : keeps_readers (set_content p content).
Proof. intros w r w' H. now inversion H. Qed.

Lemma keeps_readers_pictures folder names :
  keeps_readers (store_pictures folder names).
Proof. induction names as [|name names IH]; simpl; frame. Qed.

Lemma keeps_readers_write_document c how image_mode doc p :
  keeps_readers (write_document c how image_mode doc p).
Proof.
  unfold write_document, prepare_output, open_and_write.
  apply keeps_readers_bind.
  - destruct image_mode as [mode|]; [|frame].
    destruct (parts p); [frame|]. destruct mode; frame.
    apply keeps_readers_pictures.
  - intros _. destruct (encode c how doc p); [frame|].
    apply keeps_readers_bind; [frame|intros _].
    destruct (write_error c how doc p); [frame|apply keeps_readers_set_content].
Qed.

Lemma keeps_readers_save c k save_func doc p :
  handlers c !! k = Some save_func -> keeps_readers (save_func doc p).
Proof.
  intros Hs. apply handlers_lookup_Some in Hs.
  destruct Hs as [-> | [-> | [-> | [-> | ->]]]];
    (apply keeps_readers_bind; [|intros ?; auto with frames]);
    apply keeps_readers_write_document.
Qed.

Lemma keeps_readers_ocr c g file_path rc : keeps_readers (ocr_block c g file_path rc).
Proof.
  unfold ocr_block, gpu_attempt, cpu_fallback.
  apply keeps_readers_try.
  - destruct (GPU_AVAILABLE g), (OCR_READER_GPU g); frame.
  - intros e. destruct (OCR_READER_CPU g), rc; frame.
Qed.

Lemma keeps_readers_task_body c g file_path ext output_root format_key input_base
    use_gpu rc save_func :
  handlers c !! format_key = Some save_func ->
  keeps_readers (task_body c g file_path ext output_root format_key input_base
                   use_gpu rc save_func).
Proof.
  intros Hs. unfold task_body.
  apply keeps_readers_bind; [auto with frames|intros res].
  apply keeps_readers_bind.
  { destruct (ocr_eligible use_gpu file_path);
      [apply keeps_readers_ocr|auto with frames]. }
  intros _. apply keeps_readers_bind; [auto with frames|intros td].
  apply keeps_readers_bind; [auto with frames|intros _].
  now apply (keeps_readers_save c format_key).
Qed.

(** With OCR on and easyocr importable, every call that [main] sets up
    (no reader handed in) builds an accelerated and a standard reader of
    its own, whatever the job and however it ends. *)
Lemma process_file_builds_two_readers c file_path ext output_root format_key
    input_base rc w r w' :
  process_file c (module_at_import true) file_path ext output_root format_key
    input_base true None rc w = (r, w') ->
  readers_created w'
  = readers_created w
    ++ [ {| reader_id := length (readers_created w); reader_gpu := true |};
         {| reader_id := S (length (readers_created w)); reader_gpu := false |} ].
Proof.
  intros H. unfold process_file in H.
  apply bind_inv in H as [(rs & w1 & Hi & H)|(e & Hi & _)]; [|discriminate Hi].
  assert (Hw1 : readers_created w1
                = readers_created w
                  ++ [ {| reader_id := length (readers_created w); reader_gpu := true |};
                       {| reader_id := S (length (readers_created w));
                          reader_gpu := false |} ]).
  { inversion Hi; subst. simpl. rewrite <- app_assoc. simpl.
    rewrite length_app. simpl. now rewrite Nat.add_1_r. }
  rewrite <- Hw1. clear Hi.
  destruct (handlers c !! format_key) as [save_func|] eqn:Hs.
  - revert H. apply keeps_readers_try.
    + now apply keeps_readers_task_body.
    + intros e. auto with frames.
  - now inversion H.
Qed.

(** A worker that runs such calls on [jobs] builds two readers per job. *)
Lemma worker_builds_readers_per_job c ext output_root format_key input_base :
  forall jobs w rs w',
    worker (fun f => process_file c (module_at_import true) f ext output_root
                       format_key input_base true None None) jobs w = (rs, w') ->
    length (readers_created w') = length (readers_created w) + 2 * length jobs.
Proof.
  induction jobs as [|job jobs IH]; intros w rs w' H; simpl in H.
  - inversion H; subst. simpl. lia.
  - destruct (process_file c (module_at_import true) job ext output_root format_key
                input_base true None None w) as [r w1] eqn:E1.
    destruct (worker _ jobs w1) as [rs' w2] eqn:E2.
    inversion H; subst. apply IH in E2.
    apply process_file_builds_two_readers in E1.
    rewrite E2, E1, length_app. simpl. lia.
Qed.

(** C6, at the failing input. One worker, OCR on, easyocr importable, the
    jobs [in/a.pdf] and [in/b.pdf]: both tasks return, and four readers
    have been built, an accelerated and a standard one for each job. *)
Theorem readers_rebuilt_for_every_job :
  let w := Scenario.world Scenario.two_pdfs [] in
  let run := worker (Runs.ocr_task Scenario.engines (module_at_import true))
               [PurePath.of_string "in/a.pdf"; PurePath.of_string "in/b.pdf"] w in
  fst run = [Returns tt; Returns tt]
  /\ readers_created (snd run)
     = [ {| reader_id := 0; reader_gpu := true |};
         {| reader_id := 1; reader_gpu := false |};
         {| reader_id := 2; reader_gpu := true |};
         {| reader_id := 3; reader_gpu := false |} ].
Proof. vm_compute. split; reflexivity. Qed.

(** ** Job enumeration *)

(** A single file is the only job, whatever its extension. *)
Lemma enumerate_single_file d source_path :
  FS.is_file d source_path = true -> enumerate_files d source_path = [source_path].
Proof. intros H. unfold enumerate_files. now rewrite H. Qed.

Lemma is_dir_not_file d p : FS.is_dir d p = true -> FS.is_file d p = false.
Proof.
  unfold FS.is_dir, FS.is_file.
  destruct (FS.lookup_node d p) as [[|content]|]; auto; discriminate.
Qed.

(** For a directory, the jobs are the entries below it, of either kind,
    whose lower-cased suffix is a supported one. *)
Lemma enumerate_directory d source_path f :
  FS.is_dir d source_path = true ->
  In f (enumerate_files d source_path)
  <-> (exists n, In (f, n) d) /\ FS.below source_path f = true /\ supported f = true.
Proof.
  intros Hd. unfold enumerate_files, FS.rglob.
  rewrite (is_dir_not_file _ _ Hd), Hd.
  rewrite List.filter_In, in_map_iff. split.
  - intros [([f' n] & Hf & Hin) Hs]. simpl in Hf. subst f'.
    apply List.filter_In in Hin as [Hin Hb]. eauto.
  - intros ([n Hin] & Hb & Hs). split; [|exact Hs].
    exists (f, n). split; [reflexivity|]. apply List.filter_In. auto.
Qed.

(** When no directory below the input has a supported suffix, the jobs
    are exactly the regular files below it that have one. *)
Lemma enumerate_directory_of_files d source_path f :
  FS.is_dir d source_path = true ->
  (forall p, In (p, Directory) d -> FS.below source_path p = true ->
             supported p = false) ->
  In f (enumerate_files d source_path)
  <-> (exists content, In (f, Regular content) d)
      /\ FS.below source_path f = true /\ supported f = true.
Proof.
  intros Hd Hdirs. rewrite (enumerate_directory _ _ _ Hd). split.
  - intros ([[|content] Hin] & Hb & Hs).
    + rewrite (Hdirs _ Hin Hb) in Hs. discriminate Hs.
    + eauto.
  - intros ([content Hin] & Hb & Hs). eauto.
Qed.

(** Line 181 on examples: a folder is its own input base, a file has its
    folder as input base. *)
Example input_base_of_ex :
  input_base_of Scenario.tree (PurePath.of_string "in") = PurePath.of_string "in"
  /\ input_base_of Scenario.tree (PurePath.of_string "in/sub")
     = PurePath.of_string "in/sub"
  /\ input_base_of Scenario.tree (PurePath.of_string "in/sub/b.PNG")
     = PurePath.of_string "in/sub"
  /\ input_base_of Scenario.tree (PurePath.of_string "in/a.pdf")
     = PurePath.of_string "in".
Proof. repeat split; reflexivity. Qed.

Example supported_ignores_case :
  map (fun s => supported (PurePath.of_string s))
      ["x/Scan.PNG"; "x/a.Pdf"; "x/b.tiff"; "x/notes.txt"; "x/.pdf"; "x/noext"]
  = [true; true; true; false; false; false].
Proof. reflexivity. Qed.

(** C7, at the failing input. The folder [in] holds a subfolder named
    [scans.pdf]: the job list has that directory in it, between the files. *)
Theorem directory_enumerated_as_job :
  let source_path := PurePath.of_string "in" in
  FS.is_dir Scenario.tree source_path = true
  /\ enumerate_files Scenario.tree source_path
     = [PurePath.of_string "in/a.pdf";
        PurePath.of_string "in/sub/b.PNG";
        PurePath.of_string "in/scans.pdf";
        PurePath.of_string "in/scans.pdf/page1.jpg"]
  /\ FS.is_dir Scenario.tree (PurePath.of_string "in/scans.pdf") = true
  /\ FS.is_file Scenario.tree (PurePath.of_string "in/scans.pdf") = false.
Proof. vm_compute. repeat split; reflexivity. Qed.

(** * Further properties of the code *)

(** ** What a save helper leaves behind *)

Lemma removelast_length_nonempty {A} (l : list A) :
  l <> [] -> length l = S (length (removelast l)).
Proof.
  intros Hl. destruct (exists_last Hl) as (l' & a & ->).
  rewrite removelast_last, length_app. simpl. lia.
Qed.

(** A picture is never the target itself: it lies one level deeper. *)
Lemma picture_not_target p name :
  parts p <> [] -> FS.child (artifacts_dir p) name <> p.
Proof.
  intros Hp Heq. apply (f_equal (fun q => length (parts q))) in Heq.
  unfold FS.child, artifacts_dir, FS.child in Heq. simpl in Heq.
  rewrite !length_app in Heq. simpl in Heq.
  rewrite (removelast_length_nonempty _ Hp) in Heq. lia.
Qed.

Lemma artifact_change_put c doc p d d1 q content :
  q <> p -> artifact_change c doc p d d1 q ->
  artifact_change c doc p d (FS.put p content d1) q.
Proof.
  intros Hq [(Hn & Hd & Hw)|(name & Hin & -> & Hl)].
  - left. split; [exact Hn|]. split; [|exact Hw]. now rewrite lookup_put_ne.
  - right. exists name. split; [exact Hin|]. split; [reflexivity|].
    now rewrite lookup_put_ne.
Qed.

Lemma artifacts_stored_put c doc p d content :
  parts p <> [] -> FS.is_dir d p = false ->
  artifacts_stored c doc p d -> artifacts_stored c doc p (FS.put p content d).
Proof.
  intros Hp Hnd [Hdirs Hpic]. split.
  - apply (dirs_exist_mono _ _ _ d); [|exact Hdirs].
    intros q Hq. rewrite lookup_put_ne; [exact Hq|]. intros ->.
    unfold FS.is_dir in Hnd. now rewrite Hq in Hnd.
  - intros name Hin. rewrite lookup_put_ne; [now apply Hpic|].
    now apply picture_not_target.
Qed.

(** Storing the pictures: every path keeps its entry or is one of the
    pictures; directories stay, and every picture is in the folder. *)
Lemma store_pictures_returns folder : forall names w w',
  store_pictures folder names w = (Returns tt, w') ->
  exists d',
    w' = set_disk d' w
    /\ (forall q, FS.lookup_node (disk w) q = Some Directory ->
                  FS.lookup_node d' q = Some Directory)
    /\ (forall q,
          FS.lookup_node d' q = FS.lookup_node (disk w) q
          \/ exists name, name ∈ names /\ q = FS.child folder name
                          /\ FS.lookup_node d' q = Some (Regular OtherData))
    /\ forall name, name ∈ names ->
         FS.lookup_node d' (FS.child folder name) = Some (Regular OtherData).
Proof.
  induction names as [|name names IH]; intros w w' H; simpl in H.
  - inversion H; subst w'. exists (disk w). rewrite set_disk_same.
    split; [reflexivity|]. split; [auto|]. split; [auto|].
    intros name Hn. now apply elem_of_nil in Hn.
  - apply bind_inv in H as [(u & w1 & Hw & H)|(e & _ & He)]; [|discriminate He].
    apply on_disk_returns in Hw as (d1 & Hw & ->).
    pose proof (fun q => write_keeps_directories _ _ _ _ q Hw) as Hk.
    apply write_returns in Hw as [Hp ->].
    apply IH in H as (d' & -> & Hdir & Hq & Hpic). simpl disk in *.
    assert (Hq' : forall q,
               FS.lookup_node d' q = FS.lookup_node (disk w) q
               \/ exists name0, name0 ∈ name :: names /\ q = FS.child folder name0
                                /\ FS.lookup_node d' q = Some (Regular OtherData)).
    { intros q. destruct (Hq q) as [Hs|(name0 & Hin & -> & Hl)].
      - destruct (decide (q = FS.child folder name)) as [->|Hne].
        + right. exists name. split; [apply elem_of_cons; now left|].
          split; [reflexivity|]. now rewrite Hs, lookup_put.
        + left. now rewrite Hs, lookup_put_ne.
      - right. exists name0. split; [apply elem_of_cons; now right|]. auto. }
    exists d'. split; [reflexivity|]. split; [intros q Hd; apply Hdir, Hk, Hd|].
    split; [exact Hq'|].
    intros name0 Hin. apply elem_of_cons in Hin as [->|Hin]; [|now apply Hpic].
    destruct (Hq (FS.child folder name)) as [Hs|(name0 & _ & _ & Hl)];
      [|exact Hl].
    now rewrite Hs, lookup_put.
Qed.

(** The pictures stored again over themselves: nothing changes. *)
Lemma store_pictures_again folder : forall names w,
  FS.is_dir (disk w) folder = true ->
  (forall name, name ∈ names ->
     FS.lookup_node (disk w) (FS.child folder name) = Some (Regular OtherData)) ->
  store_pictures folder names w = (Returns tt, w).
Proof.
  induction names as [|name names IH]; intros w Hf Hpic; simpl; [reflexivity|].
  assert (Hl : FS.lookup_node (disk w) (FS.child folder name)
               = Some (Regular OtherData)) by (apply Hpic, elem_of_cons; now left).
  assert (Hw : on_disk (FS.write (FS.child folder name) OtherData) w
               = (Returns tt, w)).
  { apply on_disk_noop. apply write_returns_iff. rewrite parent_child.
    split; [exact Hf|]. split; [unfold FS.is_dir; now rewrite Hl|].
    symmetry. apply put_unchanged; [|exact Hl].
    unfold FS.child. simpl. destruct (parts folder); discriminate. }
  rewrite (bind_returns _ _ _ _ _ Hw).
  apply IH; [exact Hf|]. intros name0 Hin. apply Hpic, elem_of_cons. now right.
Qed.

Lemma artifacts_dir_parts p : parts (artifacts_dir p) <> [].
Proof.
  unfold artifacts_dir, FS.child. simpl.
  destruct (removelast (parts p)); discriminate.
Qed.

(** Without referenced pictures nothing is made. *)
Lemma prepare_output_plain c mode doc p w w' :
  mode <> REFERENCED ->
  prepare_output c mode doc p w = (Returns tt, w') -> w' = w.
Proof.
  intros Hm. unfold prepare_output. destruct (parts p); [discriminate|].
  destruct mode; try (now intros [= <-]). now contradiction Hm.
Qed.

(** What the folder of pictures is like once it is made. *)
Lemma make_artifacts_returns c doc p w w' :
  prepare_output c REFERENCED doc p w = (Returns tt, w') ->
  exists d',
    w' = set_disk d' w
    /\ parts p <> []
    /\ (forall q, FS.lookup_node (disk w) q = Some Directory ->
                  FS.lookup_node d' q = Some Directory)
    /\ (forall q, FS.lookup_node d' q = FS.lookup_node (disk w) q
                  \/ artifact_change c doc p (disk w) d' q)
    /\ artifacts_stored c doc p d'.
Proof.
  unfold prepare_output. destruct (parts p) as [|x l] eqn:Ep; [discriminate|].
  intros H.
  apply bind_inv in H as [(u & w1 & Hm & H)|(e & _ & He)]; [|discriminate He].
  apply on_disk_returns in Hm as (d1 & Hm & ->).
  apply store_pictures_returns in H as (d' & -> & Hdir & Hq & Hpic).
  simpl disk in *. exists d'. split; [reflexivity|]. split; [discriminate|].
  split.
  { intros q Hd. apply Hdir. unfold FS.mkdir in Hm.
    exact (mkdir_go_keeps _ _ _ _ _ Hm _ _ Hd). }
  split.
  { intros q. destruct (Hq q) as [Hs|(name & Hin & -> & Hl)].
    - destruct (mkdir_lookup _ _ _ Hm q) as [Hs1|(Hn & Hd & Hwhere)].
      + left. congruence.
      + right. left. split; [exact Hn|]. split; [congruence|exact Hwhere].
    - right. right. exists name. auto. }
  split; [|exact Hpic].
  apply (dirs_exist_mono _ _ _ d1); [exact Hdir|].
  exact (mkdir_go_dirs_exist _ _ _ _ _ Hm).
Qed.

(** When the target is opened and written, it holds the document. *)
Lemma open_and_write_returns c how doc p w w' :
  open_and_write c how doc p w = (Returns tt, w') ->
  write_error c how doc p = None
  /\ parts p <> []
  /\ FS.is_dir (disk w) (PurePath.parent p) = true
  /\ FS.is_dir (disk w) p = false
  /\ w' = set_disk (FS.put p (Encoded how doc) (disk w)) w.
Proof.
  unfold open_and_write. intros H.
  apply bind_inv in H as [(u & w1 & Hw & H)|(e & _ & He)]; [|discriminate He].
  apply on_disk_returns in Hw as (d1 & Hw & ->).
  pose proof (write_returns _ _ _ _ Hw) as [Hp _].
  apply write_returns_iff in Hw as (Hpar & Hnd & ->).
  destruct (write_error c how doc p); [discriminate H|].
  unfold set_content in H. inversion H. simpl. rewrite put_put. auto.
Qed.

(** What [write_document] leaves when it returns. *)
Lemma write_document_returns c how image_mode doc p w w' :
  write_document c how image_mode doc p w = (Returns tt, w') ->
  exists d',
    w' = set_disk d' w
    /\ encode c how doc p = None
    /\ write_error c how doc p = None
    /\ parts p <> []
    /\ FS.lookup_node d' p = Some (Regular (Encoded how doc))
    /\ FS.is_dir d' (PurePath.parent p) = true
    /\ (forall q, FS.lookup_node (disk w) q = Some Directory ->
                  FS.lookup_node d' q = Some Directory)
    /\ (forall q, q <> p ->
          FS.lookup_node d' q = FS.lookup_node (disk w) q
          \/ (image_mode = Some REFERENCED
              /\ artifact_change c doc p (disk w) d' q))
    /\ (image_mode = Some REFERENCED -> artifacts_stored c doc p d').
Proof.
  unfold write_document. intros H.
  apply bind_inv in H as [(u & w1 & Ha & H)|(e & _ & He)]; [|discriminate He].
  destruct u.
  destruct (encode c how doc p) eqn:Eenc; [discriminate H|].
  apply open_and_write_returns in H as (Hwe & Hp & Hpar & Hnd & ->).
  assert (Hne : forall q, FS.lookup_node (disk w1) q = Some Directory -> q <> p).
  { intros q Hq ->. unfold FS.is_dir in Hnd. now rewrite Hq in Hnd. }
  assert (Hparent : FS.is_dir (FS.put p (Encoded how doc) (disk w1))
                      (PurePath.parent p) = true).
  { apply is_dir_lookup. apply is_dir_lookup in Hpar.
    rewrite lookup_put_ne; [exact Hpar|]. now apply Hne. }
  assert (Hplain : image_mode <> Some REFERENCED -> w1 = w).
  { intros Hm. destruct image_mode as [mode|]; [|now inversion Ha].
    apply (prepare_output_plain c mode doc p w w1); [|exact Ha].
    intros ->. now apply Hm. }
  destruct (decide (image_mode = Some REFERENCED)) as [->|Hm].
  - apply make_artifacts_returns in Ha as (d1 & -> & _ & Hdir & Hq & Hst).
    simpl disk in *.
    exists (FS.put p (Encoded how doc) d1).
    split; [reflexivity|]. split; [reflexivity|]. split; [exact Hwe|].
    split; [exact Hp|]. split; [now apply lookup_put|]. split; [exact Hparent|].
    split.
    { intros q Hd. rewrite lookup_put_ne; [now apply Hdir|]. now apply Hne, Hdir. }
    split.
    { intros q Hqp. rewrite lookup_put_ne by exact Hqp.
      destruct (Hq q) as [Hs|Hc]; [now left|right]. split; [reflexivity|].
      now apply artifact_change_put. }
    intros _. now apply artifacts_stored_put.
  - rewrite (Hplain Hm) in *.
    exists (FS.put p (Encoded how doc) (disk w)).
    split; [reflexivity|]. split; [reflexivity|]. split; [exact Hwe|].
    split; [exact Hp|]. split; [now apply lookup_put|]. split; [exact Hparent|].
    split.
    { intros q Hd. rewrite lookup_put_ne; [exact Hd|]. now apply Hne. }
    split; [|intros Hc; contradiction].
    intros q Hqp. left. now apply lookup_put_ne.
Qed.

(** The same save once more, on the disk that the first one left: it
    returns and changes nothing. *)
Lemma write_document_again c how image_mode doc p w w1 w' :
  write_document c how image_mode doc p w = (Returns tt, w1) ->
  disk w' = disk w1 ->
  write_document c how image_mode doc p w' = (Returns tt, w').
Proof.
  intros H Hd.
  apply write_document_returns in H
    as (d' & -> & Henc & Hwe & Hp & Hl & Hpar & _ & _ & Hst).
  simpl disk in Hd. subst d'.
  unfold write_document.
  assert (Ha : (match image_mode with
                | Some mode => prepare_output c mode doc p
                | None => mret tt
                end) w' = (Returns tt, w')).
  { destruct image_mode as [mode|]; [|reflexivity].
    unfold prepare_output. destruct (parts p) eqn:Ep; [contradiction|].
    destruct mode; try reflexivity.
    destruct (Hst eq_refl) as [Hdirs Hpic].
    assert (Hm : on_disk (FS.mkdir (artifacts_dir p)) w' = (Returns tt, w')).
    { apply on_disk_noop. unfold FS.mkdir. now apply mkdir_go_noop. }
    rewrite (bind_returns _ _ _ _ _ Hm).
    apply store_pictures_again; [|exact Hpic].
    now apply dirs_exist_is_dir. }
  rewrite (bind_returns _ _ _ _ _ Ha). rewrite Henc.
  unfold open_and_write.
  assert (Ho : on_disk (FS.write p Truncated) w'
               = (Returns tt, set_disk (FS.put p Truncated (disk w')) w')).
  { unfold on_disk.
    assert (Hw : FS.write p Truncated (disk w')
                 = Returns (FS.put p Truncated (disk w'))); [|now rewrite Hw].
    apply write_returns_iff. split; [exact Hpar|]. split; [|reflexivity].
    unfold FS.is_dir. now rewrite Hl. }
  rewrite (bind_returns _ _ _ _ _ Ho). rewrite Hwe.
  unfold set_content, set_disk. simpl.
  rewrite put_put, (put_unchanged _ _ _ Hp Hl). now destruct w'.
Qed.

Lemma handlers_encoder c k save_func how label :
  handlers c !! k = Some save_func ->
  encoder_of k = Some (how, label) ->
  save_func
  = fun doc file_path =>
      write_document c how (image_mode_of k) doc file_path;;
      log ("Saved " +:+ label +:+ " to " +:+ PurePath.to_string file_path).
Proof.
  rewrite handlers_lookup. unfold encoder_of, image_mode_of.
  repeat (destruct (String.eqb k _); [intros [= <-] [= <- <-]; reflexivity|]).
  discriminate.
Qed.

(** Only the helper for HTML asks for referenced pictures. *)
Lemma image_mode_of_referenced k :
  image_mode_of k = Some REFERENCED <-> k = "html".
Proof.
  unfold image_mode_of. destruct (String.eqb k "html") eqn:E.
  - apply String.eqb_eq in E. tauto.
  - apply String.eqb_neq in E.
    repeat (destruct (String.eqb k _)); split; congruence.
Qed.

Lemma save_helper_returns c format_key how label save_func doc file_path w w' :
  handlers c !! format_key = Some save_func ->
  encoder_of format_key = Some (how, label) ->
  save_func doc file_path w = (Returns tt, w') ->
  encode c how doc file_path = None
  /\ write_error c how doc file_path = None
  /\ FS.lookup_node (disk w') file_path = Some (Regular (Encoded how doc))
  /\ conversion_log w'
     = conversion_log w
       ++ ["Saved " +:+ label +:+ " to " +:+ PurePath.to_string file_path]
  /\ (forall q, q <> file_path ->
        FS.lookup_node (disk w') q = FS.lookup_node (disk w) q
        \/ (format_key = "html"
            /\ artifact_change c doc file_path (disk w) (disk w') q))
  /\ (format_key = "html" -> artifacts_stored c doc file_path (disk w')).
Proof.
  intros Hs He H.
  rewrite (handlers_encoder _ _ _ _ _ Hs He) in H.
  apply bind_inv in H as [(u & w1 & Hw & Hl)|(e & _ & Hf)]; [|discriminate Hf].
  destruct u.
  apply write_document_returns in Hw
    as (d' & -> & Henc & Hwe & Hp & Hl' & _ & _ & Hq & Hst).
  unfold log in Hl. inversion Hl; subst w'. simpl.
  split; [exact Henc|]. split; [exact Hwe|]. split; [exact Hl'|].
  split; [reflexivity|]. split.
  - intros q Hqp. destruct (Hq q Hqp) as [Hsame|[Hm Hc]]; [now left|right].
    split; [now apply image_mode_of_referenced|exact Hc].
  - intros Hk. now apply Hst, image_mode_of_referenced.
Qed.

(** X1. Whatever key selects it, a save helper that returns has had the
    encoder of that key accept the document and the text go into the
    target, has put the encoded document at the path it was given and has
    logged [Saved <Format> to <path>] as the one new line.  The helpers for
    JSON, Markdown, text and doctags have left every other path of the disk
    as it was; the helper for HTML, which asks for referenced pictures, has
    also made the folder [<stem>_artifacts] beside the target (and the
    folders above it that were missing) and stored the document's pictures
    in it, and has left every path other than those as it was. *)
Theorem save_helper_effect :
  forall (c : Collaborators) (format_key how label : string) (save_func : SaveFunc)
         (doc : DoclingDocument) (file_path : Path) (w w' : World),
    handlers c !! format_key = Some save_func ->
    encoder_of format_key = Some (how, label) ->
    save_func doc file_path w = (Returns tt, w') ->
    encode c how doc file_path = None
    /\ write_error c how doc file_path = None
    /\ FS.lookup_node (disk w') file_path = Some (Regular (Encoded how doc))
    /\ conversion_log w'
       = conversion_log w
         ++ ["Saved " +:+ label +:+ " to " +:+ PurePath.to_string file_path]
    /\ (forall q, q <> file_path ->
          FS.lookup_node (disk w') q = FS.lookup_node (disk w) q
          \/ (format_key = "html"
              /\ artifact_change c doc file_path (disk w) (disk w') q))
    /\ (format_key = "html" -> artifacts_stored c doc file_path (disk w')).
Proof.
  intros c k how label save_func doc p w w' Hs He H.
  exact (save_helper_returns _ _ _ _ _ _ _ _ _ Hs He H).
Qed.

(** A page with one picture saved as HTML beside the sources. *)
Lemma save_helper_effect_witness :
  encode Runs.picture_engines "save_as_html" 7 (PurePath.of_string "in/a.html") = None
  /\ write_error Runs.picture_engines "save_as_html" 7 (PurePath.of_string "in/a.html")
     = None
  /\ FS.lookup_node (disk Runs.html_saved) (PurePath.of_string "in/a.html")
     = Some (Regular (Encoded "save_as_html" 7))
  /\ conversion_log Runs.html_saved
     = conversion_log (Scenario.world Scenario.two_pdfs [])
       ++ ["Saved " +:+ "HTML" +:+ " to "
           +:+ PurePath.to_string (PurePath.of_string "in/a.html")]
  /\ (forall q, q <> PurePath.of_string "in/a.html" ->
        FS.lookup_node (disk Runs.html_saved) q
        = FS.lookup_node (disk (Scenario.world Scenario.two_pdfs [])) q
        \/ ("html" = "html"
            /\ artifact_change Runs.picture_engines 7 (PurePath.of_string "in/a.html")
                 (disk (Scenario.world Scenario.two_pdfs []))
                 (disk Runs.html_saved) q))
  /\ ("html" = "html" ->
      artifacts_stored Runs.picture_engines 7 (PurePath.of_string "in/a.html")
        (disk Runs.html_saved)).
Proof.
  apply (save_helper_effect Runs.picture_engines "html" "save_as_html" "HTML"
           (_save_html Runs.picture_engines) 7 (PurePath.of_string "in/a.html")
           (Scenario.world Scenario.two_pdfs []) Runs.html_saved);
    reflexivity.
Defined.

(** The disk of that run: the sources, the folder of pictures with the one
    picture, and the page. *)
Example html_saved_disk :
  disk Runs.html_saved
  = Scenario.two_pdfs
    ++ [(PurePath.of_string "in/a_artifacts", Directory);
        (PurePath.of_string "in/a_artifacts/image_000000_1f8a.png", Regular OtherData);
        (PurePath.of_string "in/a.html", Regular (Encoded "save_as_html" 7))].
Proof. vm_compute. reflexivity. Qed.

(** Opening the target and writing into it touches the disk only. *)
Lemma open_and_write_only_disk c how doc p w :
  exists d', snd (open_and_write c how doc p w) = set_disk d' w.
Proof.
  unfold open_and_write, on_disk, mbind, M_bind, set_content, raise.
  destruct (FS.write p Truncated (disk w)) as [d|e]; simpl.
  - destruct (write_error c how doc p); simpl; eexists; reflexivity.
  - exists (disk w). now rewrite set_disk_same.
Qed.

(** ** A task that succeeds, a conversion that fails *)

Lemma exists_of_lookup d p n : FS.lookup_node d p = Some n -> FS.exists_ d p = true.
Proof. unfold FS.exists_. now intros ->. Qed.

(** X2. When the body of the task returns, [process_file] returns, the
    conversion had returned a document, and that document, encoded by the
    encoder of the format key, is on the disk at the very path the summary
    audit recomputes; the last line of the log is the helper's [Saved] line. *)
Theorem successful_task_saves_at_audit_path :
  forall (c : Collaborators) (g : ModuleGlobals) (file_path : Path) (ext : string)
         (output_root : Path) (format_key : string) (input_base : Path)
         (use_gpu : bool) (rg rc : option Reader) (w : World)
         (rs : option Reader * option Reader) (w1 : World)
         (save_func : SaveFunc) (how label : string) (w2 : World),
    init_readers g use_gpu rg rc w = (Returns rs, w1) ->
    handlers c !! format_key = Some save_func ->
    encoder_of format_key = Some (how, label) ->
    task_body c g file_path ext output_root format_key input_base use_gpu (snd rs)
      save_func w1 = (Returns tt, w2) ->
    process_file c g file_path ext output_root format_key input_base use_gpu
      rg rc w = (Returns tt, w2)
    /\ exists (res : ConversionResult) (p : Path),
         convert c (PurePath.to_string file_path) = Returns res
         /\ summary_output_path output_root format_key input_base file_path ext
            = Returns p
         /\ FS.lookup_node (disk w2) p
            = Some (Regular (Encoded how (document res)))
         /\ FS.exists_ (disk w2) p = true
         /\ List.last (conversion_log w2) ""
            = "Saved " +:+ label +:+ " to " +:+ PurePath.to_string p.
Proof.
  intros c g f ext out fk base use_gpu rg rc w rs w1 sf how label w2 Hi Hs He Hb.
  split.
  { unfold process_file. rewrite (bind_returns _ _ _ _ _ Hi), Hs.
    now apply try_except_returns. }
  unfold task_body in Hb.
  returned Hb. unfold lift in Hs0. inversion Hs0 as [[Hc Hw]]. subst w0. clear Hs0.
  returned Hb. clear Hs0.
  returned Hb. unfold lift in Hs0. inversion Hs0 as [[Ht Hw]]. subst w3. clear Hs0.
  returned Hb. clear Hs0.
  destruct (save_helper_returns _ _ _ _ _ _ _ _ _ Hs He Hb) as (_ & _ & Hl & Hlog & _).
  exists a, (task_target_file a0 f ext).
  split; [exact Hc|]. split.
  { unfold summary_output_path. unfold task_target_dir in Ht.
    destruct (PurePath.relative_to (PurePath.parent f) base); [|discriminate Ht].
    inversion Ht. reflexivity. }
  split; [exact Hl|]. split; [exact (exists_of_lookup _ _ _ Hl)|].
  rewrite Hlog. apply List.last_last.
Qed.

Lemma successful_task_saves_at_audit_path_witness :
  process_file Scenario.engines (module_at_import false)
    (PurePath.of_string "in/a.pdf") "json" Scenario.out "json"
    (PurePath.of_string "in") false None None
    (Scenario.world Scenario.two_pdfs [])
  = (Returns tt,
     snd (process_file Scenario.engines (module_at_import false)
            (PurePath.of_string "in/a.pdf") "json" Scenario.out "json"
            (PurePath.of_string "in") false None None
            (Scenario.world Scenario.two_pdfs [])))
  /\ exists (res : ConversionResult) (p : Path),
       convert Scenario.engines (PurePath.to_string (PurePath.of_string "in/a.pdf"))
       = Returns res
       /\ summary_output_path Scenario.out "json" (PurePath.of_string "in")
            (PurePath.of_string "in/a.pdf") "json" = Returns p
       /\ FS.lookup_node
            (disk (snd (process_file Scenario.engines (module_at_import false)
                          (PurePath.of_string "in/a.pdf") "json" Scenario.out "json"
                          (PurePath.of_string "in") false None None
                          (Scenario.world Scenario.two_pdfs [])))) p
          = Some (Regular (Encoded "save_as_json" (document res)))
       /\ FS.exists_
            (disk (snd (process_file Scenario.engines (module_at_import false)
                          (PurePath.of_string "in/a.pdf") "json" Scenario.out "json"
                          (PurePath.of_string "in") false None None
                          (Scenario.world Scenario.two_pdfs [])))) p = true
       /\ List.last
            (conversion_log
               (snd (process_file Scenario.engines (module_at_import false)
                       (PurePath.of_string "in/a.pdf") "json" Scenario.out "json"
                       (PurePath.of_string "in") false None None
                       (Scenario.world Scenario.two_pdfs [])))) ""
          = "Saved " +:+ "JSON" +:+ " to " +:+ PurePath.to_string p.
Proof.
  apply (successful_task_saves_at_audit_path Scenario.engines (module_at_import false)
           (PurePath.of_string "in/a.pdf") "json" Scenario.out "json"
           (PurePath.of_string "in") false None None
           (Scenario.world Scenario.two_pdfs [])
           (None, None) (Scenario.world Scenario.two_pdfs [])
           (_save_json Scenario.engines) "save_as_json" "JSON");
    vm_compute; reflexivity.
Defined.



(** ** Frames for relations that are reflexive and transitive *)

Section Frames.

Variable R : World -> World -> Prop.
Hypothesis R_refl : forall w, R w w.
Hypothesis R_trans : forall w1 w2 w3, R w1 w2 -> R w2 w3 -> R w1 w3.

Lemma respects_pure {A} (m : M A) :
  (forall w, snd (m w) = w) -> respects R m.
Proof.
  intros Hm w r w' H. specialize (Hm w). rewrite H in Hm. simpl in Hm.
  subst w'. apply R_refl.
Qed.

Lemma respects_ret {A} (a : A) : respects R (mret a).
Proof. now apply respects_pure. Qed.

Lemma respects_raise {A} e : respects R (@raise A e).
Proof. now apply respects_pure. Qed.

Lemma respects_lift {A} (o : outcome A) : respects R (lift o).
Proof. now apply respects_pure. Qed.

Lemma respects_path_exists p : respects R (path_exists p).
Proof. now apply respects_pure. Qed.

Lemma respects_bind {A B} (m : M A) (f : A -> M B) :
  respects R m -> (forall a, respects R (f a)) -> respects R (m ≫= f).
Proof.
  intros Hm Hf w r w' H.
  apply bind_inv in H as [(a & w1 & H1 & H2)|(e & H1 & _)].
  - exact (R_trans _ _ _ (Hm _ _ _ H1) (Hf a _ _ _ H2)).
  - exact (Hm _ _ _ H1).
Qed.

Lemma respects_try {A} (body : M A) cls h :
  respects R body -> (forall e, respects R (h e)) ->
  respects R (try_except body cls h).
Proof.
  intros Hb Hh w r w' H. unfold try_except in H.
  destruct (body w) as [[a|e] w1] eqn:E.
  - inversion H; subst. exact (Hb _ _ _ E).
  - destruct (caught_by cls e).
    + exact (R_trans _ _ _ (Hb _ _ _ E) (Hh e _ _ _ H)).
    + inversion H; subst. exact (Hb _ _ _ E).
Qed.

Hypothesis R_log : forall msg, respects R (log msg).
Hypothesis R_mkdir : forall p, respects R (on_disk (FS.mkdir p)).
Hypothesis R_write : forall p content, respects R (on_disk (FS.write p content)).

Ltac respect :=
  repeat first
    [ apply respects_bind; [|intros ?]
    | apply respects_try; [|intros ?]
    | apply respects_ret
    | apply respects_raise
    | apply respects_lift
    | apply respects_path_exists
    | solve [auto] ].

Hypothesis R_open_write :
  forall c how doc p, respects R (open_and_write c how doc p).

Lemma respects_pictures folder names : respects R (store_pictures folder names).
Proof. induction names as [|name names IH]; simpl; respect. Qed.

Lemma respects_write_document c how image_mode doc p :
  respects R (write_document c how image_mode doc p).
Proof.
  unfold write_document, prepare_output. apply respects_bind.
  - destruct image_mode as [mode|]; [|apply respects_ret].
    destruct (parts p); [apply respects_raise|].
    destruct mode; try apply respects_ret.
    respect. apply respects_pictures.
  - intros _. destruct (encode c how doc p);
      [apply respects_raise|apply R_open_write].
Qed.

Lemma respects_save c k save_func doc p :
  handlers c !! k = Some save_func -> respects R (save_func doc p).
Proof.
  intros Hs. apply handlers_lookup_Some in Hs.
  destruct Hs as [-> | [-> | [-> | [-> | ->]]]];
    (apply respects_bind; [|intros ?; apply R_log]);
    apply respects_write_document.
Qed.

(** [process_file], given that its two OCR-related parts respect [R]. *)
Lemma respects_process_file_gen c g file_path ext output_root format_key input_base
    use_gpu rg rc :
  respects R (init_readers g use_gpu rg rc) ->
  (forall rc', respects R (if ocr_eligible use_gpu file_path
                           then ocr_block c g file_path rc' else mret tt)) ->
  respects R (process_file c g file_path ext output_root format_key input_base
                use_gpu rg rc).
Proof.
  intros Hi Ho. unfold process_file.
  apply respects_bind; [exact Hi|intros rs].
  destruct (handlers c !! format_key) as [save_func|] eqn:Hs; [|respect].
  apply respects_try; [|intros e; apply R_log].
  unfold task_body. respect.
  now apply (respects_save c format_key).
Qed.

(** With OCR off, neither OCR-related part does anything. *)
Lemma respects_process_file_ocr_off c g file_path ext output_root format_key
    input_base rg rc :
  respects R (process_file c g file_path ext output_root format_key input_base
                false rg rc).
Proof. apply respects_process_file_gen; [|intros rc']; apply respects_ret. Qed.

Lemma respects_worker (task : Path -> M unit) :
  (forall f, respects R (task f)) ->
  forall jobs w rs w', worker task jobs w = (rs, w') -> R w w'.
Proof.
  intros Ht. induction jobs as [|job jobs IH]; intros w rs w' H; simpl in H.
  - inversion H; subst. apply R_refl.
  - destruct (task job w) as [r w1] eqn:E1.
    destruct (worker task jobs w1) as [rs' w2] eqn:E2.
    inversion H; subst.
    exact (R_trans _ _ _ (Ht _ _ _ _ E1) (IH _ _ _ E2)).
Qed.

Hypothesis R_pool : respects R start_pool.
Hypothesis R_writerow : forall p row, respects R (writerow p row).

Lemma respects_pool_imap (task : Path -> M unit) files :
  (forall f, respects R (task f)) -> respects R (pool_imap task files).
Proof.
  intros Ht. unfold pool_imap. apply respects_bind; [exact R_pool|intros _].
  intros w r w' H. unfold imap_results in H.
  destruct (worker task files w) as [rs w1] eqn:E.
  apply (respects_worker _ Ht) in E.
  destruct (first_failure rs); inversion H; subst; exact E.
Qed.

Lemma respects_count_successes base_output_dir format_key input_base ext files :
  respects R (count_successes base_output_dir format_key input_base ext files).
Proof. induction files as [|f files IH]; simpl; respect. Qed.

Lemma respects_write_rows c csv_path base_output_dir format_key input_base ext :
  forall files i,
    respects R (write_rows c csv_path base_output_dir format_key input_base ext
                  i files).
Proof. induction files as [|f files IH]; intros i; simpl; respect. Qed.

Lemma respects_write_summary c base_output_dir format_key input_base ext files :
  respects R (write_summary c base_output_dir format_key input_base ext files).
Proof. unfold write_summary. respect. apply respects_write_rows. Qed.

(** Lines 185-226, given that the tasks respect [R]. *)
Lemma respects_run_batch c g source_path format_key use_gpu :
  (forall f ext output_root input_base,
     respects R (process_file c g f ext output_root format_key input_base
                   use_gpu None None)) ->
  respects R (run_batch c g source_path format_key use_gpu).
Proof.
  intros Ht. unfold run_batch.
  apply respects_bind; [now apply respects_pure|intros d].
  do 3 (apply respects_bind; [apply R_log|intros _]).
  apply respects_bind; [apply respects_pool_imap; intros f; apply Ht|intros _].
  do 3 (apply respects_bind; [apply R_log|intros _]).
  apply respects_bind; [apply respects_count_successes|intros n].
  apply respects_bind; [apply respects_write_summary|intros _].
  do 3 (apply respects_bind; [apply R_log|intros _]).
  apply respects_bind; [|intros _; apply R_log].
  destruct (length (enumerate_files d source_path) =? 0);
    [apply R_log|apply respects_ret].
Qed.

Hypothesis R_input : respects R input.

(** Lines 142-226; OCR can only be on when easyocr is importable. *)
Lemma respects_main c easyocr_importable :
  (forall use_gpu, (use_gpu = true -> easyocr_importable = true) ->
     forall f ext output_root format_key input_base,
       respects R (process_file c (module_at_import easyocr_importable) f ext
                     output_root format_key input_base use_gpu None None)) ->
  respects R (main c easyocr_importable).
Proof.
  intros Ht. unfold main.
  apply respects_bind; [apply R_log|intros _].
  apply respects_bind; [exact R_input|intros line1].
  apply respects_bind; [apply respects_path_exists|intros present].
  destruct (negb present); [apply R_log|].
  do 6 (apply respects_bind; [apply R_log|intros _]).
  apply respects_bind; [exact R_input|intros line2].
  destruct (format_map !! Str.strip line2) as [[|ch key]|]; try apply R_log.
  destruct easyocr_importable; simpl GPU_AVAILABLE; cbv iota.
  - apply respects_bind.
    + apply respects_bind; [exact R_input|intros line3; apply respects_ret].
    + intros use_gpu. apply respects_run_batch. intros. now apply Ht.
  - intros w r w' H.
    refine (respects_run_batch c (module_at_import false) _ _ false _ w r w' H).
    intros. now apply Ht.
Qed.

End Frames.

(** From a frame to the world a run leaves. *)
Lemma respects_snd {A} R (m : M A) w : respects R m -> R w (snd (m w)).
Proof. intros H. destruct (m w) as [r w'] eqn:E. exact (H _ _ _ E). Qed.

(** ** The log only grows *)

Lemma log_extends_refl w : log_extends w w.
Proof. exists []. now rewrite app_nil_r. Qed.

Lemma log_extends_trans w1 w2 w3 :
  log_extends w1 w2 -> log_extends w2 w3 -> log_extends w1 w3.
Proof.
  intros [l1 H1] [l2 H2]. exists (l1 ++ l2). now rewrite H2, H1, app_assoc.
Qed.

Lemma log_extends_same {A} (m : M A) :
  (forall w, conversion_log (snd (m w)) = conversion_log w) ->
  respects log_extends m.
Proof.
  intros Hm w r w' H. specialize (Hm w). rewrite H in Hm. simpl in Hm.
  exists []. now rewrite app_nil_r.
Qed.

Lemma log_extends_log msg : respects log_extends (log msg).
Proof. intros w r w' H. inversion H; subst. now exists [msg]. Qed.

Lemma log_extends_on_disk f : respects log_extends (on_disk f).
Proof.
  apply log_extends_same. intros w. unfold on_disk. now destruct (f (disk w)).
Qed.

Lemma log_extends_open_write c how doc p :
  respects log_extends (open_and_write c how doc p).
Proof.
  apply log_extends_same. intros w.
  now destruct (open_and_write_only_disk c how doc p w) as [d' ->].
Qed.

Lemma log_extends_input : respects log_extends input.
Proof.
  apply log_extends_same. intros w. unfold input. now destruct (stdin w).
Qed.

Lemma log_extends_readtext c r p : respects log_extends (call_readtext c r p).
Proof. now apply log_extends_same. Qed.

Lemma log_extends_new_Reader b : respects log_extends (new_Reader b).
Proof. now apply log_extends_same. Qed.

Lemma log_extends_process_file c g file_path ext output_root format_key input_base
    use_gpu rg rc :
  respects log_extends
    (process_file c g file_path ext output_root format_key input_base use_gpu rg rc).
Proof.
  apply (respects_process_file_gen log_extends log_extends_refl log_extends_trans
           log_extends_log (fun p => log_extends_on_disk _)
           (fun p content => log_extends_on_disk _) log_extends_open_write).
  - unfold init_readers.
    destruct (use_gpu && GPU_AVAILABLE g && bool_decide (rg = None)).
    + apply (respects_bind _ log_extends_trans);
        [apply log_extends_new_Reader|intros r1].
      apply (respects_bind _ log_extends_trans);
        [apply log_extends_new_Reader|intros r2].
      now apply log_extends_same.
    + now apply log_extends_same.
  - intros rc'. destruct (ocr_eligible use_gpu file_path);
      [|now apply log_extends_same].
    unfold ocr_block, gpu_attempt, cpu_fallback.
    apply (respects_try _ log_extends_trans).
    + destruct (GPU_AVAILABLE g), (OCR_READER_GPU g);
        try (now apply log_extends_same).
      apply (respects_bind _ log_extends_trans);
        [apply log_extends_readtext|intros lines; apply log_extends_log].
    + intros e. destruct (OCR_READER_CPU g), rc'; try (now apply log_extends_same).
      apply (respects_bind _ log_extends_trans); [apply log_extends_log|intros _].
      apply (respects_bind _ log_extends_trans);
        [apply log_extends_readtext|intros lines; apply log_extends_log].
Qed.

(** X4. The log is append-only: whatever a call of [process_file] does and
    however it ends, and whatever a whole run of [main] does and however it
    ends, the log afterwards is the log before followed by new lines. *)
Theorem log_is_append_only :
  (forall (c : Collaborators) (g : ModuleGlobals) (file_path : Path) (ext : string)
          (output_root : Path) (format_key : string) (input_base : Path)
          (use_gpu : bool) (rg rc : option Reader) (w : World),
     exists lines,
       conversion_log
         (snd (process_file c g file_path ext output_root format_key input_base
                 use_gpu rg rc w))
       = conversion_log w ++ lines)
  /\ (forall (c : Collaborators) (easyocr_importable : bool) (w : World),
        exists lines,
          conversion_log (snd (main c easyocr_importable w))
          = conversion_log w ++ lines).
Proof.
  split.
  - intros. apply (respects_snd log_extends), log_extends_process_file.
  - intros. apply (respects_snd log_extends).
    apply respects_main;
      intros;
      first [ apply log_extends_refl
            | eapply log_extends_trans; eassumption
            | apply log_extends_log
            | apply log_extends_on_disk
            | apply log_extends_input
            | apply log_extends_process_file
            | now apply log_extends_same ].
Qed.

(** ** Nothing is removed from the disk *)

Lemma nothing_removed_refl w : nothing_removed w w.
Proof. intros q. auto. Qed.

Lemma nothing_removed_trans w1 w2 w3 :
  nothing_removed w1 w2 -> nothing_removed w2 w3 -> nothing_removed w1 w3.
Proof.
  intros H1 H2 q. destruct (H1 q) as [Ha Hb], (H2 q) as [Hc Hd]. split; auto.
Qed.

Lemma nothing_removed_same {A} (m : M A) :
  (forall w, disk (snd (m w)) = disk w) -> respects nothing_removed m.
Proof.
  intros Hm w r w' H. specialize (Hm w). rewrite H in Hm. simpl in Hm.
  intros q. rewrite Hm. auto.
Qed.

(** Entries that keep their nodes keep what exists and what is a directory. *)
Lemma nothing_removed_lookup w w' :
  (forall q n, FS.lookup_node (disk w) q = Some n ->
               exists n', FS.lookup_node (disk w') q = Some n'
                          /\ (n = Directory -> n' = Directory)) ->
  nothing_removed w w'.
Proof.
  intros H q. unfold FS.exists_, FS.is_dir.
  destruct (FS.lookup_node (disk w) q) as [n|] eqn:E; [|split; discriminate].
  destruct (H q n E) as (n' & -> & Hn). split; [reflexivity|].
  destruct n; [now rewrite Hn|discriminate].
Qed.

Lemma nothing_removed_mkdir p : respects nothing_removed (on_disk (FS.mkdir p)).
Proof.
  intros w r w' H. unfold on_disk, FS.mkdir in H.
  destruct (FS.mkdir_go (absolute p) [] (parts p) (disk w)) as [d'|e] eqn:E;
    inversion H; subst; [|apply nothing_removed_refl].
  apply nothing_removed_lookup. intros q n Hq. exists n. split; [|auto].
  simpl. exact (mkdir_go_keeps _ _ _ _ _ E q n Hq).
Qed.

Lemma nothing_removed_write p content :
  respects nothing_removed (on_disk (FS.write p content)).
Proof.
  intros w r w' H. unfold on_disk in H.
  destruct (FS.write p content (disk w)) as [d'|e] eqn:E;
    inversion H; subst; [|apply nothing_removed_refl].
  pose proof (proj1 (write_returns_iff _ _ _ _) E) as (_ & Hnd & _).
  apply write_returns in E as [Hp ->].
  apply nothing_removed_lookup. intros q n Hq. simpl.
  destruct (decide (q = p)) as [->|Hne].
  - exists (Regular content). split; [now apply lookup_put|].
    intros ->. unfold FS.is_dir in Hnd. rewrite Hq in Hnd. discriminate.
  - exists n. split; [|auto]. now rewrite lookup_put_ne.
Qed.

(** The text goes into the file that was just opened. *)
Lemma nothing_removed_open_write c how doc p :
  respects nothing_removed (open_and_write c how doc p).
Proof.
  intros w r w' H. unfold open_and_write in H.
  apply bind_inv in H as [(u & w1 & Hw & H)|(e & Hw & _)];
    [|exact (nothing_removed_write _ _ _ _ _ Hw)].
  apply (nothing_removed_trans _ w1); [exact (nothing_removed_write _ _ _ _ _ Hw)|].
  destruct (write_error c how doc p);
    [inversion H; subst; apply nothing_removed_refl|].
  apply on_disk_returns in Hw as (d1 & Hw & ->).
  apply write_returns in Hw as [Hp ->].
  unfold set_content in H. inversion H; subst. simpl.
  apply nothing_removed_lookup. intros q n Hq. simpl in *.
  destruct (decide (q = p)) as [->|Hne].
  - exists (Regular (Encoded how doc)). split; [now apply lookup_put|].
    intros ->. rewrite lookup_put in Hq by exact Hp. discriminate Hq.
  - exists n. split; [|auto]. rewrite lookup_put_ne by exact Hne. exact Hq.
Qed.

Lemma nothing_removed_writerow p row : respects nothing_removed (writerow p row).
Proof.
  intros w r w' H. unfold writerow in H. inversion H; subst.
  apply nothing_removed_lookup. intros q n Hq. simpl.
  unfold FS.lookup_node in *. destruct (parts q); [eauto|].
  rewrite find_append_row, Hq. simpl. eexists. split; [reflexivity|].
  intros ->. now destruct (bool_decide (q = p)).
Qed.

Lemma nothing_removed_input : respects nothing_removed input.
Proof.
  apply nothing_removed_same. intros w. unfold input. now destruct (stdin w).
Qed.

Lemma nothing_removed_process_file c g file_path ext output_root format_key
    input_base use_gpu rg rc :
  respects nothing_removed
    (process_file c g file_path ext output_root format_key input_base use_gpu rg rc).
Proof.
  apply respects_process_file_gen;
    try (intros; first [ apply nothing_removed_refl
                       | eapply nothing_removed_trans; eassumption
                       | apply nothing_removed_mkdir
                       | apply nothing_removed_write
                       | apply nothing_removed_open_write
                       | now apply nothing_removed_same ]).
  - apply nothing_removed_same. intros w. unfold init_readers.
    now destruct (use_gpu && GPU_AVAILABLE g && bool_decide (rg = None)).
  - intros rc'. destruct (ocr_eligible use_gpu file_path);
      [|now apply nothing_removed_same].
    intros w r w' H. apply ocr_block_disk in H.
    intros q. rewrite H. auto.
Qed.

(** X5. Neither a call of [process_file] nor a whole run of [main] removes
    anything: a path that exists before exists after, and a directory is
    still a directory (outputs are written, never deleted, and no directory
    is replaced by a file). *)
Theorem nothing_is_removed :
  (forall (c : Collaborators) (g : ModuleGlobals) (file_path : Path) (ext : string)
          (output_root : Path) (format_key : string) (input_base : Path)
          (use_gpu : bool) (rg rc : option Reader) (w : World),
     nothing_removed w
       (snd (process_file c g file_path ext output_root format_key input_base
               use_gpu rg rc w)))
  /\ (forall (c : Collaborators) (easyocr_importable : bool) (w : World),
        nothing_removed w (snd (main c easyocr_importable w))).
Proof.
  split.
  - intros. apply (respects_snd nothing_removed), nothing_removed_process_file.
  - intros. apply (respects_snd nothing_removed).
    apply respects_main;
      intros;
      first [ apply nothing_removed_refl
            | eapply nothing_removed_trans; eassumption
            | apply nothing_removed_write
            | apply nothing_removed_writerow
            | apply nothing_removed_input
            | apply nothing_removed_process_file
            | now apply nothing_removed_same ].
Qed.

(** ** When OCR does not apply *)

Lemma no_readtext_same {A} (m : M A) :
  (forall w, readtext_calls (snd (m w)) = readtext_calls w) ->
  respects no_readtext m.
Proof.
  intros Hm w r w' H. specialize (Hm w). rewrite H in Hm. exact Hm.
Qed.

Lemma no_readtext_on_disk f : respects no_readtext (on_disk f).
Proof.
  apply no_readtext_same. intros w. unfold on_disk. now destruct (f (disk w)).
Qed.

Lemma no_readtext_open_write c how doc p :
  respects no_readtext (open_and_write c how doc p).
Proof.
  apply no_readtext_same. intros w.
  now destruct (open_and_write_only_disk c how doc p w) as [d' ->].
Qed.

(** X6. A job that is not OCR-eligible (OCR off, or a suffix other than
    .jpg, .jpeg, .png in any letter case) causes no [readtext] call,
    however the task ends. *)
Theorem ineligible_job_is_never_read :
  forall (c : Collaborators) (g : ModuleGlobals) (file_path : Path) (ext : string)
         (output_root : Path) (format_key : string) (input_base : Path)
         (use_gpu : bool) (rg rc : option Reader) (w : World),
    ocr_eligible use_gpu file_path = false ->
    readtext_calls
      (snd (process_file c g file_path ext output_root format_key input_base
              use_gpu rg rc w))
    = readtext_calls w.
Proof.
  intros c g f ext out fk base use_gpu rg rc w Hne.
  apply (respects_snd no_readtext).
  apply respects_process_file_gen;
    try (intros; first [ reflexivity
                       | unfold no_readtext in *; congruence
                       | apply no_readtext_on_disk
                       | apply no_readtext_open_write
                       | now apply no_readtext_same ]).
  - apply no_readtext_same. intros w0. unfold init_readers.
    now destruct (use_gpu && GPU_AVAILABLE g && bool_decide (rg = None)).
  - intros rc'. rewrite Hne. now apply no_readtext_same.
Qed.

Lemma ineligible_job_is_never_read_witness :
  readtext_calls
    (snd (process_file Scenario.engines (module_at_import true)
            (PurePath.of_string "in/a.pdf") "md" Scenario.out "md"
            (PurePath.of_string "in") true None None
            (Scenario.world Scenario.two_pdfs [])))
  = readtext_calls (Scenario.world Scenario.two_pdfs []).
Proof.
  apply (ineligible_job_is_never_read Scenario.engines (module_at_import true)
           (PurePath.of_string "in/a.pdf") "md" Scenario.out "md"
           (PurePath.of_string "in") true None None
           (Scenario.world Scenario.two_pdfs [])).
  reflexivity.
Defined.

Lemma no_ocr_activity_same {A} (m : M A) :
  (forall w, readers_created (snd (m w)) = readers_created w
             /\ readtext_calls (snd (m w)) = readtext_calls w) ->
  respects no_ocr_activity m.
Proof.
  intros Hm w r w' H. specialize (Hm w). rewrite H in Hm. exact Hm.
Qed.

Lemma no_ocr_activity_on_disk f : respects no_ocr_activity (on_disk f).
Proof.
  apply no_ocr_activity_same. intros w. unfold on_disk. now destruct (f (disk w)).
Qed.

Lemma no_ocr_activity_open_write c how doc p :
  respects no_ocr_activity (open_and_write c how doc p).
Proof.
  apply no_ocr_activity_same. intros w.
  now destruct (open_and_write_only_disk c how doc p w) as [d' ->].
Qed.

Lemma no_ocr_activity_input : respects no_ocr_activity input.
Proof.
  apply no_ocr_activity_same. intros w. unfold input. now destruct (stdin w).
Qed.

(** X7. Where easyocr cannot be imported, a whole run of [main] builds no
    reader and makes no [readtext] call, whatever is typed at the prompts
    and however the run ends. *)
Theorem run_without_easyocr_does_no_ocr :
  forall (c : Collaborators) (w : World),
    readers_created (snd (main c false w)) = readers_created w
    /\ readtext_calls (snd (main c false w)) = readtext_calls w.
Proof.
  intros c w. apply (respects_snd no_ocr_activity).
  apply respects_main.
  - intros w0. split; reflexivity.
  - intros w1 w2 w3 [H1 H2] [H3 H4]. split; congruence.
  - intros msg. now apply no_ocr_activity_same.
  - intros p content. apply no_ocr_activity_on_disk.
  - now apply no_ocr_activity_same.
  - intros p row. now apply no_ocr_activity_same.
  - apply no_ocr_activity_input.
  - intros [|] Hg; [discriminate (Hg eq_refl)|]. intros.
    apply respects_process_file_ocr_off.
    + intros w0. split; reflexivity.
    + intros w1 w2 w3 [H1 H2] [H3 H4]. split; congruence.
    + intros msg. now apply no_ocr_activity_same.
    + intros p. apply no_ocr_activity_on_disk.
    + intros p content. apply no_ocr_activity_on_disk.
    + apply no_ocr_activity_open_write.
Qed.

(** ** The prompts of main *)

Lemma format_map_None choice :
  choice ∉ ["1"; "2"; "3"; "4"; "5"] -> format_map !! choice = None.
Proof. intros H. now apply not_elem_of_list_to_map_1. Qed.

(** X8. When the input path exists but the answer to the format prompt is
    not one of 1 to 5 (after stripping blanks), [main] returns having logged
    the menu and [Invalid choice. Exiting.]: the OCR question is not asked,
    no pool is started, no reader is built and the disk is as it was. *)
Theorem invalid_choice_aborts :
  forall (c : Collaborators) (easyocr_importable : bool) (w : World)
         (line1 line2 : string) (rest : list string),
    stdin w = line1 :: line2 :: rest ->
    FS.exists_ (disk w) (PurePath.of_string (Str.strip line1)) = true ->
    Str.strip line2 ∉ ["1"; "2"; "3"; "4"; "5"] ->
    main c easyocr_importable w
    = (Returns tt,
       with_line (after_prompts w rest) "Invalid choice. Exiting.").
Proof.
  intros c imp w line1 line2 rest Hin Hex Hch.
  apply format_map_None in Hch.
  unfold main, mbind, M_bind, log, input, path_exists. simpl.
  rewrite Hin. simpl. rewrite Hex. simpl. rewrite Hch.
  unfold with_line, after_prompts, log, prompt_lines. simpl.
  repeat rewrite <- app_assoc. reflexivity.
Qed.

Lemma invalid_choice_aborts_witness :
  main Scenario.engines true (Scenario.world Scenario.tree ["in"; " 7 "; "y"])
  = (Returns tt,
     with_line (after_prompts (Scenario.world Scenario.tree ["in"; " 7 "; "y"]) ["y"])
       "Invalid choice. Exiting.").
Proof.
  apply (invalid_choice_aborts Scenario.engines true
           (Scenario.world Scenario.tree ["in"; " 7 "; "y"]) "in" " 7 " ["y"]).
  - reflexivity.
  - reflexivity.
  - apply (bool_decide_unpack _). vm_compute. exact I.
Defined.

#[local] Arguments run_batch : simpl never.

(** The nested form in which the prompts leave the log. *)
Lemma after_prompts_nested w left :
  {| conversion_log :=
       ((((((conversion_log w
             ++ ["Welcome to Docling file format converter!"])
            ++ [nl +:+ "Select output format:"])
           ++ ["1. HTML   (image embedding and referencing supported)"])
          ++ ["2. JSON   (lossless serialization of Docling Document)"])
         ++ ["3. Markdown"])
        ++ ["4. Text   (plain text, no Markdown markers)"])
       ++ ["5. Doctags"];
     disk := disk w;
     readers_created := readers_created w;
     readtext_calls := readtext_calls w;
     stdin := left;
     pools_started := pools_started w |}
  = after_prompts w left.
Proof.
  unfold after_prompts, prompt_lines. f_equal.
  repeat rewrite <- app_assoc. reflexivity.
Qed.

Lemma format_key_not_empty choice format_key :
  format_map !! choice = Some format_key ->
  exists ch key, format_key = String ch key.
Proof.
  intros Hfm. pose proof (format_map_values _ _ Hfm) as Hv.
  destruct format_key; [|eauto]. exfalso.
  repeat (apply elem_of_cons in Hv as [Hv|Hv]; [discriminate Hv|]).
  now apply elem_of_nil in Hv.
Qed.

(** With valid answers and easyocr importable, [main] is the batch with
    OCR as the third answer says, run from the prompted world. *)
Lemma main_reaches_batch_ocr c w line1 line2 line3 rest format_key :
  stdin w = line1 :: line2 :: line3 :: rest ->
  FS.exists_ (disk w) (PurePath.of_string (Str.strip line1)) = true ->
  format_map !! Str.strip line2 = Some format_key ->
  main c true w
  = run_batch c (module_at_import true)
      (PurePath.of_string (Str.strip line1)) format_key
      (String.eqb (Str.lower (Str.strip line3)) "y")
      (after_prompts w rest).
Proof.
  intros Hin Hex Hfm.
  destruct (format_key_not_empty _ _ Hfm) as (ch & key & ->).
  rewrite <- after_prompts_nested.
  unfold main, mbind, M_bind, log, input, path_exists. simpl.
  rewrite Hin. simpl. rewrite Hex. simpl. rewrite Hfm. reflexivity.
Qed.

(** Without easyocr the third question is not asked and OCR is off. *)
Lemma main_reaches_batch_no_ocr c w line1 line2 rest format_key :
  stdin w = line1 :: line2 :: rest ->
  FS.exists_ (disk w) (PurePath.of_string (Str.strip line1)) = true ->
  format_map !! Str.strip line2 = Some format_key ->
  main c false w
  = run_batch c (module_at_import false)
      (PurePath.of_string (Str.strip line1)) format_key false
      (after_prompts w rest).
Proof.
  intros Hin Hex Hfm.
  destruct (format_key_not_empty _ _ Hfm) as (ch & key & ->).
  rewrite <- after_prompts_nested.
  unfold main, mbind, M_bind, log, input, path_exists. simpl.
  rewrite Hin. simpl. rewrite Hex. simpl. rewrite Hfm. reflexivity.
Qed.

(** With valid answers, [main] is the batch run from the prompted world. *)
Lemma main_reaches_batch c easyocr_importable w line1 line2 rest format_key :
  stdin w = line1 :: line2 :: rest ->
  FS.exists_ (disk w) (PurePath.of_string (Str.strip line1)) = true ->
  format_map !! Str.strip line2 = Some format_key ->
  (easyocr_importable = true -> rest <> []) ->
  exists use_gpu left,
    main c easyocr_importable w
    = run_batch c (module_at_import easyocr_importable)
        (PurePath.of_string (Str.strip line1)) format_key use_gpu
        (after_prompts w left).
Proof.
  intros Hin Hex Hfm Hrest. destruct easyocr_importable.
  - destruct rest as [|line3 rest]; [now destruct (Hrest eq_refl)|].
    eexists. exists rest.
    exact (main_reaches_batch_ocr c w line1 line2 line3 rest format_key Hin Hex Hfm).
  - exists false, rest.
    exact (main_reaches_batch_no_ocr c w line1 line2 rest format_key Hin Hex Hfm).
Qed.

(** ** Every enumerated job has an audit path *)

Lemma is_file_not_dir d p : FS.is_file d p = true -> FS.is_dir d p = false.
Proof.
  unfold FS.is_dir, FS.is_file.
  destruct (FS.lookup_node d p) as [[|content]|]; auto; discriminate.
Qed.

Lemma task_output_path_is_audit_path output_root format_key input_base f ext :
  task_output_path output_root format_key input_base f ext
  = summary_output_path output_root format_key input_base f ext.
Proof.
  unfold task_output_path, task_target_dir, task_target_file, summary_output_path.
  now destruct (PurePath.relative_to (PurePath.parent f) input_base).
Qed.

(** X9. For every job that [main] enumerates, the directory of the job is
    under the input base that [main] chose, so the audit path is defined:
    [relative_to] cannot raise [ValueError] for an enumerated job, neither
    in the summary nor in the task. *)
Theorem enumerated_jobs_have_audit_paths :
  forall (d : list (Path * node)) (source_path f output_root : Path)
         (format_key ext : string),
    In f (enumerate_files d source_path) ->
    exists p,
      summary_output_path output_root format_key (input_base_of d source_path) f ext
      = Returns p
      /\ task_output_path output_root format_key (input_base_of d source_path) f ext
         = Returns p.
Proof.
  intros d src f out fk ext Hin.
  assert (Hrel : exists rel,
             PurePath.relative_to (PurePath.parent f) (input_base_of d src)
             = Returns rel).
  { unfold enumerate_files, input_base_of in *.
    destruct (FS.is_file d src) eqn:Ef.
    - destruct Hin as [<-|[]]. rewrite (is_file_not_dir _ _ Ef).
      exists (mkPath false []). apply relative_to_parts; [reflexivity|].
      now rewrite app_nil_r.
    - apply List.filter_In in Hin as [Hin _]. unfold FS.rglob in Hin.
      destruct (FS.is_dir d src); [|destruct Hin].
      apply in_map_iff in Hin as ([f' n] & Hf & Hin). simpl in Hf. subst f'.
      apply List.filter_In in Hin as [_ Hb]. simpl in Hb.
      destruct (below_inv _ _ Hb) as (rest & Hne & Ha & Hp).
      exists (mkPath false (removelast rest)).
      apply relative_to_parts; simpl; [exact Ha|].
      rewrite Hp. now apply removelast_app_nonempty. }
  destruct Hrel as [rel Hrel].
  rewrite task_output_path_is_audit_path.
  unfold summary_output_path. rewrite Hrel. eauto.
Qed.

Lemma enumerated_jobs_have_audit_paths_witness :
  exists p,
    summary_output_path Scenario.out "json"
      (input_base_of Scenario.tree (PurePath.of_string "in"))
      (PurePath.of_string "in/sub/b.PNG") "json" = Returns p
    /\ task_output_path Scenario.out "json"
         (input_base_of Scenario.tree (PurePath.of_string "in"))
         (PurePath.of_string "in/sub/b.PNG") "json" = Returns p.
Proof.
  apply (enumerated_jobs_have_audit_paths Scenario.tree (PurePath.of_string "in")
           (PurePath.of_string "in/sub/b.PNG") Scenario.out "json" "json").
  vm_compute. tauto.
Defined.

(** ** Where outputs land *)

Lemma no_slash_rev_app s1 : forall s2,
  no_slash (String.rev_app s1 s2) = no_slash s1 && no_slash s2.
Proof.
  induction s1 as [|a s1 IH]; intros s2; simpl; [reflexivity|].
  rewrite IH. simpl. now destruct (negb (Ascii.eqb a "/")), (no_slash s1).
Qed.

Lemma no_slash_rev s : no_slash (String.rev s) = no_slash s.
Proof. unfold String.rev. rewrite no_slash_rev_app. simpl. apply andb_true_r. Qed.

Lemma split_go_no_slash s : forall cur,
  no_slash cur = true ->
  forallb no_slash (Str.split_go "/" cur s) = true.
Proof.
  induction s as [|a s IH]; intros cur Hc; simpl.
  - now rewrite no_slash_rev, Hc.
  - destruct (Ascii.eqb a "/") eqn:E; simpl.
    + rewrite no_slash_rev, Hc. now apply IH.
    + apply IH. simpl. now rewrite E, Hc.
Qed.

Lemma forallb_filter {A} (P Q : A -> bool) l :
  forallb P l = true -> forallb P (List.filter Q l) = true.
Proof.
  induction l as [|x l IH]; simpl; [auto|].
  intros H. apply andb_true_iff in H as [Hx Hl].
  destruct (Q x); simpl; [rewrite Hx|]; auto.
Qed.

(** Every path made from a string is well formed. *)
Lemma of_string_well_formed s : well_formed (PurePath.of_string s) = true.
Proof.
  unfold well_formed, PurePath.of_string. simpl.
  apply forallb_filter. now apply split_go_no_slash.
Qed.

Lemma no_slash_substring s : forall n m,
  no_slash s = true -> no_slash (substring n m s) = true.
Proof.
  induction s as [|a s IH]; intros n m Hs; simpl.
  - now destruct n, m.
  - simpl in Hs. apply andb_true_iff in Hs as [Ha Hs].
    destruct n, m; simpl; auto. rewrite Ha. simpl. auto.
Qed.

Lemma no_slash_name p : well_formed p = true -> no_slash (PurePath.name p) = true.
Proof.
  unfold well_formed, PurePath.name.
  induction (parts p) as [|x l IH]; simpl; [auto|].
  intros H. apply andb_true_iff in H as [Hx Hl].
  destruct l; [exact Hx|]. now apply IH.
Qed.

Lemma no_slash_stem p : well_formed p = true -> no_slash (PurePath.stem p) = true.
Proof.
  intros H. apply no_slash_name in H. unfold PurePath.stem.
  destruct (PurePath.suffix_index (PurePath.name p)); [|exact H].
  now apply no_slash_substring.
Qed.

(** A string that does not begin with the separator names a relative path. *)
Lemma relative_of_no_slash s t :
  no_slash s = true -> absolute (PurePath.of_string (s +:+ t)) = false
                       \/ s = EmptyString.
Proof.
  destruct s as [|a s]; [auto|]. intros H. left. simpl in *.
  apply andb_true_iff in H as [Ha _]. apply negb_true_iff in Ha.
  destruct a as [[] [] [] [] [] [] [] []]; try reflexivity; discriminate Ha.
Qed.

Lemma relative_of_plain s :
  no_slash s = true -> absolute (PurePath.of_string s) = false.
Proof.
  destruct s as [|a s]; [reflexivity|]. intros H. simpl in *.
  apply andb_true_iff in H as [Ha _]. apply negb_true_iff in Ha.
  destruct a as [[] [] [] [] [] [] [] []]; try reflexivity; discriminate Ha.
Qed.

Lemma joinpath_relative p q :
  absolute q = false ->
  absolute (p // q) = absolute p /\ parts (p // q) = parts p ++ parts q.
Proof. intros H. unfold PurePath.joinpath. rewrite H. auto. Qed.

Lemma join_str_relative p s :
  absolute (PurePath.of_string s) = false ->
  absolute (p /' s) = absolute p
  /\ parts (p /' s) = parts p ++ parts (PurePath.of_string s).
Proof.
  intros H. unfold PurePath.join_str, PurePath.joinpath. rewrite H. auto.
Qed.

(** The shape of an output path. *)
Lemma outputs_under_format_dir_aux out fk base f ext p :
  fk ∈ ["html"; "json"; "md"; "txt"; "doctags"] ->
  well_formed base = true -> well_formed f = true ->
  task_output_path out fk base f ext = Returns p ->
  absolute p = absolute out
  /\ exists rest, parts p = parts out ++ fk :: rest.
Proof.
  intros Hk Hb Hf H.
  unfold task_output_path, task_target_dir, task_target_file in H.
  destruct (PurePath.relative_to (PurePath.parent f) base) as [rel|e] eqn:Er;
    [|discriminate H].
  inversion H; subst p; clear H.
  assert (Hrel : absolute rel = false).
  { unfold PurePath.relative_to in Er.
    destruct (negb _); [discriminate|].
    destruct (PurePath.strip_prefix _ _); [|discriminate].
    now inversion Er. }
  assert (Hfk : PurePath.of_string fk = mkPath false [fk]).
  { repeat (apply elem_of_cons in Hk as [->|Hk]; [reflexivity|]).
    now apply elem_of_nil in Hk. }
  assert (Hname : absolute (PurePath.of_string (PurePath.name base)) = false).
  { apply relative_of_plain, no_slash_name, Hb. }
  assert (Hstem : absolute (PurePath.of_string (PurePath.stem f +:+ "." +:+ ext))
                  = false).
  { destruct (relative_of_no_slash (PurePath.stem f) ("." +:+ ext)
                (no_slash_stem _ Hf)) as [H|H]; [exact H|].
    now rewrite H. }
  destruct (join_str_relative (out /' fk /' PurePath.name base // rel) _ Hstem)
    as [-> ->].
  destruct (joinpath_relative (out /' fk /' PurePath.name base) _ Hrel)
    as [-> ->].
  destruct (join_str_relative (out /' fk) _ Hname) as [-> ->].
  unfold PurePath.join_str, PurePath.joinpath. rewrite Hfk. simpl.
  split; [reflexivity|]. rewrite <- !app_assoc. simpl. eauto.
Qed.

(** A string without the separator is split into itself. *)
Lemma split_go_whole s : forall cur,
  no_slash s = true -> Str.split_go "/" cur s = [String.rev_app cur s].
Proof.
  induction s as [|a s IH]; intros cur Hs; simpl; [reflexivity|].
  simpl in Hs. apply andb_true_iff in Hs as [Ha Hs].
  apply negb_true_iff in Ha. rewrite Ha. now rewrite IH.
Qed.

(** [Path(s)] for such a string: the one component [s], or none when [s]
    is empty or a dot. *)
Lemma of_string_no_slash s :
  no_slash s = true ->
  PurePath.of_string s
  = mkPath false (if PurePath.is_component s then [s] else []).
Proof.
  intros Hs. unfold PurePath.of_string, Str.split.
  rewrite (split_go_whole _ _ Hs). simpl String.rev_app.
  pose proof (relative_of_plain _ Hs) as Ha. unfold PurePath.of_string in Ha.
  simpl in Ha. rewrite Ha. simpl. now destruct (PurePath.is_component s).
Qed.

Lemma no_slash_append s t : no_slash (s +:+ t) = no_slash s && no_slash t.
Proof.
  induction s as [|a s IH]; simpl; [reflexivity|].
  rewrite IH. now destruct (negb (Ascii.eqb a "/")).
Qed.

Lemma plain_is_well_formed p : plain p = true -> well_formed p = true.
Proof.
  unfold plain, well_formed. induction (parts p) as [|x l IH]; simpl; [auto|].
  intros H. apply andb_true_iff in H as [Hx Hl].
  unfold plain_component in Hx. apply andb_true_iff in Hx as [Hx _].
  now rewrite Hx, IH.
Qed.

(** The name of a plain path, made a path again: a plain component, or
    nothing. *)
Lemma plain_name p :
  plain p = true ->
  forallb plain_component (parts (PurePath.of_string (PurePath.name p))) = true.
Proof.
  intros Hp. rewrite of_string_no_slash
    by (apply no_slash_name, plain_is_well_formed, Hp).
  simpl. destruct (PurePath.is_component (PurePath.name p)); [|reflexivity].
  simpl. rewrite andb_true_r. unfold plain, PurePath.name in *.
  induction (parts p) as [|x l IH]; simpl in *; [reflexivity|].
  apply andb_true_iff in Hp as [Hx Hl]. destruct l; [exact Hx|]. now apply IH.
Qed.

Lemma forallb_removelast {A} (P : A -> bool) l :
  forallb P l = true -> forallb P (removelast l) = true.
Proof.
  induction l as [|x l IH]; simpl; [auto|].
  intros H. apply andb_true_iff in H as [Hx Hl].
  destruct l; [reflexivity|]. simpl in *. rewrite Hx. now apply IH.
Qed.

(** The directory of a plain path, relative to a base: plain components. *)
Lemma plain_relative f base rel :
  plain f = true ->
  PurePath.relative_to (PurePath.parent f) base = Returns rel ->
  absolute rel = false /\ forallb plain_component (parts rel) = true.
Proof.
  intros Hf H. unfold PurePath.relative_to in H.
  destruct (negb _); [discriminate|].
  destruct (PurePath.strip_prefix _ _) as [rest|] eqn:E; [|discriminate].
  inversion H; subst rel. simpl. split; [reflexivity|].
  apply strip_prefix_Some in E. simpl in E.
  apply (forallb_removelast plain_component) in Hf. rewrite E in Hf.
  rewrite forallb_app in Hf. now apply andb_true_iff in Hf as [_ Hf].
Qed.

(** The file name of an output, [stem.key], is one plain component. *)
Lemma output_name_plain stem fk :
  no_slash stem = true ->
  fk ∈ ["html"; "json"; "md"; "txt"; "doctags"] ->
  PurePath.of_string (stem +:+ "." +:+ fk) = mkPath false [stem +:+ "." +:+ fk]
  /\ plain_component (stem +:+ "." +:+ fk) = true.
Proof.
  intros Hs Hk.
  assert (Hn : no_slash (stem +:+ "." +:+ fk) = true).
  { rewrite !no_slash_append, Hs.
    repeat (apply elem_of_cons in Hk as [->|Hk]; [reflexivity|]).
    now apply elem_of_nil in Hk. }
  assert (Hc : PurePath.is_component (stem +:+ "." +:+ fk) = true
               /\ String.eqb (stem +:+ "." +:+ fk) ".." = false).
  { repeat (apply elem_of_cons in Hk as [->|Hk];
            [destruct stem as [|a [|b [|c0 s]]]; split; try reflexivity;
             unfold PurePath.is_component; simpl; repeat case_match;
             reflexivity|]).
    now apply elem_of_nil in Hk. }
  destruct Hc as [Hc Hdd].
  rewrite (of_string_no_slash _ Hn), Hc. split; [reflexivity|].
  unfold plain_component. now rewrite Hn, Hdd.
Qed.

(** The shape of an output path of [main], whose extension is the format
    key. *)
Lemma outputs_under_format_dir_plain out fk base f p :
  fk ∈ ["html"; "json"; "md"; "txt"; "doctags"] ->
  plain base = true -> plain f = true ->
  task_output_path out fk base f fk = Returns p ->
  absolute p = absolute out
  /\ exists rest,
       parts p = parts out ++ fk :: rest
       /\ forallb plain_component rest = true.
Proof.
  intros Hk Hb Hf H.
  unfold task_output_path, task_target_dir, task_target_file in H.
  destruct (PurePath.relative_to (PurePath.parent f) base) as [rel|e] eqn:Er;
    [|discriminate H].
  inversion H; subst p; clear H.
  destruct (plain_relative _ _ _ Hf Er) as [Hrel Hrelp].
  assert (Hfk : PurePath.of_string fk = mkPath false [fk]).
  { repeat (apply elem_of_cons in Hk as [->|Hk]; [reflexivity|]).
    now apply elem_of_nil in Hk. }
  pose proof (plain_name _ Hb) as Hnamep.
  assert (Hname : absolute (PurePath.of_string (PurePath.name base)) = false).
  { apply relative_of_plain, no_slash_name, plain_is_well_formed, Hb. }
  destruct (output_name_plain (PurePath.stem f) fk
              (no_slash_stem _ (plain_is_well_formed _ Hf)) Hk) as [Hlast Hlastp].
  assert (Hstem : absolute (PurePath.of_string (PurePath.stem f +:+ "." +:+ fk))
                  = false) by now rewrite Hlast.
  destruct (join_str_relative (out /' fk /' PurePath.name base // rel) _ Hstem)
    as [-> ->].
  destruct (joinpath_relative (out /' fk /' PurePath.name base) _ Hrel)
    as [-> ->].
  destruct (join_str_relative (out /' fk) _ Hname) as [-> ->].
  unfold PurePath.join_str, PurePath.joinpath. rewrite Hfk, Hlast. simpl.
  split; [reflexivity|].
  exists (parts (PurePath.of_string (PurePath.name base)) ++ parts rel
          ++ [PurePath.stem f +:+ "." +:+ fk]).
  split; [rewrite <- !app_assoc; reflexivity|].
  rewrite !forallb_app, Hnamep, Hrelp. simpl. now rewrite Hlastp.
Qed.

(** X10. For one of the five format keys, the extension that [main] hands
    over (the key itself) and plain paths (no component holds a separator
    or is [..]; the model resolves no such component), the output path of
    a job lies inside [output_root / format_key]: its components are those
    of the output root, then the format key, then plain components only.  In
    particular it is never the summary file, and the outputs of one job
    for two different keys never coincide. *)
Theorem outputs_stay_under_format_dir :
  forall (output_root : Path) (format_key : string) (input_base f p : Path),
    format_key ∈ ["html"; "json"; "md"; "txt"; "doctags"] ->
    plain input_base = true ->
    plain f = true ->
    task_output_path output_root format_key input_base f format_key = Returns p ->
    absolute p = absolute output_root
    /\ (exists rest,
          parts p = parts output_root ++ format_key :: rest
          /\ forallb plain_component rest = true)
    /\ p <> output_root /' "conversion_summary.csv"
    /\ forall (other_key : string) (q : Path),
         other_key ∈ ["html"; "json"; "md"; "txt"; "doctags"] ->
         other_key <> format_key ->
         task_output_path output_root other_key input_base f other_key
         = Returns q ->
         p <> q.
Proof.
  intros out fk base f p Hk Hb Hf H.
  destruct (outputs_under_format_dir_plain _ _ _ _ _ Hk Hb Hf H)
    as [Ha (rest & Hp & Hrest)].
  split; [exact Ha|]. split; [eauto|]. split.
  - intros ->. unfold PurePath.join_str, PurePath.joinpath in Hp. simpl in Hp.
    apply app_inv_head in Hp. inversion Hp; subst.
    repeat (apply elem_of_cons in Hk as [Hk|Hk]; [discriminate Hk|]).
    now apply elem_of_nil in Hk.
  - intros other q Ho Hne Hq ->.
    destruct (outputs_under_format_dir_plain _ _ _ _ _ Ho Hb Hf Hq)
      as [_ (rest' & Hq' & _)].
    rewrite Hp in Hq'. apply app_inv_head in Hq'. inversion Hq'. congruence.
Qed.

Lemma outputs_stay_under_format_dir_witness :
  absolute (PurePath.of_string "/app/output/json/in/sub/b.json")
  = absolute Scenario.out
  /\ (exists rest,
        parts (PurePath.of_string "/app/output/json/in/sub/b.json")
        = parts Scenario.out ++ "json" :: rest
        /\ forallb plain_component rest = true)
  /\ PurePath.of_string "/app/output/json/in/sub/b.json"
     <> Scenario.out /' "conversion_summary.csv"
  /\ forall (other_key : string) (q : Path),
       other_key ∈ ["html"; "json"; "md"; "txt"; "doctags"] ->
       other_key <> "json" ->
       task_output_path Scenario.out other_key (PurePath.of_string "in")
         (PurePath.of_string "in/sub/b.PNG") other_key = Returns q ->
       PurePath.of_string "/app/output/json/in/sub/b.json" <> q.
Proof.
  apply (outputs_stay_under_format_dir Scenario.out "json" (PurePath.of_string "in")
           (PurePath.of_string "in/sub/b.PNG")
           (PurePath.of_string "/app/output/json/in/sub/b.json")).
  - apply (bool_decide_unpack _). vm_compute. exact I.
  - reflexivity.
  - reflexivity.
  - reflexivity.
Defined.

(** Plainness is needed: pathlib keeps a [..] component as it is, so for
    the input folder [..] the output path runs through [md/..] and names
    a file that is not inside the format folder. *)
Example dotdot_leaves_format_dir :
  plain (PurePath.of_string "..") = false
  /\ task_output_path Scenario.out "md" (PurePath.of_string "..")
       (PurePath.of_string "../sub/a.pdf") "md"
     = Returns (mkPath true ["app"; "output"; "md"; ".."; "sub"; "a.md"]).
Proof. split; reflexivity. Qed.

(** ** The counts and the rows agree *)

(** Lines 206-208: the sum reads the disk and changes nothing. *)
Lemma count_successes_spec base_output_dir format_key input_base ext :
  forall files w n w',
    count_successes base_output_dir format_key input_base ext files w
    = (Returns n, w') ->
    w' = w
    /\ n = length (List.filter
                     (audit_finds base_output_dir format_key input_base ext (disk w))
                     files).
Proof.
  induction files as [|f files IH]; intros w n w' H; simpl in H.
  - inversion H. auto.
  - returned H. unfold lift in Hs. inversion Hs as [[Hp Hw]]. subst w0. clear Hs.
    returned H. unfold path_exists in Hs. inversion Hs; subst a0 w0. clear Hs.
    returned H. apply IH in Hs as [-> ->].
    injection H as Hn Hw. subst n w'. split; [reflexivity|].
    simpl.
    assert (Hf : audit_finds base_output_dir format_key input_base ext (disk w) f
                 = FS.exists_ (disk w) a).
    { unfold audit_finds. now rewrite Hp. }
    rewrite Hf. now destruct (FS.exists_ (disk w) a).
Qed.

(** Writing the summary changes the existence of no path but its own. *)
Lemma write_summary_exists c base_output_dir format_key input_base ext files w w' :
  write_summary c base_output_dir format_key input_base ext files w
  = (Returns tt, w') ->
  forall q, q <> base_output_dir /' "conversion_summary.csv" ->
            FS.exists_ (disk w') q = FS.exists_ (disk w) q.
Proof.
  intros H q Hq. unfold write_summary in H.
  set (csv_path := base_output_dir /' "conversion_summary.csv") in *.
  returned H. returned H.
  unfold on_disk in Hs.
  destruct (FS.write csv_path (CsvRows []) (disk w)) as [d1|e1] eqn:E;
    [|discriminate Hs].
  inversion Hs; subst w0. clear Hs.
  apply write_returns in E as [Hp ->].
  unfold writerow in Hs0. inversion Hs0; subst w1. clear Hs0.
  apply (write_rows_spec _ _ _ _ _ _ _ _ _ _ ([] ++ [["File"; "Status"; "Timestamp"]]))
    in H.
  2:{ simpl. apply (lookup_append_row _ _ _ []), lookup_put, Hp. }
  destruct H as (rows & _ & _ & Hex & _).
  rewrite Hex. simpl. rewrite exists_append_row.
  unfold FS.exists_. now rewrite lookup_put_ne.
Qed.

Lemma filter_length_pointwise {A B} (P : A -> bool) (Q : B -> bool) :
  forall (l : list A) (m : list B),
    length l = length m ->
    (forall k y, m !! k = Some y -> exists x, l !! k = Some x /\ P x = Q y) ->
    length (List.filter P l) = length (List.filter Q m).
Proof.
  induction l as [|x l IH]; intros [|y m] Hlen H; try discriminate; [reflexivity|].
  simpl. destruct (H 0 y eq_refl) as (x' & [= <-] & Hx). rewrite Hx.
  assert (IH' : length (List.filter P l) = length (List.filter Q m)).
  { apply IH; [now inversion Hlen|]. intros k y' Hk. exact (H (S k) y' Hk). }
  destruct (Q y); simpl; now rewrite IH'.
Qed.

(** X11. The number that [main] logs as successfully converted is the
    number of rows of the summary whose status is Success (for one of the
    five format keys and well-formed paths): the count taken before the
    summary is opened and the row-by-row audit see the same outputs, and
    the count never exceeds the number of jobs. *)
Theorem success_count_matches_rows :
  forall (c : Collaborators) (base_output_dir : Path) (format_key : string)
         (input_base : Path) (files : list Path) (w : World) (n : nat)
         (w1 w2 : World),
    format_key ∈ ["html"; "json"; "md"; "txt"; "doctags"] ->
    well_formed input_base = true ->
    forallb well_formed files = true ->
    count_successes base_output_dir format_key input_base format_key files w
    = (Returns n, w1) ->
    write_summary c base_output_dir format_key input_base format_key files w1
    = (Returns tt, w2) ->
    exists rows,
      FS.lookup_node (disk w2) (base_output_dir /' "conversion_summary.csv")
      = Some (Regular (CsvRows (["File"; "Status"; "Timestamp"] :: rows)))
      /\ length rows = length files
      /\ success_rows rows = n
      /\ n <= length files.
Proof.
  intros c base fk ibase files w n w1 w2 Hk Hb Hf Hc Hs.
  apply count_successes_spec in Hc as [-> ->].
  pose proof (write_summary_exists _ _ _ _ _ _ _ _ Hs) as Hex.
  apply write_summary_spec in Hs. destruct Hs as (rows & Hl & Hlen & Hall).
  exists rows. split; [exact Hl|]. split; [exact Hlen|]. split.
  - unfold success_rows. apply filter_length_pointwise; [exact Hlen|].
    intros k f Hkf. destruct (Hall k f Hkf) as (p & status & Hp & Hrow & _ & Hiff).
    eexists. split; [exact Hrow|]. simpl.
    unfold audit_finds. rewrite Hp.
    assert (Hwf : well_formed f = true).
    { apply list_elem_of_lookup_2, list_elem_of_In in Hkf.
      rewrite forallb_forall in Hf. now apply Hf. }
    assert (Hne : p <> base /' "conversion_summary.csv").
    { rewrite <- task_output_path_is_audit_path in Hp.
      destruct (outputs_under_format_dir_aux _ _ _ _ _ _ Hk Hb Hwf Hp)
        as (_ & rest & Hparts).
      intros ->. unfold PurePath.join_str, PurePath.joinpath in Hparts.
      simpl in Hparts. apply app_inv_head in Hparts. inversion Hparts; subst.
      repeat (apply elem_of_cons in Hk as [Hk|Hk]; [discriminate Hk|]).
      now apply elem_of_nil in Hk. }
    rewrite <- (Hex p Hne).
    destruct (FS.exists_ (disk w2) p) eqn:E.
    + rewrite bool_decide_eq_true_2; [reflexivity|]. f_equal. now apply Hiff.
    + rewrite bool_decide_eq_false_2; [reflexivity|].
      intros [= Hst]. apply Hiff in Hst. discriminate Hst.
  - apply List.filter_length_le.
Qed.

Lemma success_count_matches_rows_witness :
  exists rows,
    FS.lookup_node
      (disk (snd (write_summary Runs.picky_engines Scenario.out "json"
                    (PurePath.of_string "in") "json" Reruns.jobs
                    Reruns.after_json_run)))
      (Scenario.out /' "conversion_summary.csv")
    = Some (Regular (CsvRows (["File"; "Status"; "Timestamp"] :: rows)))
    /\ length rows = length Reruns.jobs
    /\ success_rows rows = 1
    /\ 1 <= length Reruns.jobs.
Proof.
  apply (success_count_matches_rows Runs.picky_engines Scenario.out "json"
           (PurePath.of_string "in") Reruns.jobs Reruns.after_json_run 1
           Reruns.after_json_run
           (snd (write_summary Runs.picky_engines Scenario.out "json"
                   (PurePath.of_string "in") "json" Reruns.jobs
                   Reruns.after_json_run))).
  - apply (bool_decide_unpack _). vm_compute. exact I.
  - reflexivity.
  - reflexivity.
  - vm_compute. reflexivity.
  - vm_compute. reflexivity.
Defined.

(** ** A batch with no job *)

#[local] Arguments write_summary : simpl never.

Lemma parent_of_summary base :
  PurePath.parent (base /' "conversion_summary.csv") = base.
Proof.
  destruct base as [abs ps]. unfold PurePath.parent, PurePath.join_str,
    PurePath.joinpath. simpl. now rewrite removelast_last.
Qed.

Lemma parent_of_output base : PurePath.parent (base /' "output") = base.
Proof.
  destruct base as [abs ps]. unfold PurePath.parent, PurePath.join_str,
    PurePath.joinpath. simpl. now rewrite removelast_last.
Qed.

(** The walk up from a path that has an entry stops there. *)
Lemma nearest_entry_found d abs l n :
  l <> [] -> FS.lookup_node d (mkPath abs l) = Some n ->
  FS.nearest_entry d abs (rev l) = n.
Proof.
  intros Hl Hn. destruct (rev l) as [|x up] eqn:E.
  - apply (f_equal (@rev string)) in E. rewrite rev_involutive in E.
    now contradiction Hl.
  - unfold FS.nearest_entry; fold FS.nearest_entry.
    now rewrite <- E, rev_involutive, Hn.
Qed.

(** From a missing path in a directory, it stops at that directory. *)
Lemma nearest_entry_in_dir d p :
  FS.exists_ d p = false -> FS.is_dir d (PurePath.parent p) = true ->
  FS.nearest_entry d (absolute p) (rev (parts p)) = Directory.
Proof.
  destruct p as [abs ps]. unfold FS.exists_, PurePath.parent. simpl.
  intros He Hd. destruct (decide (ps = [])) as [->|Hne]; [reflexivity|].
  destruct (exists_last Hne) as (l & x & ->).
  rewrite removelast_last in Hd. rewrite rev_app_distr. simpl rev at 1.
  simpl app. unfold FS.nearest_entry; fold FS.nearest_entry.
  replace (rev (x :: rev l)) with (l ++ [x]) by (simpl; now rewrite rev_involutive).
  destruct (FS.lookup_node d (mkPath abs (l ++ [x]))); [discriminate He|].
  destruct (decide (l = [])) as [->|Hl]; [reflexivity|].
  apply nearest_entry_found; [exact Hl|]. now apply is_dir_lookup.
Qed.

(** Opening the summary in a folder that does not exist: [FileNotFoundError]
    when the folder is only missing, [NotADirectoryError] when the walk
    down to it stops at a regular file. *)
Lemma write_summary_without_dir c base format_key input_base ext files w :
  FS.exists_ (disk w) base = false ->
  exists e,
    write_summary c base format_key input_base ext files w = (Raises e, w)
    /\ (exn_class e = FileNotFoundError \/ exn_class e = NotADirectoryError)
    /\ (FS.is_dir (disk w) (PurePath.parent base) = true ->
        exn_class e = FileNotFoundError).
Proof.
  intros H. unfold write_summary, on_disk, FS.write, mbind, M_bind.
  rewrite parent_of_summary.
  assert (Hd : FS.is_dir (disk w) base = false).
  { unfold FS.exists_, FS.is_dir in *. now destruct (FS.lookup_node (disk w) base). }
  rewrite Hd.
  replace (absolute (base /' "conversion_summary.csv")) with (absolute base)
    by reflexivity.
  destruct (FS.nearest_entry (disk w) (absolute base) (rev (parts base))) eqn:E.
  - eexists. split; [reflexivity|]. split; [now left|reflexivity].
  - eexists. split; [reflexivity|]. split; [now right|].
    intros Hp. rewrite (nearest_entry_in_dir _ _ H Hp) in E. discriminate E.
Qed.

(** The summary of no job, in a folder that exists: the header alone. *)
Lemma write_summary_of_nothing c base format_key input_base ext w :
  FS.is_dir (disk w) base = true ->
  FS.is_dir (disk w) (base /' "conversion_summary.csv") = false ->
  exists w',
    write_summary c base format_key input_base ext [] w = (Returns tt, w')
    /\ conversion_log w' = conversion_log w
    /\ FS.lookup_node (disk w') (base /' "conversion_summary.csv")
       = Some (Regular (CsvRows [["File"; "Status"; "Timestamp"]])).
Proof.
  intros Hd Hc. unfold write_summary, on_disk, FS.write, mbind, M_bind.
  rewrite parent_of_summary.
  rewrite Hd, Hc. simpl. eexists. split; [reflexivity|]. split; [reflexivity|].
  simpl. apply (lookup_append_row _ _ _ []), lookup_put, csv_path_parts.
Qed.

Lemma run_batch_empty_without_dir c g source_path format_key use_gpu w :
  enumerate_files (disk w) source_path = [] ->
  FS.exists_ (disk w) (script_dir c /' "output") = false ->
  exists e w',
    run_batch c g source_path format_key use_gpu w = (Raises e, w')
    /\ (exn_class e = FileNotFoundError \/ exn_class e = NotADirectoryError)
    /\ (FS.is_dir (disk w) (script_dir c) = true ->
        exn_class e = FileNotFoundError)
    /\ disk w' = disk w
    /\ List.last (conversion_log w') "" = "done!".
Proof.
  intros Hf Hex.
  unfold run_batch, pool_imap, start_pool, imap_results, mbind, M_bind, log. simpl.
  rewrite Hf. simpl.
  match goal with
  | |- context [write_summary ?c0 ?b ?k ?i ?x ?l ?w0] =>
      destruct (write_summary_without_dir c0 b k i x l w0 Hex)
        as (e & -> & He & Hfnf)
  end.
  rewrite parent_of_output in Hfnf.
  eexists. eexists. split; [reflexivity|]. split; [exact He|].
  split; [exact Hfnf|].
  split; [reflexivity|]. simpl. apply List.last_last.
Qed.

Lemma run_batch_empty_with_dir c g source_path format_key use_gpu w :
  enumerate_files (disk w) source_path = [] ->
  FS.is_dir (disk w) (script_dir c /' "output") = true ->
  FS.is_dir (disk w) (script_dir c /' "output" /' "conversion_summary.csv") = false ->
  exists w' earlier,
    run_batch c g source_path format_key use_gpu w = (Returns tt, w')
    /\ FS.lookup_node (disk w') (script_dir c /' "output" /' "conversion_summary.csv")
       = Some (Regular (CsvRows [["File"; "Status"; "Timestamp"]]))
    /\ conversion_log w'
       = conversion_log w ++ earlier
         ++ ["Successfully converted: 0";
             "Failed conversions: 0";
             "Total files processed: 0";
             "Warning: No supported input files were found.";
             rule].
Proof.
  intros Hf Hd Hc.
  unfold run_batch, pool_imap, start_pool, imap_results, mbind, M_bind, log. simpl.
  rewrite Hf. simpl.
  match goal with
  | |- context [write_summary ?c0 ?b ?k ?i ?x [] ?w0] =>
      destruct (write_summary_of_nothing c0 b k i x w0 Hd Hc) as (w1 & -> & Hl & Hcsv)
  end.
  eexists.
  exists [rule;
          "Processing... " +:+ PurePath.to_string source_path;
          rule +:+ nl;
          nl +:+ "Total document processing time: " +:+ elapsed c +:+ " seconds";
          rule;
          "done!"].
  split; [reflexivity|]. split; [exact Hcsv|].
  cbn [conversion_log]. rewrite Hl. cbn [conversion_log].
  replace (pretty 0) with "0" by (vm_compute; reflexivity).
  repeat rewrite <- app_assoc. reflexivity.
Qed.

(** X12. A run that finds no job, started where the output folder does not
    exist yet: no task has made the folder, so opening the summary raises
    out of [main], [FileNotFoundError] where the folder of the script is a
    directory (and [NotADirectoryError] at most where the walk down to the
    output folder stops at a regular file).  The last line logged is
    [done!]: neither the counts nor the warning about no supported files
    appear, and the disk is as it was. *)
Theorem empty_run_without_output_dir_raises :
  forall (c : Collaborators) (easyocr_importable : bool) (w : World)
         (line1 line2 : string) (rest : list string) (format_key : string),
    stdin w = line1 :: line2 :: rest ->
    FS.exists_ (disk w) (PurePath.of_string (Str.strip line1)) = true ->
    format_map !! Str.strip line2 = Some format_key ->
    (easyocr_importable = true -> rest <> []) ->
    enumerate_files (disk w) (PurePath.of_string (Str.strip line1)) = [] ->
    FS.exists_ (disk w) (script_dir c /' "output") = false ->
    exists e w',
      main c easyocr_importable w = (Raises e, w')
      /\ (exn_class e = FileNotFoundError \/ exn_class e = NotADirectoryError)
      /\ (FS.is_dir (disk w) (script_dir c) = true ->
          exn_class e = FileNotFoundError)
      /\ disk w' = disk w
      /\ List.last (conversion_log w') "" = "done!".
Proof.
  intros c imp w line1 line2 rest fk Hin Hex Hfm Hrest Hf Hout.
  destruct (main_reaches_batch c imp w line1 line2 rest fk Hin Hex Hfm Hrest)
    as (use_gpu & left & ->).
  destruct (run_batch_empty_without_dir c (module_at_import imp)
              (PurePath.of_string (Str.strip line1)) fk use_gpu
              (after_prompts w left) Hf Hout)
    as (e & w' & Hr & He & Hfnf & Hd & Hl).
  exists e, w'. auto.
Qed.

Lemma empty_run_without_output_dir_raises_witness :
  exists e w',
    main Scenario.engines false
      (Scenario.world Reruns.nothing_to_convert_no_output ["notes"; "3"])
    = (Raises e, w')
    /\ (exn_class e = FileNotFoundError \/ exn_class e = NotADirectoryError)
    /\ (FS.is_dir
          (disk (Scenario.world Reruns.nothing_to_convert_no_output ["notes"; "3"]))
          (script_dir Scenario.engines) = true ->
        exn_class e = FileNotFoundError)
    /\ disk w'
       = disk (Scenario.world Reruns.nothing_to_convert_no_output ["notes"; "3"])
    /\ List.last (conversion_log w') "" = "done!".
Proof.
  apply (empty_run_without_output_dir_raises Scenario.engines false
           (Scenario.world Reruns.nothing_to_convert_no_output ["notes"; "3"])
           "notes" "3" [] "md");
    try reflexivity.
  intros H. discriminate H.
Defined.

(** In that run the folder of the script is there, and the class is
    [FileNotFoundError]. *)
Example empty_run_error :
  FS.is_dir Reruns.nothing_to_convert_no_output (script_dir Scenario.engines) = true
  /\ fst (main Scenario.engines false
            (Scenario.world Reruns.nothing_to_convert_no_output ["notes"; "3"]))
     = Raises (Exn FileNotFoundError
                 "[Errno 2] No such file or directory: '/app/output/conversion_summary.csv'").
Proof. split; vm_compute; reflexivity. Qed.

(** X13. A run that finds no job, started where the output folder exists:
    [main] returns, the summary holds the header and no row, and the log
    ends with the three counts at zero, the warning that no supported input
    file was found, and the closing rule. *)
Theorem empty_run_reports_zero :
  forall (c : Collaborators) (easyocr_importable : bool) (w : World)
         (line1 line2 : string) (rest : list string) (format_key : string),
    stdin w = line1 :: line2 :: rest ->
    FS.exists_ (disk w) (PurePath.of_string (Str.strip line1)) = true ->
    format_map !! Str.strip line2 = Some format_key ->
    (easyocr_importable = true -> rest <> []) ->
    enumerate_files (disk w) (PurePath.of_string (Str.strip line1)) = [] ->
    FS.is_dir (disk w) (script_dir c /' "output") = true ->
    FS.is_dir (disk w) (script_dir c /' "output" /' "conversion_summary.csv")
    = false ->
    exists w' earlier,
      main c easyocr_importable w = (Returns tt, w')
      /\ FS.lookup_node (disk w')
           (script_dir c /' "output" /' "conversion_summary.csv")
         = Some (Regular (CsvRows [["File"; "Status"; "Timestamp"]]))
      /\ conversion_log w'
         = conversion_log w ++ earlier
           ++ ["Successfully converted: 0";
               "Failed conversions: 0";
               "Total files processed: 0";
               "Warning: No supported input files were found.";
               rule].
Proof.
  intros c imp w line1 line2 rest fk Hin Hex Hfm Hrest Hf Hd Hc.
  destruct (main_reaches_batch c imp w line1 line2 rest fk Hin Hex Hfm Hrest)
    as (use_gpu & left & ->).
  destruct (run_batch_empty_with_dir c (module_at_import imp)
              (PurePath.of_string (Str.strip line1)) fk use_gpu
              (after_prompts w left) Hf Hd Hc)
    as (w' & earlier & Hr & Hcsv & Hlog).
  exists w', (prompt_lines ++ earlier). split; [exact Hr|]. split; [exact Hcsv|].
  rewrite Hlog. simpl. now rewrite <- app_assoc.
Qed.

Lemma empty_run_reports_zero_witness :
  exists w' earlier,
    main Scenario.engines false
      (Scenario.world Reruns.nothing_to_convert ["notes"; "3"])
    = (Returns tt, w')
    /\ FS.lookup_node (disk w')
         (script_dir Scenario.engines /' "output" /' "conversion_summary.csv")
       = Some (Regular (CsvRows [["File"; "Status"; "Timestamp"]]))
    /\ conversion_log w'
       = conversion_log (Scenario.world Reruns.nothing_to_convert ["notes"; "3"])
         ++ earlier
         ++ ["Successfully converted: 0";
             "Failed conversions: 0";
             "Total files processed: 0";
             "Warning: No supported input files were found.";
             rule].
Proof.
  apply (empty_run_reports_zero Scenario.engines false
           (Scenario.world Reruns.nothing_to_convert ["notes"; "3"])
           "notes" "3" [] "md");
    try reflexivity.
  intros H. discriminate H.
Defined.

(** ** A task that raises ends the run *)

#[local] Arguments pool_imap : simpl never.






(** That run, evaluated: the pdf and the folder that is named like one are
    saved, the tasks of the two images raise, and the log ends with the
    lines of the tasks. *)
Example ocr_run_of_tree :
  let run := main Scenario.engines true
               (Scenario.world Scenario.tree ["in"; "2"; " Y "]) in
  fst run
  = Raises (Exn AttributeError "'NoneType' object has no attribute 'readtext'")
  /\ conversion_log (snd run)
     = prompt_lines
       ++ [rule; "Processing... in"; rule +:+ nl;
           "Saved JSON to /app/output/json/in/a.json";
           "Saved JSON to /app/output/json/in/scans.json"]
  /\ FS.exists_ (disk (snd run))
       (PurePath.of_string "/app/output/conversion_summary.csv") = false.
Proof. vm_compute. repeat split; reflexivity. Qed.

(** ** Running a task again *)

(** What the OCR step answers does not depend on the world it runs in. *)
Lemma ocr_outcome_independent c g file_path rc w w' :
  fst (ocr_block c g file_path rc w) = fst (ocr_block c g file_path rc w').
Proof.
  unfold ocr_block, try_except, gpu_attempt, cpu_fallback, call_readtext, log,
    raise, mbind, M_bind, mret, M_ret.
  destruct (GPU_AVAILABLE g), (OCR_READER_GPU g), (OCR_READER_CPU g), rc; simpl;
    repeat case_match; simplify_eq; try reflexivity; congruence.
Qed.

Lemma handlers_have_encoders c k save_func :
  handlers c !! k = Some save_func ->
  exists how label, encoder_of k = Some (how, label).
Proof.
  rewrite handlers_lookup. unfold encoder_of.
  repeat (destruct (String.eqb k _); [eauto|]). discriminate.
Qed.

(** X15. Running the body of a task again on the disk that its successful
    run left succeeds again and leaves that disk exactly as it is: the
    directories are found in place and the output is overwritten by the
    same encoded document. *)
Theorem rerun_overwrites_in_place :
  forall (c : Collaborators) (g : ModuleGlobals) (file_path : Path) (ext : string)
         (output_root : Path) (format_key : string) (input_base : Path)
         (use_gpu : bool) (rc : option Reader) (save_func : SaveFunc)
         (w w1 : World),
    handlers c !! format_key = Some save_func ->
    task_body c g file_path ext output_root format_key input_base use_gpu rc
      save_func w = (Returns tt, w1) ->
    exists w2,
      task_body c g file_path ext output_root format_key input_base use_gpu rc
        save_func w1 = (Returns tt, w2)
      /\ disk w2 = disk w1.
Proof.
  intros c g f ext out fk base use_gpu rc sf w w1 Hs H.
  destruct (handlers_have_encoders _ _ _ Hs) as (how & label & He).
  rewrite (handlers_encoder _ _ _ _ _ Hs He) in *. clear Hs He.
  unfold task_body in *.
  apply bind_inv in H as [(res & wa & Hc & H)|(e & _ & Hf)]; [|discriminate Hf].
  unfold lift in Hc. injection Hc as Hc <-.
  apply bind_inv in H as [(u & wb & Ho & H)|(e & _ & Hf)]; [|discriminate Hf].
  destruct u.
  apply bind_inv in H as [(td & wc & Ht & H)|(e & _ & Hf)]; [|discriminate Hf].
  unfold lift in Ht. injection Ht as Ht <-.
  apply bind_inv in H as [(u & wd & Hm & H)|(e & _ & Hf)]; [|discriminate Hf].
  destruct u.
  apply bind_inv in H as [(u & we & Hw & Hl)|(e & _ & Hf)]; [|discriminate Hf].
  destruct u.
  (* what the first run did to the disk *)
  apply on_disk_returns in Hm as (d1 & Emk & ->).
  pose proof (write_document_returns _ _ _ _ _ _ _ Hw)
    as (d2 & Hwe & _ & _ & _ & _ & _ & Hdir & _).
  simpl disk in Hdir.
  assert (Hd1 : disk w1 = d2).
  { unfold log in Hl. injection Hl as <-. now rewrite Hwe. }
  clear Hl.
  (* the second run, step by step *)
  assert (Ho2 : exists wb2,
             (if ocr_eligible use_gpu f then ocr_block c g f rc else mret tt) w1
             = (Returns tt, wb2) /\ disk wb2 = d2).
  { destruct (ocr_eligible use_gpu f); [|exists w1; split; [reflexivity|exact Hd1]].
    pose proof (ocr_outcome_independent c g f rc w w1) as Hi.
    destruct (ocr_block c g f rc w1) as [r2 wb2] eqn:E2.
    rewrite Ho in Hi. simpl in Hi. subst r2.
    exists wb2. split; [reflexivity|].
    apply ocr_block_disk in E2. now rewrite E2. }
  destruct Ho2 as (wb2 & Ho2 & Hd2).
  assert (Hmk2 : on_disk (FS.mkdir td) wb2 = (Returns tt, wb2)).
  { apply on_disk_noop. rewrite Hd2. unfold FS.mkdir in *. apply mkdir_go_noop.
    apply (dirs_exist_mono _ _ _ d1); [exact Hdir|].
    exact (mkdir_go_dirs_exist _ _ _ _ _ Emk). }
  assert (Hw2 : write_document c how (image_mode_of fk) (document res)
                  (task_target_file td f ext) wb2
                = (Returns tt, wb2)).
  { apply (write_document_again _ _ _ _ _ _ _ _ Hw). now rewrite Hd2, Hwe. }
  exists (with_line wb2
            ("Saved " +:+ label +:+ " to "
             +:+ PurePath.to_string (task_target_file td f ext))).
  split; [|simpl; now rewrite Hd2, Hd1].
  rewrite Hc.
  rewrite (bind_returns _ _ w1 res w1 eq_refl). cbv beta.
  rewrite (bind_returns _ _ _ _ _ Ho2). cbv beta.
  rewrite Ht.
  rewrite (bind_returns _ _ wb2 td wb2 eq_refl). cbv beta.
  rewrite (bind_returns _ _ _ _ _ Hmk2). cbv beta.
  rewrite (bind_returns _ _ _ _ _ Hw2). reflexivity.
Qed.

Lemma rerun_overwrites_in_place_witness :
  exists w2,
    task_body Scenario.engines (module_at_import false)
      (PurePath.of_string "in/a.pdf") "json" Scenario.out "json"
      (PurePath.of_string "in") false None (_save_json Scenario.engines)
      (snd (task_body Scenario.engines (module_at_import false)
              (PurePath.of_string "in/a.pdf") "json" Scenario.out "json"
              (PurePath.of_string "in") false None (_save_json Scenario.engines)
              (Scenario.world Scenario.two_pdfs [])))
    = (Returns tt, w2)
    /\ disk w2
       = disk (snd (task_body Scenario.engines (module_at_import false)
                      (PurePath.of_string "in/a.pdf") "json" Scenario.out "json"
                      (PurePath.of_string "in") false None
                      (_save_json Scenario.engines)
                      (Scenario.world Scenario.two_pdfs []))).
Proof.
  apply (rerun_overwrites_in_place Scenario.engines (module_at_import false)
           (PurePath.of_string "in/a.pdf") "json" Scenario.out "json"
           (PurePath.of_string "in") false None (_save_json Scenario.engines)
           (Scenario.world Scenario.two_pdfs [])).
  - reflexivity.
  - vm_compute. reflexivity.
Defined.

(** The same for a page with a picture saved as HTML: the folder of
    pictures and the picture are found in place too. *)
Example rerun_of_html :
  let task := task_body Runs.picture_engines (module_at_import false)
                (PurePath.of_string "in/a.pdf") "html" Scenario.out "html"
                (PurePath.of_string "in") false None
                (_save_html Runs.picture_engines) in
  let first := task (Scenario.world Scenario.two_pdfs []) in
  fst first = Returns tt
  /\ fst (task (snd first)) = Returns tt
  /\ disk (snd (task (snd first))) = disk (snd first)
  /\ FS.lookup_node (disk (snd first))
       (PurePath.of_string "/app/output/html/in/a_artifacts/image_000000_1f8a.png")
     = Some (Regular OtherData).
Proof. vm_compute. repeat split; reflexivity. Qed.

(** ** Readers that are handed in *)

(** X16. [process_file] builds readers only when OCR is on, easyocr is
    importable and no accelerated reader was handed in; in every other
    case (OCR off, easyocr missing, or a reader passed by the caller) no
    reader is built, however the task ends. *)
Theorem no_reader_built_unless_needed :
  forall (c : Collaborators) (g : ModuleGlobals) (file_path : Path) (ext : string)
         (output_root : Path) (format_key : string) (input_base : Path)
         (use_gpu : bool) (rg rc : option Reader) (w : World),
    use_gpu && GPU_AVAILABLE g && bool_decide (rg = None) = false ->
    readers_created
      (snd (process_file c g file_path ext output_root format_key input_base
              use_gpu rg rc w))
    = readers_created w.
Proof.
  intros c g f ext out fk base use_gpu rg rc w Hcond.
  assert (Hk : keeps_readers
                 (process_file c g f ext out fk base use_gpu rg rc)).
  { unfold process_file, init_readers. rewrite Hcond.
    apply keeps_readers_bind; [apply keeps_readers_ret|intros rs].
    destruct (handlers c !! fk) as [save_func|] eqn:Hs;
      [|apply keeps_readers_raise].
    apply keeps_readers_try; [|intros e; apply keeps_readers_log].
    now apply keeps_readers_task_body. }
  destruct (process_file c g f ext out fk base use_gpu rg rc w) as [r w'] eqn:E.
  exact (Hk _ _ _ E).
Qed.

Lemma no_reader_built_unless_needed_witness :
  readers_created
    (snd (process_file Scenario.engines (module_at_import true)
            (PurePath.of_string "in/a.pdf") "md" Scenario.out "md"
            (PurePath.of_string "in") true (Some Scenario.cpu_reader) None
            (Scenario.world Scenario.two_pdfs [])))
  = readers_created (Scenario.world Scenario.two_pdfs []).
Proof.
  apply (no_reader_built_unless_needed Scenario.engines (module_at_import true)
           (PurePath.of_string "in/a.pdf") "md" Scenario.out "md"
           (PurePath.of_string "in") true (Some Scenario.cpu_reader) None
           (Scenario.world Scenario.two_pdfs [])).
  reflexivity.
Defined.

(** ** A single file as input *)

Lemma joinpath_nothing p : p // mkPath false [] = p.
Proof.
  destruct p as [abs ps]. unfold PurePath.joinpath. simpl. now rewrite app_nil_r.
Qed.

(** X17. When the input is a single file, it is the only job whatever its
    extension, the input base is its parent, and its output goes straight
    into [output_root / format_key / <name of the parent>], with no
    subfolder in between. *)
Theorem single_file_output :
  forall (d : list (Path * node)) (source_path output_root : Path)
         (format_key ext : string),
    FS.is_file d source_path = true ->
    enumerate_files d source_path = [source_path]
    /\ input_base_of d source_path = PurePath.parent source_path
    /\ summary_output_path output_root format_key (input_base_of d source_path)
         source_path ext
       = Returns (output_root /' format_key
                  /' PurePath.name (PurePath.parent source_path)
                  /' (PurePath.stem source_path +:+ "." +:+ ext)).
Proof.
  intros d src out fk ext Hf.
  assert (Hb : input_base_of d src = PurePath.parent src).
  { unfold input_base_of. now rewrite (is_file_not_dir _ _ Hf). }
  split; [now apply enumerate_single_file|]. split; [exact Hb|].
  rewrite Hb. unfold summary_output_path.
  rewrite (relative_to_parts (PurePath.parent src) (PurePath.parent src) []);
    [|reflexivity|now rewrite app_nil_r].
  now rewrite joinpath_nothing.
Qed.

Lemma single_file_output_witness :
  enumerate_files Scenario.tree (PurePath.of_string "in/sub/notes.txt")
  = [PurePath.of_string "in/sub/notes.txt"]
  /\ input_base_of Scenario.tree (PurePath.of_string "in/sub/notes.txt")
     = PurePath.parent (PurePath.of_string "in/sub/notes.txt")
  /\ summary_output_path Scenario.out "txt"
       (input_base_of Scenario.tree (PurePath.of_string "in/sub/notes.txt"))
       (PurePath.of_string "in/sub/notes.txt") "txt"
     = Returns (Scenario.out /' "txt"
                /' PurePath.name (PurePath.parent (PurePath.of_string "in/sub/notes.txt"))
                /' (PurePath.stem (PurePath.of_string "in/sub/notes.txt")
                    +:+ "." +:+ "txt")).
Proof.
  apply (single_file_output Scenario.tree (PurePath.of_string "in/sub/notes.txt")
           Scenario.out "txt" "txt").
  reflexivity.
Defined.

(** ** How much of standard input a run reads *)

Lemma same_stdin_same {A} (m : M A) :
  (forall w, stdin (snd (m w)) = stdin w) -> respects same_stdin m.
Proof.
  intros Hm w r w' H. specialize (Hm w). rewrite H in Hm. exact Hm.
Qed.

Lemma same_stdin_on_disk f : respects same_stdin (on_disk f).
Proof.
  apply same_stdin_same. intros w. unfold on_disk. now destruct (f (disk w)).
Qed.

Lemma same_stdin_open_write c how doc p :
  respects same_stdin (open_and_write c how doc p).
Proof.
  apply same_stdin_same. intros w.
  now destruct (open_and_write_only_disk c how doc p w) as [d' ->].
Qed.

Lemma same_stdin_process_file c g file_path ext output_root format_key input_base
    use_gpu rg rc :
  respects same_stdin
    (process_file c g file_path ext output_root format_key input_base use_gpu rg rc).
Proof.
  assert (Ht : forall w1 w2 w3,
             same_stdin w1 w2 -> same_stdin w2 w3 -> same_stdin w1 w3).
  { unfold same_stdin. congruence. }
  apply respects_process_file_gen;
    try (intros; first [ reflexivity
                       | eapply Ht; eassumption
                       | apply same_stdin_on_disk
                       | apply same_stdin_open_write
                       | now apply same_stdin_same ]).
  - apply same_stdin_same. intros w. unfold init_readers.
    now destruct (use_gpu && GPU_AVAILABLE g && bool_decide (rg = None)).
  - intros rc'. destruct (ocr_eligible use_gpu file_path);
      [|now apply same_stdin_same].
    unfold ocr_block, gpu_attempt, cpu_fallback.
    apply (respects_try _ Ht).
    + destruct (GPU_AVAILABLE g), (OCR_READER_GPU g);
        try (now apply same_stdin_same).
      apply (respects_bind _ Ht); [now apply same_stdin_same|intros lines].
      now apply same_stdin_same.
    + intros e. destruct (OCR_READER_CPU g), rc'; try (now apply same_stdin_same).
      apply (respects_bind _ Ht); [now apply same_stdin_same|intros _].
      apply (respects_bind _ Ht); [now apply same_stdin_same|intros lines].
      now apply same_stdin_same.
Qed.

Lemma same_stdin_run_batch c g source_path format_key use_gpu :
  respects same_stdin (run_batch c g source_path format_key use_gpu).
Proof.
  apply respects_run_batch;
    try (intros; first [ reflexivity
                       | unfold same_stdin in *; congruence
                       | apply same_stdin_on_disk
                       | apply same_stdin_process_file
                       | now apply same_stdin_same ]).
Qed.

(** X18. With valid answers, [main] reads two lines of standard input
    where easyocr cannot be imported (the OCR question is not asked) and
    three where it can, and nothing more, however the batch ends. *)
Theorem prompts_read :
  forall (c : Collaborators) (w : World) (line1 line2 : string)
         (rest : list string) (format_key : string),
    stdin w = line1 :: line2 :: rest ->
    FS.exists_ (disk w) (PurePath.of_string (Str.strip line1)) = true ->
    format_map !! Str.strip line2 = Some format_key ->
    stdin (snd (main c false w)) = rest
    /\ forall line3 rest',
         rest = line3 :: rest' -> stdin (snd (main c true w)) = rest'.
Proof.
  intros c w line1 line2 rest fk Hin Hex Hfm. split.
  - rewrite (main_reaches_batch_no_ocr c w line1 line2 rest fk Hin Hex Hfm).
    apply (respects_snd same_stdin _ (after_prompts w rest)).
    apply same_stdin_run_batch.
  - intros line3 rest' ->.
    rewrite (main_reaches_batch_ocr c w line1 line2 line3 rest' fk Hin Hex Hfm).
    apply (respects_snd same_stdin _ (after_prompts w rest')).
    apply same_stdin_run_batch.
Qed.

Lemma prompts_read_witness :
  stdin (snd (main Scenario.engines false
                (Scenario.world Scenario.two_pdfs ["in"; "2"; "y"; "more"])))
  = ["y"; "more"]
  /\ forall line3 rest',
       ["y"; "more"] = line3 :: rest' ->
       stdin (snd (main Scenario.engines true
                     (Scenario.world Scenario.two_pdfs ["in"; "2"; "y"; "more"])))
       = rest'.
Proof.
  apply (prompts_read Scenario.engines
           (Scenario.world Scenario.two_pdfs ["in"; "2"; "y"; "more"])
           "in" "2" ["y"; "more"] "json");
    reflexivity.
Defined.

(** ** The jobs of a directory *)

(** X19. For a directory input, the jobs are exactly the entries of the
    disk strictly below it (files and directories alike, at any depth)
    whose lower-cased suffix is one of the six supported ones; an input
    that is neither a regular file nor a directory gives no job. *)
Theorem jobs_of_a_directory :
  forall (d : list (Path * node)) (source_path : Path),
    (FS.is_dir d source_path = true ->
     forall f,
       In f (enumerate_files d source_path)
       <-> (exists n, In (f, n) d)
           /\ FS.below source_path f = true
           /\ Str.mem (Str.lower (PurePath.suffix f))
                [".pdf"; ".jpg"; ".jpeg"; ".png"; ".tiff"; ".bmp"] = true)
    /\ (FS.is_file d source_path = false -> FS.is_dir d source_path = false ->
        enumerate_files d source_path = []).
Proof.
  intros d src. split.
  - intros Hd f. exact (enumerate_directory d src f Hd).
  - intros Hf Hd. unfold enumerate_files, FS.rglob. now rewrite Hf, Hd.
Qed.

Lemma jobs_of_a_directory_witness :
  (forall f,
     In f (enumerate_files Scenario.tree (PurePath.of_string "in"))
     <-> (exists n, In (f, n) Scenario.tree)
         /\ FS.below (PurePath.of_string "in") f = true
         /\ Str.mem (Str.lower (PurePath.suffix f))
              [".pdf"; ".jpg"; ".jpeg"; ".png"; ".tiff"; ".bmp"] = true)
  /\ enumerate_files Scenario.tree (PurePath.of_string "elsewhere") = [].
Proof.
  split.
  - apply (proj1 (jobs_of_a_directory Scenario.tree (PurePath.of_string "in"))).
    reflexivity.
  - apply (proj2 (jobs_of_a_directory Scenario.tree (PurePath.of_string "elsewhere")));
      reflexivity.
Defined.

(** ** Exceptions the boundary does not list *)

(** X20. An exception of the try block that is none of
    [FileNotFoundError], [RuntimeError], [ValueError] (nor of a subclass)
    leaves [process_file] as it is: the same exception, the world the body
    left, and no error line in the log. *)
Theorem other_errors_escape :
  forall (c : Collaborators) (g : ModuleGlobals) (file_path : Path) (ext : string)
         (output_root : Path) (format_key : string) (input_base : Path)
         (use_gpu : bool) (rg rc : option Reader) (w : World)
         (rs : option Reader * option Reader) (w1 : World)
         (save_func : SaveFunc) (e : exn) (w2 : World),
    init_readers g use_gpu rg rc w = (Returns rs, w1) ->
    handlers c !! format_key = Some save_func ->
    task_body c g file_path ext output_root format_key input_base use_gpu (snd rs)
      save_func w1 = (Raises e, w2) ->
    caught_by task_boundary e = false ->
    process_file c g file_path ext output_root format_key input_base use_gpu
      rg rc w = (Raises e, w2).
Proof.
  intros c g f ext out fk base use_gpu rg rc w rs w1 sf e w2 Hi Hs Hb Hc.
  unfold process_file. rewrite (bind_returns _ _ _ _ _ Hi), Hs.
  exact (try_except_escapes _ _ _ _ _ _ Hb Hc).
Qed.

Lemma other_errors_escape_witness :
  process_file Scenario.engines (module_at_import false)
    (PurePath.of_string "in/a.pdf") "md" Scenario.out "md"
    (PurePath.of_string "in") false None None
    (Scenario.world Scenario.md_in_the_way [])
  = (Raises (Exn NotADirectoryError
               "[Errno 20] Not a directory: '/app/output/md/in'"),
     Scenario.world Scenario.md_in_the_way []).
Proof.
  apply (other_errors_escape Scenario.engines (module_at_import false)
           (PurePath.of_string "in/a.pdf") "md" Scenario.out "md"
           (PurePath.of_string "in") false None None
           (Scenario.world Scenario.md_in_the_way [])
           (None, None) (Scenario.world Scenario.md_in_the_way [])
           (_save_markdown Scenario.engines));
    reflexivity.
Defined.

(** ** The fallback, when both names are set *)

(** X21. The OCR step as lines 116-130 have it: when the accelerated
    attempt raises a [RuntimeError] or a [ValueError], the module-level
    [OCR_READER_CPU] is set, the task holds a standard reader and that
    reader's attempt returns, then the notice and the count are logged in
    this order and exactly one [readtext] call is made, on the reader of
    the task (not on the module-level one). *)
Theorem fallback_uses_task_reader :
  forall (c : Collaborators) (g : ModuleGlobals) (file_path : Path)
         (r0 r : Reader) (e : exn) (w w1 : World) (lines : list string),
    OCR_READER_CPU g = Some r0 ->
    gpu_attempt c g file_path w = (Raises e, w1) ->
    caught_by [RuntimeError; ValueError] e = true ->
    readtext c r (PurePath.to_string file_path) = Returns lines ->
    exists w',
      ocr_block c g file_path (Some r) w = (Returns tt, w')
      /\ conversion_log w'
         = conversion_log w1
           ++ ["GPU OCR failed for " +:+ PurePath.name file_path
               +:+ ", falling back to CPU OCR.";
               "CPU OCR result for " +:+ PurePath.name file_path +:+ ": "
               +:+ pretty (length lines) +:+ " lines detected"]
      /\ readtext_calls w' = readtext_calls w1 ++ [(r, file_path)].
Proof.
  intros c g f r0 r e w w1 lines Hg Ha Hc Hr. eexists. split.
  - unfold ocr_block. rewrite (try_except_caught _ _ _ _ _ _ Ha Hc).
    unfold cpu_fallback. rewrite Hg.
    unfold mbind, M_bind, log, call_readtext. simpl. rewrite Hr. reflexivity.
  - simpl. split; [now rewrite <- app_assoc|reflexivity].
Qed.

Lemma fallback_uses_task_reader_witness :
  exists w',
    ocr_block Scenario.engines module_with_cpu_reader
      (PurePath.of_string "in/scan.png") (Some task_reader)
      (Scenario.world Scenario.two_pdfs [])
    = (Returns tt, w')
    /\ conversion_log w'
       = conversion_log (Scenario.world Scenario.two_pdfs [])
         ++ ["GPU OCR failed for "
             +:+ PurePath.name (PurePath.of_string "in/scan.png")
             +:+ ", falling back to CPU OCR.";
             "CPU OCR result for "
             +:+ PurePath.name (PurePath.of_string "in/scan.png") +:+ ": "
             +:+ pretty (length ["first line"; "second line"]) +:+ " lines detected"]
    /\ readtext_calls w'
       = readtext_calls (Scenario.world Scenario.two_pdfs [])
         ++ [(task_reader, PurePath.of_string "in/scan.png")].
Proof.
  apply (fallback_uses_task_reader Scenario.engines module_with_cpu_reader
           (PurePath.of_string "in/scan.png") Scenario.cpu_reader task_reader
           (Exn RuntimeError "GPU not available")
           (Scenario.world Scenario.two_pdfs [])
           (Scenario.world Scenario.two_pdfs [])
           ["first line"; "second line"]);
    reflexivity.
Defined.

(** ** A batch in which every conversion fails *)









(** ** A write that fails *)



(** The whole run with such engines: both tasks log their error, and the
    summary reports both jobs as successes. *)
Example failed_writes_in_the_summary :
  let run := main Runs.unwritable_engines false
               (Scenario.world Scenario.two_pdfs ["in"; "4"]) in
  fst run = Returns tt
  /\ FS.lookup_node (disk (snd run))
       (PurePath.of_string "/app/output/conversion_summary.csv")
     = Some (Regular (CsvRows
          [["File"; "Status"; "Timestamp"];
           ["in/a.pdf"; "Success"; "2025-01-01T00:00:00"];
           ["in/b.pdf"; "Success"; "2025-01-01T00:00:01"]]))
  /\ List.filter (String.prefix "Error processing") (conversion_log (snd run))
     = ["Error processing a.pdf: " +:+ exn_text Runs.encode_error;
        "Error processing b.pdf: " +:+ exn_text Runs.encode_error]
  /\ In "Successfully converted: 2" (conversion_log (snd run)).
Proof. vm_compute. repeat split; try reflexivity. tauto. Qed.
